(** * makeiso.py: optical disc to ISO backup utility

    A shallow embedding of [src/makeiso.py] and the properties of its
    streaming copy loop, progress computation, duration formatting,
    structural-analysis adapter, manifest builder and exit status.

    Conventions of the embedding:
    - a Python [int] is a [Z]; a Python [float] is an IEEE 754 binary64
      value, [spec_float] with [prec = 53] and [emax = 1024], computed with
      the operations of [SpecFloat];
    - a Python [str] is a [string]; its characters are read as the code
      points 0..255;
    - a Python exception is an explicit error result;
    - a [Path] is the text [str] gives for it, and a file is known by that
      text; paths are joined as [pathlib] joins them;
    - a text file is written and read one byte per character, which is what
      the UTF-8 codec does for a text in ASCII; the properties of a text
      read back are stated for ASCII;
    - what the program reads from its surroundings (clock, uuid generator,
      user, external commands, file system) is an explicit input. *)

From Stdlib Require Import ZArith List String Ascii Bool Lia.
From Stdlib Require Import Floats.SpecFloat.
From Stdlib Require Import Decimal DecimalString DecimalPos.
From Stdlib Require Import Strings.Byte.
From stdpp Require Import base option gmap strings list.

Open Scope Z_scope.

(** ** Decimal rendering of integers *)

Definition str_of_Z (z : Z) : string := NilZero.string_of_int (Z.to_int z).

Fixpoint zeros (n : nat) : string :=
  match n with
  | O => ""
  | S n' => String "0" (zeros n')
  end.

(** ["%0<w>d"] for a non-negative integer. *)
Definition str_of_Z_width (w : nat) (z : Z) : string :=
  let s := str_of_Z z in
  zeros (w - String.length s) +:+ s.

(** ** Python floats (IEEE 754 binary64) *)

Module PyFloat.

Definition prec : Z := 53.
Definition emax : Z := 1024.

Abbreviation float := spec_float.

Definition zero : float := S754_zero false.
Definition add : float -> float -> float := SFadd prec emax.
Definition sub : float -> float -> float := SFsub prec emax.
Definition mul : float -> float -> float := SFmul prec emax.
Definition ieee_div : float -> float -> float := SFdiv prec emax.
Definition ltb : float -> float -> bool := SFltb.
Definition leb : float -> float -> bool := SFleb.
Definition eqb : float -> float -> bool := SFeqb.

Definition is_zero (x : float) : bool :=
  match x with S754_zero _ => true | _ => false end.

(** The sign bit is clear and the value is a number: [+0.0], a positive
    finite value or [+inf]. *)
Definition nonneg (x : float) : bool :=
  match x with
  | S754_zero s | S754_infinity s | S754_finite s _ _ => negb s
  | S754_nan => false
  end.

(** [+0.0] or a positive finite value. *)
Definition finite_nonneg (x : float) : bool :=
  match x with
  | S754_zero false | S754_finite false _ _ => true
  | _ => false
  end.

(** [m * 2^e] rounded to the nearest float, ties to even. *)
Definition round_dyadic (m e : Z) : float :=
  binary_normalize prec emax m e false.

(** The nearest float to the quotient of two integers, [d > 0]. *)
Definition round_quotient (n d : Z) : float :=
  match n, d with
  | Z0, _ => S754_zero false
  | Zpos p, Zpos q => ieee_div (S754_finite false p 0) (S754_finite false q 0)
  | Zneg p, Zpos q => ieee_div (S754_finite true p 0) (S754_finite false q 0)
  | _, _ => S754_nan
  end.

(** The float written [n * 10^k] in a program text ([float("<n>e<k>")]). *)
Definition of_decimal (n k : Z) : float :=
  if 0 <=? k then round_dyadic (n * 10 ^ k) 0
  else round_quotient n (10 ^ (- k)).

(** [float(z)] for an int: [None] is [OverflowError]. *)
Definition of_int (z : Z) : option float :=
  match round_dyadic z 0 with
  | S754_infinity _ => None
  | f => Some f
  end.

(** [x / y] on floats: [None] is [ZeroDivisionError]. *)
Definition div (x y : float) : option float :=
  if is_zero y then None else Some (ieee_div x y).

(** [int(x)]: truncation towards zero; [None] is [OverflowError] (an
    infinity) or [ValueError] (a NaN). *)
Definition to_int (x : float) : option Z :=
  match x with
  | S754_zero _ => Some 0
  | S754_finite s m e => Some (cond_Zopp s (Z.shiftl (Zpos m) e))
  | S754_infinity _ | S754_nan => None
  end.

(** C's [fmod] on finite operands, [y <> 0]: the exact remainder, with the
    sign of [x]. *)
Definition fmod (x y : float) : float :=
  match x, y with
  | S754_nan, _ | _, S754_nan => S754_nan
  | S754_infinity _, _ => S754_nan
  | _, S754_zero _ => S754_nan
  | _, S754_infinity _ => x
  | S754_zero _, _ => x
  | S754_finite sx mx ex, S754_finite _ my ey =>
      let e0 := Z.min ex ey in
      let X := Z.shiftl (Zpos mx) (ex - e0) in
      let Y := Z.shiftl (Zpos my) (ey - e0) in
      binary_normalize prec emax (cond_Zopp sx (X mod Y)) e0 sx
  end.

Definition sign_bit (x : float) : bool :=
  match x with
  | S754_zero s | S754_infinity s | S754_finite s _ _ => s
  | S754_nan => false
  end.

(** [x % y] on floats ([float_rem] of CPython): the result has the sign of
    [y]; [None] is [ZeroDivisionError]. *)
Definition mod_ (x y : float) : option float :=
  if is_zero y then None
  else
    let m := fmod x y in
    match m with
    | S754_zero _ => Some (S754_zero (sign_bit y))
    | S754_nan => Some m
    | _ => if xorb (sign_bit y) (sign_bit m) then Some (add m y) else Some m
    end.

(** [|x| * 10^nd] rounded to the nearest integer, ties to even, for a
    finite [x = m * 2^e]. *)
Definition scaled_round (m : positive) (e : Z) (nd : Z) : Z :=
  let num := Zpos m * 10 ^ nd in
  if 0 <=? e then num * 2 ^ e
  else
    let d := 2 ^ (- e) in
    let q := num / d in
    let r := num mod d in
    match Z.compare (2 * r) d with
    | Lt => q
    | Gt => q + 1
    | Eq => if Z.even q then q else q + 1
    end.

(** [round(x, nd)] for [0 <= nd]: the decimal with [nd] places nearest to
    the exact value of [x], converted back to the nearest float.  [None]
    is [OverflowError]. *)
Definition round_ndigits (x : float) (nd : Z) : option float :=
  match x with
  | S754_finite s m e =>
      let n := scaled_round m e nd in
      match n with
      | Z0 => Some (S754_zero s)
      | _ =>
          match round_quotient (cond_Zopp s n) (10 ^ nd) with
          | S754_infinity _ => None
          | f => Some f
          end
      end
  | _ => Some x
  end.

Definition sign_str (s : bool) : string := if s then "-" else "".

(** [format(x, ".<nd>f")]. *)
Definition format_fixed (nd : nat) (x : float) : string :=
  match x with
  | S754_nan => "nan"
  | S754_infinity s => sign_str s +:+ "inf"
  | S754_zero s =>
      sign_str s +:+ "0" +:+
      match nd with O => "" | _ => "." +:+ zeros nd end
  | S754_finite s m e =>
      let n := scaled_round m e (Z.of_nat nd) in
      let p := 10 ^ Z.of_nat nd in
      sign_str s +:+ str_of_Z (n / p) +:+
      match nd with
      | O => ""
      | _ => "." +:+ str_of_Z_width nd (n mod p)
      end
  end.

(** *** [repr] of a float

    The shortest decimal digit string that reads back as the same float,
    the closest to the exact value among the shortest, laid out as
    [float.__repr__] does: fixed notation for a decimal exponent in
    [-4, 16), exponent notation outside. *)

(** [floor (m * 2^e * 10^s)] and whether the product is an integer. *)
Definition floor_scaled (m : positive) (e s : Z) : Z * bool :=
  let num := Zpos m * 2 ^ Z.max e 0 * 10 ^ Z.max s 0 in
  let den := 2 ^ Z.max (- e) 0 * 10 ^ Z.max (- s) 0 in
  (num / den, num mod den =? 0).

(** Twice the distance comparison: is [m * 2^e * 10^s - lo] below, at or
    above one half? *)
Definition frac_vs_half (m : positive) (e s : Z) : comparison :=
  let num := Zpos m * 2 ^ Z.max e 0 * 10 ^ Z.max s 0 in
  let den := 2 ^ Z.max (- e) 0 * 10 ^ Z.max (- s) 0 in
  Z.compare (2 * (num mod den)) den.

(** The decimal exponent [E] with [10^E <= m * 2^e < 10^(E+1)]. *)
Definition decimal_exponent (m : positive) (e : Z) : Z :=
  let b := Zpos (digits2_pos m) + e in
  let est := ((b - 1) * 30103) / 100000 in
  let ok E := let d := fst (floor_scaled m e (- E)) in (1 <=? d) && (d <=? 9) in
  if ok est then est
  else if ok (est + 1) then est + 1
  else est - 1.

Definition same_float (x y : float) : bool :=
  match x, y with
  | S754_finite s m e, S754_finite s' m' e' =>
      Bool.eqb s s' && Pos.eqb m m' && Z.eqb e e'
  | _, _ => false
  end.

(** The [n]-digit decimal [(c, s)], value [c * 10^(-s)], that reads back as
    [m * 2^e], if there is one. *)
Definition digits_at (m : positive) (e E : Z) (n : Z) : option (Z * Z) :=
  let s := n - 1 - E in
  let '(lo, exact) := floor_scaled m e s in
  let x := S754_finite false m e in
  if exact then Some (lo, s)
  else
    let back c := same_float (of_decimal c (- s)) x in
    match back lo, back (lo + 1) with
    | true, true =>
        match frac_vs_half m e s with
        | Lt => Some (lo, s)
        | Gt => Some (lo + 1, s)
        | Eq => Some (if Z.even lo then lo else lo + 1, s)
        end
    | true, false => Some (lo, s)
    | false, true => Some (lo + 1, s)
    | false, false => None
    end.

Fixpoint shortest_from (m : positive) (e E : Z) (n : Z) (fuel : nat)
  : Z * Z :=
  match fuel with
  | O => (fst (floor_scaled m e (16 - E)), 16 - E)
  | S fuel' =>
      match digits_at m e E n with
      | Some cs => cs
      | None => shortest_from m e E (n + 1) fuel'
      end
  end.

Fixpoint strip_zeros (fuel : nat) (c s : Z) : Z * Z :=
  match fuel with
  | O => (c, s)
  | S fuel' =>
      if (c mod 10 =? 0) && negb (c =? 0)
      then strip_zeros fuel' (c / 10) (s - 1) else (c, s)
  end.

(** Digits and decimal exponent of [repr]: the value is
    [0.d1 d2 ... dn * 10^decpt]. *)
Definition repr_digits (m : positive) (e : Z) : string * Z :=
  let E := decimal_exponent m e in
  let '(c, s) := shortest_from m e E 1 17 in
  let '(c, s) := strip_zeros 400 c s in
  let ds := str_of_Z c in
  (ds, Z.of_nat (String.length ds) - s).

Definition str_take (n : nat) (s : string) : string := String.substring 0 n s.
Definition str_drop (n : nat) (s : string) : string :=
  String.substring n (String.length s - n) s.

Definition repr (x : float) : string :=
  match x with
  | S754_nan => "nan"
  | S754_infinity s => sign_str s +:+ "inf"
  | S754_zero s => sign_str s +:+ "0.0"
  | S754_finite s m e =>
      let '(ds, decpt) := repr_digits m e in
      let n := Z.of_nat (String.length ds) in
      sign_str s +:+
      (if (decpt <=? -4) || (16 <? decpt) then
         let ex := decpt - 1 in
         str_take 1 ds +:+
         (if 1 <? n then "." +:+ str_drop 1 ds else "") +:+
         "e" +:+ (if ex <? 0 then "-" else "+") +:+
         str_of_Z_width 2 (Z.abs ex)
       else if decpt <=? 0 then
         "0." +:+ zeros (Z.to_nat (- decpt)) +:+ ds
       else if n <=? decpt then
         ds +:+ zeros (Z.to_nat (decpt - n)) +:+ ".0"
       else
         str_take (Z.to_nat decpt) ds +:+ "." +:+ str_drop (Z.to_nat decpt) ds)
  end.

End PyFloat.

Abbreviation float := spec_float.

(** ** Python strings *)

Module PyStr.

Definition code (c : ascii) : N := N_of_ascii c.

(** [str.isspace] on the code points 0..255. *)
Definition is_space (c : ascii) : bool :=
  let n := code c in
  ((9 <=? n) && (n <=? 13) || (28 <=? n) && (n <=? 32)
   || (n =? 133) || (n =? 160))%N.

Fixpoint lstrip (s : string) : string :=
  match s with
  | String c s' => if is_space c then lstrip s' else s
  | EmptyString => EmptyString
  end.

Fixpoint rstrip (s : string) : string :=
  match s with
  | String c s' =>
      match rstrip s' with
      | EmptyString => if is_space c then EmptyString else String c EmptyString
      | r => String c r
      end
  | EmptyString => EmptyString
  end.

(** [s.strip()] *)
Definition strip (s : string) : string := rstrip (lstrip s).

(** [str.lower] of one character: the letters A..Z, and the upper-case
    letters of Latin-1 (0xC0..0xDE without 0xD7). *)
Definition lower_char (c : ascii) : ascii :=
  let n := code c in
  if ((65 <=? n) && (n <=? 90)
      || (192 <=? n) && (n <=? 222) && negb (n =? 215))%N
  then ascii_of_N (n + 32) else c.

Fixpoint lower (s : string) : string :=
  match s with
  | String c s' => String (lower_char c) (lower s')
  | EmptyString => EmptyString
  end.

(** Truth value of a string: non-empty. *)
Definition truthy (s : string) : bool :=
  match s with EmptyString => false | _ => true end.

Fixpoint join (sep : string) (l : list string) : string :=
  match l with
  | [] => ""
  | [x] => x
  | x :: rest => x +:+ sep +:+ join sep rest
  end.

End PyStr.

(** ** Paths ([pathlib.PurePosixPath], a path held as its text) *)

Definition is_slash (c : ascii) : bool := Ascii.eqb c "/".

(** [s.split('/')] *)
Fixpoint components (s : string) : list string :=
  match s with
  | EmptyString => [EmptyString]
  | String c s' =>
      if is_slash c then EmptyString :: components s'
      else match components s' with
           | x :: rest => String c x :: rest
           | [] => [String c EmptyString]
           end
  end.

(** The components a path keeps: the empty ones and [.] are dropped,
    [..] stays. *)
Definition keep_part (x : string) : bool :=
  negb (String.eqb x "") && negb (String.eqb x ".").

Definition path_parts (s : string) : list string :=
  List.filter keep_part (components s).

(** The root of a path: exactly two leading slashes are kept, as POSIX
    allows; three or more are one. *)
Definition path_root (s : string) : string :=
  match s with
  | String a (String b (String c _)) =>
      if is_slash a then
        if is_slash b then if is_slash c then "/" else "//" else "/"
      else ""
  | String a (String b EmptyString) =>
      if is_slash a then if is_slash b then "//" else "/" else ""
  | String a EmptyString => if is_slash a then "/" else ""
  | EmptyString => ""
  end.

(** [str] of the path with this root and these parts. *)
Definition path_str (root : string) (parts : list string) : string :=
  match root, parts with
  | EmptyString, [] => "."
  | _, _ => root +:+ PyStr.join "/" parts
  end.

(** [Path(dir) / name]: a [name] that starts at the root replaces [dir]. *)
Definition path_join (dir name : string) : string :=
  match path_root name with
  | EmptyString => path_str (path_root dir) (path_parts dir ++ path_parts name)
  | root => path_str root (path_parts name)
  end.

(** [p.name]: the last part, empty for a path without parts. *)
Definition path_name (p : string) : string := List.last (path_parts p) "".

(** A text without slash. *)
Fixpoint no_slash (s : string) : bool :=
  match s with
  | EmptyString => true
  | String c s' => negb (is_slash c) && no_slash s'
  end.

(** The text of a path before its last part. *)
Fixpoint join_before (parts : list string) : string :=
  match parts with
  | [] => ""
  | x :: rest => x +:+ "/" +:+ join_before rest
  end.

(** ** Python values and their JSON text *)

Inductive pyval : Type :=
| PNone
| PBool (b : bool)
| PInt (z : Z)
| PFloat (f : float)
| PStr (s : string)
| PList (l : list pyval)
| PDict (d : list (string * pyval)).

(** A [dict] keeps its keys in insertion order, which is the order
    [json.dump] writes them in ([sort_keys=False]). *)
Abbreviation pydict := (list (string * pyval)).

Fixpoint dict_get (d : pydict) (k : string) : option pyval :=
  match d with
  | [] => None
  | (k', v) :: d' => if String.eqb k' k then Some v else dict_get d' k
  end.

(** [d.get(k, default)] *)
Definition dict_get_default (d : pydict) (k : string) (default : pyval) : pyval :=
  match dict_get d k with Some v => v | None => default end.

(** [k in d] *)
Definition dict_has (d : pydict) (k : string) : bool :=
  match dict_get d k with Some _ => true | None => false end.

(** Truth value of a Python object. *)
Definition truthy (v : pyval) : bool :=
  match v with
  | PNone => false
  | PBool b => b
  | PInt z => negb (z =? 0)
  | PFloat f => negb (PyFloat.is_zero f)
  | PStr s => PyStr.truthy s
  | PList l => match l with [] => false | _ => true end
  | PDict d => match d with [] => false | _ => true end
  end.

Module Json.

(** The double-quote character. *)
Definition dquote : string := String "034" EmptyString.

Definition hex_digit (n : N) : ascii :=
  if (n <? 10)%N then ascii_of_N (48 + n) else ascii_of_N (87 + n).

(** One character of a string under [ensure_ascii=True]. *)
Definition escape_char (c : ascii) : string :=
  let n := N_of_ascii c in
  if (n =? 34)%N then "\" +:+ dquote
  else if (n =? 92)%N then "\\"
  else if (n =? 10)%N then "\n"
  else if (n =? 13)%N then "\r"
  else if (n =? 9)%N then "\t"
  else if (n =? 8)%N then "\b"
  else if (n =? 12)%N then "\f"
  else if ((32 <=? n) && (n <=? 126))%N then String c EmptyString
  else "\u00" +:+ String (hex_digit (n / 16)) (String (hex_digit (n mod 16)) EmptyString).

Fixpoint escape (s : string) : string :=
  match s with
  | EmptyString => EmptyString
  | String c s' => escape_char c +:+ escape s'
  end.

Definition quote (s : string) : string := dquote +:+ escape s +:+ dquote.

(** [float.__repr__], with the three names [json] gives the non-finite
    values. *)
Definition float_text (f : float) : string :=
  match f with
  | S754_nan => "NaN"
  | S754_infinity false => "Infinity"
  | S754_infinity true => "-Infinity"
  | _ => PyFloat.repr f
  end.

Fixpoint spaces (n : nat) : string :=
  match n with
  | O => ""
  | S n' => String " " (spaces n')
  end.

(** [json.dumps(v, indent=2, sort_keys=False)] at nesting depth [lvl], for
    integers of at most 4300 digits, the longest [str] converts: the
    integers of a manifest are sizes and counts of this machine, or were
    read by [int], which has the same limit. *)
Fixpoint dumps_at (lvl : nat) (v : pyval) : string :=
  match v with
  | PNone => "null"
  | PBool true => "true"
  | PBool false => "false"
  | PInt z => str_of_Z z
  | PFloat f => float_text f
  | PStr s => quote s
  | PList [] => "[]"
  | PList l =>
      let nl := String "010" (spaces (2 * S lvl)) in
      "[" +:+ nl +:+
      PyStr.join ("," +:+ nl) (List.map (dumps_at (S lvl)) l) +:+
      String "010" (spaces (2 * lvl)) +:+ "]"
  | PDict [] => "{}"
  | PDict d =>
      let nl := String "010" (spaces (2 * S lvl)) in
      "{" +:+ nl +:+
      PyStr.join ("," +:+ nl)
        (List.map (fun kv => quote (fst kv) +:+ ": " +:+ dumps_at (S lvl) (snd kv)) d) +:+
      String "010" (spaces (2 * lvl)) +:+ "}"
  end.

Definition dumps (v : pyval) : string := dumps_at 0 v.

End Json.

(** ** Data structures *)

(** [BackupConfig]: configuration for one backup operation.  [output_dir]
    is the text of the [Path]. *)
Record BackupConfig : Type := {
  disk_id : string;
  volume_name : string;
  filename : string;
  operator : string;
  output_dir : string;
  dry_run : bool;
  no_verification : bool
}.

Definition output_path (c : BackupConfig) : string :=
  path_join (output_dir c) (filename c +:+ ".iso").
Definition log_path (c : BackupConfig) : string :=
  path_join (output_dir c) (filename c +:+ ".iso.log.txt").
Definition manifest_path (c : BackupConfig) : string :=
  path_join (output_dir c) (filename c +:+ "_manifest.json").
Definition tree_path (c : BackupConfig) : string :=
  path_join (output_dir c) (filename c +:+ "_tree.txt").
Definition isolyzer_path (c : BackupConfig) : string :=
  path_join (output_dir c) (filename c +:+ "_isolyzer.xml").

(** [BackupResult]: result of one backup operation. *)
Record BackupResult : Type := {
  success : bool;
  iso_path : string;
  disk_size : Z;
  md5_iso : option string;
  md5_raw : option string;
  creation_time : float;
  verification_time : float;
  error_message : option string
}.

(** Truth value of an [Optional[str]]. *)
Definition opt_str_truthy (o : option string) : bool :=
  match o with
  | Some s => PyStr.truthy s
  | None => false
  end.

(** [BackupResult.checksum_match]: whether the checksums match, [None] if
    verification was skipped. *)
Definition checksum_match (r : BackupResult) : option bool :=
  match md5_iso r, md5_raw r with
  | Some a, Some b =>
      if PyStr.truthy a && PyStr.truthy b then Some (String.eqb a b) else None
  | _, _ => None
  end.

Definition total_time (r : BackupResult) : float :=
  PyFloat.add (creation_time r) (verification_time r).

(** [BackupResult.speed_mb_s]: speed in MB/s.  [None] is an exception
    ([OverflowError] of the int-to-float conversion or of [round]). *)
Definition speed_mb_s (r : BackupResult) (duration : float) : option float :=
  if PyFloat.ltb PyFloat.zero duration then
    ds ← PyFloat.of_int (disk_size r);
    PyFloat.round_ndigits
      (PyFloat.ieee_div (PyFloat.ieee_div ds duration)
                        (PyFloat.round_dyadic (1024 * 1024) 0)) 2
  else Some PyFloat.zero.

(** ** Exit status *)

(** The tail of [main]: the exit code chosen from the result of
    [create_backup]. *)
Definition exit_status (r : BackupResult) : Z :=
  if success r then
    match checksum_match r with
    | Some false => 2
    | _ => 0
    end
  else 1.

(** ** [hashlib.md5] *)

(** The interface of a [hashlib] hash object: created empty, fed blocks of
    bytes, read out as hexadecimal text. *)
Class Hasher (state : Type) : Type := {
  h_new : state;
  h_update : state -> list Byte.byte -> state;
  h_hexdigest : state -> string
}.

Module MD5.

Definition w32 (x : Z) : Z := x mod 2 ^ 32.

Definition rotl (x n : Z) : Z :=
  w32 (Z.lor (Z.shiftl x n) (Z.shiftr x (32 - n))).

Definition not32 (x : Z) : Z := Z.lxor x (2 ^ 32 - 1).

Definition K : list Z := [
  3614090360; 3905402710; 606105819; 3250441966;
  4118548399; 1200080426; 2821735955; 4249261313;
  1770035416; 2336552879; 4294925233; 2304563134;
  1804603682; 4254626195; 2792965006; 1236535329;
  4129170786; 3225465664; 643717713; 3921069994;
  3593408605; 38016083; 3634488961; 3889429448;
  568446438; 3275163606; 4107603335; 1163531501;
  2850285829; 4243563512; 1735328473; 2368359562;
  4294588738; 2272392833; 1839030562; 4259657740;
  2763975236; 1272893353; 4139469664; 3200236656;
  681279174; 3936430074; 3572445317; 76029189;
  3654602809; 3873151461; 530742520; 3299628645;
  4096336452; 1126891415; 2878612391; 4237533241;
  1700485571; 2399980690; 4293915773; 2240044497;
  1873313359; 4264355552; 2734768916; 1309151649;
  4149444226; 3174756917; 718787259; 3951481745 ].

Definition R : list Z := [
  7; 12; 17; 22; 7; 12; 17; 22; 7; 12; 17; 22; 7; 12; 17; 22;
  5; 9; 14; 20; 5; 9; 14; 20; 5; 9; 14; 20; 5; 9; 14; 20;
  4; 11; 16; 23; 4; 11; 16; 23; 4; 11; 16; 23; 4; 11; 16; 23;
  6; 10; 15; 21; 6; 10; 15; 21; 6; 10; 15; 21; 6; 10; 15; 21 ].

Definition nthZ (l : list Z) (i : Z) : Z := List.nth (Z.to_nat i) l 0.

Definition mix (i b c d : Z) : Z :=
  if i <? 16 then Z.lor (Z.land b c) (Z.land (not32 b) d)
  else if i <? 32 then Z.lor (Z.land d b) (Z.land (not32 d) c)
  else if i <? 48 then Z.lxor b (Z.lxor c d)
  else Z.lxor c (Z.lor b (not32 d)).

Definition word_index (i : Z) : Z :=
  if i <? 16 then i
  else if i <? 32 then (5 * i + 1) mod 16
  else if i <? 48 then (3 * i + 5) mod 16
  else (7 * i) mod 16.

Definition regs : Type := Z * Z * Z * Z.

Definition step (M : list Z) (s : regs) (i : Z) : regs :=
  let '(a, b, c, d) := s in
  let f := w32 (mix i b c d + a + nthZ K i + nthZ M (word_index i)) in
  (d, w32 (b + rotl f (nthZ R i)), b, c).

Definition rounds : list Z := List.map Z.of_nat (List.seq 0 64).

Definition compress (s : regs) (M : list Z) : regs :=
  let '(a0, b0, c0, d0) := s in
  let '(a, b, c, d) := List.fold_left (step M) rounds s in
  (w32 (a0 + a), w32 (b0 + b), w32 (c0 + c), w32 (d0 + d)).

(** Little-endian 32-bit words of a byte string. *)
Fixpoint words (bs : list Z) : list Z :=
  match bs with
  | b0 :: b1 :: b2 :: b3 :: rest =>
      (b0 + 256 * b1 + 65536 * b2 + 16777216 * b3) :: words rest
  | _ => []
  end.

Fixpoint blocks (fuel : nat) (ws : list Z) : list (list Z) :=
  match fuel, ws with
  | S fuel', _ :: _ => List.firstn 16 ws :: blocks fuel' (List.skipn 16 ws)
  | _, _ => []
  end.

Definition le_bytes (n : nat) (x : Z) : list Z :=
  List.map (fun i => (x / 256 ^ Z.of_nat i) mod 256) (List.seq 0 n).

Definition pad (msg : list Z) : list Z :=
  let len := Z.of_nat (List.length msg) in
  let zeros := Z.to_nat ((55 - len) mod 64) in
  msg ++ [128] ++ List.repeat 0 zeros ++ le_bytes 8 ((8 * len) mod 2 ^ 64).

Definition init : regs := (1732584193, 4023233417, 2562383102, 271733878).

Definition hex_byte (b : Z) : string :=
  let h n := Json.hex_digit (Z.to_N n) in
  String (h (b / 16)) (String (h (b mod 16)) EmptyString).

Definition digest_hex (msg : list Byte.byte) : string :=
  let padded := pad (List.map (fun b => Z.of_N (Byte.to_N b)) msg) in
  let ws := words padded in
  let '(a, b, c, d) :=
    List.fold_left compress (blocks (List.length ws) ws) init in
  String.concat ""
    (List.map hex_byte (le_bytes 4 a ++ le_bytes 4 b ++ le_bytes 4 c ++ le_bytes 4 d)).

(** A hash object holds the bytes it has been fed; its digest is the MD5
    of their concatenation. *)
Record md5 : Type := { fed : list Byte.byte }.

#[global] Instance md5_hasher : Hasher md5 := {
  h_new := {| fed := [] |};
  h_update := fun h chunk => {| fed := fed h ++ chunk |};
  h_hexdigest := fun h => digest_hex (fed h)
}.

End MD5.

(** ** Numbers: a value that is an [int] or a [float] at run time *)

Inductive num : Type :=
| NInt (z : Z)
| NFloat (f : float).

Module Num.

(** [x > 0] *)
Definition gt0 (x : num) : bool :=
  match x with
  | NInt z => 0 <? z
  | NFloat f => PyFloat.ltb PyFloat.zero f
  end.

(** [a / b] on two ints: the nearest float to the exact quotient.  [None]
    is [ZeroDivisionError] or [OverflowError]. *)
Definition int_truediv (a b : Z) : option float :=
  if b =? 0 then None
  else if a =? 0 then Some (S754_zero (b <? 0))
  else
    match PyFloat.round_quotient
            (if xorb (a <? 0) (b <? 0) then - Z.abs a else Z.abs a) (Z.abs b) with
    | S754_infinity _ => None
    | f => Some f
    end.

(** [a / b]: true division.  [None] is [ZeroDivisionError] or
    [OverflowError]. *)
Definition truediv (a b : num) : option float :=
  match a, b with
  | NInt x, NInt y => int_truediv x y
  | NInt x, NFloat y => fx ← PyFloat.of_int x; PyFloat.div fx y
  | NFloat x, NInt y => fy ← PyFloat.of_int y; PyFloat.div x fy
  | NFloat x, NFloat y => PyFloat.div x y
  end.

(** [int(x)] *)
Definition to_int (x : num) : option Z :=
  match x with
  | NInt z => Some z
  | NFloat f => PyFloat.to_int f
  end.

(** The sign is clear and the value is a number. *)
Definition nonneg (x : num) : bool :=
  match x with
  | NInt z => 0 <=? z
  | NFloat f => PyFloat.nonneg f
  end.

End Num.

(** ** Console colours *)

Definition esc : string := String "027" EmptyString.

Inductive color : Type := blue | cyan | green | yellow | red | off.

(** The table [COLOR]. *)
Definition COLOR (c : color) : string :=
  esc +:+
  match c with
  | blue => "[94m"
  | cyan => "[96m"
  | green => "[92m"
  | yellow => "[93m"
  | red => "[91m"
  | off => "[0m"
  end.

(** [colorize]: apply an ANSI colour to a text. *)
Definition colorize (c : color) (text : string) : string :=
  COLOR c +:+ text +:+ COLOR off.

(** ** [str(datetime.timedelta(seconds=n))] for an int [n] *)

(** [None] is the [OverflowError] of a timedelta beyond 999999999 days. *)
Definition timedelta_str (n : Z) : option string :=
  let days := n / 86400 in
  let rest := n mod 86400 in
  if 999999999 <? Z.abs days then None
  else
    let hms :=
      str_of_Z (rest / 3600) +:+ ":" +:+
      str_of_Z_width 2 ((rest mod 3600) / 60) +:+ ":" +:+
      str_of_Z_width 2 (rest mod 60) in
    Some (if days =? 0 then hms
          else str_of_Z days +:+ " day" +:+
               (if Z.abs days =? 1 then "" else "s") +:+ ", " +:+ hms).

(** ** Progress display *)

(** What [_display_progress] computes before it writes. *)
Record progress_values : Type := {
  pv_elapsed : float;
  pv_speed : num;
  pv_remaining : Z;
  pv_eta : num;
  pv_mb_current : float;
  pv_mb_total : float;
  pv_speed_mb : float
}.

(** The arithmetic of [_display_progress], from the elapsed time on.
    [None] is an exception of the arithmetic. *)
Definition progress_compute (current total : Z) (elapsed : float)
  : option progress_values :=
  speed ← (if PyFloat.ltb PyFloat.zero elapsed
           then NFloat <$> Num.truediv (NInt current) (NFloat elapsed)
           else Some (NInt 0));
  let remaining := Z.max 0 (total - current) in
  eta ← (if Num.gt0 speed
         then NFloat <$> Num.truediv (NInt remaining) speed
         else Some (NInt 0));
  mb_current ← Num.truediv (NInt current) (NInt (1024 * 1024));
  mb_total ← Num.truediv (NInt total) (NInt (1024 * 1024));
  speed_mb ← Num.truediv speed (NInt (1024 * 1024));
  Some {| pv_elapsed := elapsed; pv_speed := speed; pv_remaining := remaining;
          pv_eta := eta; pv_mb_current := mb_current; pv_mb_total := mb_total;
          pv_speed_mb := speed_mb |}.

Definition clear_line : string := esc +:+ "[2K" +:+ String "013" EmptyString.
Definition newline : string := String "010" EmptyString.

(** The four status lines written over the previous four.  [None] is an
    exception of [int] or of [timedelta]. *)
Definition progress_render (title : string) (pv : progress_values)
  : option string :=
  elapsed_s ← PyFloat.to_int (pv_elapsed pv);
  elapsed_txt ← timedelta_str elapsed_s;
  eta_s ← Num.to_int (pv_eta pv);
  eta_txt ← timedelta_str eta_s;
  Some (esc +:+ "[4A" +:+
        clear_line +:+ colorize cyan title +:+ ": " +:+
          PyFloat.format_fixed 0 (pv_mb_current pv) +:+ "MB / " +:+
          PyFloat.format_fixed 0 (pv_mb_total pv) +:+ "MB" +:+ newline +:+
        clear_line +:+ colorize cyan "Elapsed" +:+ ": " +:+ elapsed_txt +:+ newline +:+
        clear_line +:+ colorize cyan "Remaining" +:+ ": " +:+ eta_txt +:+ newline +:+
        clear_line +:+ colorize cyan "Avg Speed" +:+ ": " +:+
          PyFloat.format_fixed 2 (pv_speed_mb pv) +:+ "MB/s" +:+ newline).

(** [_display_progress]: [now] is the reading of [time.time()]; the result
    is the text written to the console. *)
Definition _display_progress (title : string) (current total : Z)
    (start_time now : float) : option string :=
  let elapsed := PyFloat.sub now start_time in
  pv ← progress_compute current total elapsed;
  progress_render title pv.

(** ** Duration formatting *)

(** Minutes and remaining seconds of [_format_duration]. *)
Definition duration_parts (seconds : float) : option (Z * float) :=
  whole ← PyFloat.to_int seconds;
  let minutes := whole / 60 in
  rest ← PyFloat.mod_ seconds (PyFloat.round_dyadic 60 0);
  remaining_seconds ← PyFloat.round_ndigits rest 2;
  Some (minutes, remaining_seconds).

(** [_format_duration]: duration in human readable format.  [None] is an
    exception ([int] of an infinity or a NaN). *)
Definition _format_duration (seconds : float) : option string :=
  if PyFloat.eqb seconds PyFloat.zero then Some "0 seconds"
  else
    '(minutes, remaining_seconds) ← duration_parts seconds;
    if 0 <? minutes then
      Some (str_of_Z minutes +:+ " minutes, " +:+
            PyFloat.format_fixed 2 remaining_seconds +:+ " seconds")
    else
      Some (PyFloat.format_fixed 2 remaining_seconds +:+ " seconds").

(** ** The surroundings of a run *)

(** The file system: regular files by the text of their path, and the
    directories made. *)
Record world : Type := {
  files : gmap string (list Byte.byte);
  dirs : gset string
}.

Definition write_file (path : string) (data : list Byte.byte) (w : world) : world :=
  {| files := <[path := data]> (files w); dirs := dirs w |}.

Definition make_dir (path : string) (w : world) : world :=
  {| files := files w; dirs := {[path]} ∪ dirs w |}.

(** [Path.exists] *)
Definition path_exists (path : string) (w : world) : bool :=
  bool_decide (is_Some (files w !! path)) || bool_decide (path ∈ dirs w).

(** Text is written and read one byte per character, as the UTF-8 codec
    does for a text in ASCII. *)
Definition encode_text (s : string) : list Byte.byte := String.list_byte_of_string s.
Definition decode_text (b : list Byte.byte) : string := String.string_of_list_byte b.

(** How a piece of Python ends: it returns, it calls [sys.exit], or an
    exception leaves it. *)
Inductive outcome (A : Type) : Type :=
| Returned (a : A)
| Exited (code : Z)
| Raised (exn : string).
Arguments Returned {A} a.
Arguments Exited {A} code.
Arguments Raised {A} exn.

(** A computation on the file system that can end in each of these ways. *)
Definition Run (A : Type) : Type := world -> outcome A * world.

#[export] Instance Run_ret : MRet Run := fun A a w => (Returned a, w).
#[export] Instance Run_bind : MBind Run := fun A B k m w =>
  match m w with
  | (Returned a, w') => k a w'
  | (Exited code, w') => (Exited code, w')
  | (Raised exn, w') => (Raised exn, w')
  end.

Definition modify (f : world -> world) : Run unit := fun w => (Returned tt, f w).
Definition inspect {A : Type} (f : world -> A) : Run A := fun w => (Returned (f w), w).
Definition sys_exit {A : Type} (code : Z) : Run A := fun w => (Exited code, w).
Definition raise {A : Type} (exn : string) : Run A := fun w => (Raised exn, w).

(** An optional result whose absence is the exception [exn]. *)
Definition or_raise {A : Type} (exn : string) (o : option A) : Run A :=
  match o with
  | Some a => mret a
  | None => raise exn
  end.

(** What an external command answers. *)
Inductive cmd_result (A : Type) : Type :=
| CmdOk (out : A)
| CmdFailed (msg : string)     (* [CalledProcessError]: non-zero exit status *)
| CmdMissing (msg : string).   (* [FileNotFoundError]: no such executable *)
Arguments CmdOk {A} out.
Arguments CmdFailed {A} msg.
Arguments CmdMissing {A} msg.

(** What the operator types at a prompt. *)
Inductive user_input : Type :=
| Typed (line : string)
| CtrlC.                       (* [KeyboardInterrupt] *)

(** One turn of the copy loop as the surroundings decide it. *)
Inductive read_event : Type :=
| ReadData (chunk : list Byte.byte) (clock : float)
    (* [read] returns [chunk]; [clock] is [time.time()] at the progress
       display that follows *)
| ReadInterrupt                (* [KeyboardInterrupt] during the turn *)
| IoFault (exn : string).      (* the read or the write raises *)

(** ** The copy loop of [_create_and_verify_iso] *)

Section CopyLoop.

Context {H : Type} `{Hasher H}.

Record copy_state : Type := {
  iso_file : list Byte.byte;     (* what has been written to the ISO file *)
  iso_hasher : H;
  raw_hasher : H;
  bytes_written : Z;
  displayed : list string        (* the progress updates written so far *)
}.

Definition copy_start : copy_state :=
  {| iso_file := []; iso_hasher := h_new; raw_hasher := h_new;
     bytes_written := 0; displayed := [] |}.

Inductive loop_exit : Type :=
| EndOfStream
| Interrupted
| LoopRaised (exn : string).

(** The body of the loop up to the progress display: write the chunk,
    update both hashes, count the bytes. *)
Definition copy_chunk (st : copy_state) (chunk : list Byte.byte) : copy_state :=
  {| iso_file := iso_file st ++ chunk;
     iso_hasher := h_update (iso_hasher st) chunk;
     raw_hasher := h_update (raw_hasher st) chunk;
     bytes_written := bytes_written st + Z.of_nat (List.length chunk);
     displayed := displayed st |}.

Definition show (st : copy_state) (text : string) : copy_state :=
  {| iso_file := iso_file st; iso_hasher := iso_hasher st;
     raw_hasher := raw_hasher st; bytes_written := bytes_written st;
     displayed := displayed st ++ [text] |}.

(** [while True: chunk = read(4 MiB); if not chunk: break; ...].  When the
    stream has no more events the read returns no bytes. *)
Fixpoint copy_loop (disk_size : Z) (start_time : float)
    (reads : list read_event) (st : copy_state) : copy_state * loop_exit :=
  match reads with
  | [] => (st, EndOfStream)
  | ReadData [] _ :: _ => (st, EndOfStream)
  | ReadData chunk clock :: rest =>
      let st' := copy_chunk st chunk in
      match _display_progress "ISO Creation" (bytes_written st') disk_size
              start_time clock with
      | Some text => copy_loop disk_size start_time rest (show st' text)
      | None => (st', LoopRaised "OverflowError")
      end
  | ReadInterrupt :: _ => (st, Interrupted)
  | IoFault exn :: _ => (st, LoopRaised exn)
  end.

End CopyLoop.

Arguments copy_state H : clear implicits.

(** The blocks the loop takes from the stream: those before the first empty
    read, interrupt or fault. *)
Fixpoint blocks_read (reads : list read_event) : list (list Byte.byte) :=
  match reads with
  | ReadData (b :: chunk) _ :: rest => (b :: chunk) :: blocks_read rest
  | _ => []
  end.

(** Sum of the lengths of a sequence of blocks. *)
Definition total_length (blocks : list (list Byte.byte)) : Z :=
  List.fold_right (fun b acc => Z.of_nat (List.length b) + acc) 0 blocks.

(** The [dd] child process and the clock, as [_create_and_verify_iso] meets
    them. *)
Record dd_run : Type := {
  dd_start_clock : float;          (* [time.time()] before the loop *)
  dd_reads : list read_event;
  dd_returncode : Z;
  dd_stderr : string;
  dd_end_clock : float             (* [time.time()] after the loop *)
}.

(** [_create_and_verify_iso]: create the ISO with both hashes computed on the
    way.  Returns [(creation_time, iso_hash, raw_hash)]. *)
Definition _create_and_verify_iso (c : BackupConfig) (disk_size : Z) (dd : dd_run)
  : Run (float * string * string) := fun w =>
  let start_time := dd_start_clock dd in
  let '(st, how) :=
    copy_loop (H := MD5.md5) disk_size start_time (dd_reads dd) copy_start in
  let w' := write_file (output_path c) (iso_file st) w in
  match how with
  | Interrupted => (Exited 1, w')
  | LoopRaised exn => (Raised exn, w')
  | EndOfStream =>
      if negb (dd_returncode dd =? 0)
      then (Raised ("RuntimeError: dd failed: " +:+ dd_stderr dd), w')
      else
        let creation_time := PyFloat.sub (dd_end_clock dd) start_time in
        let iso_hash := h_hexdigest (iso_hasher st) in
        let raw_hash := h_hexdigest (raw_hasher st) in
        (Returned (creation_time, iso_hash, raw_hash), w')
  end.

(** ** Tree listing summary *)

Module TreeSummary.

Definition is_digit (c : ascii) : bool :=
  let n := N_of_ascii c in ((48 <=? n) && (n <=? 57))%N.

(** The longest prefix of characters satisfying [p], and the rest. *)
Fixpoint span (p : ascii -> bool) (s : string) : string * string :=
  match s with
  | String c s' =>
      if p c then let '(a, b) := span p s' in (String c a, b)
      else (EmptyString, s)
  | EmptyString => (EmptyString, EmptyString)
  end.

(** [s] without the prefix [pre], if it has it. *)
Fixpoint strip_prefix (pre s : string) : option string :=
  match pre, s with
  | EmptyString, _ => Some s
  | String a pre', String b s' =>
      if Ascii.eqb a b then strip_prefix pre' s' else None
  | _, EmptyString => None
  end.

(** [sub in s] *)
Fixpoint contains (sub s : string) : bool :=
  match strip_prefix sub s with
  | Some _ => true
  | None => match s with
            | String _ s' => contains sub s'
            | EmptyString => false
            end
  end.

Definition nonempty (s : string) : option string :=
  match s with EmptyString => None | _ => Some s end.

Fixpoint int_of_digits (acc : Z) (s : string) : Z :=
  match s with
  | String c s' => int_of_digits (10 * acc + (Z.of_N (N_of_ascii c) - 48)) s'
  | EmptyString => acc
  end.

Fixpoint last_char (s : string) : string :=
  match s with
  | String c EmptyString => s
  | String _ s' => last_char s'
  | EmptyString => EmptyString
  end.

(** The pattern [(\d+)\s+directories,\s+(\d+)\s+files,\s+(.+)] matched at
    the start of [s]: the three groups. *)
Definition match_here (s : string) : option (string * string * string) :=
  let '(d1, r) := span is_digit s in
  _ ← nonempty d1;
  let '(sp, r) := span PyStr.is_space r in
  _ ← nonempty sp;
  r ← strip_prefix "directories," r;
  let '(sp, r) := span PyStr.is_space r in
  _ ← nonempty sp;
  let '(d2, r) := span is_digit r in
  _ ← nonempty d2;
  let '(sp, r) := span PyStr.is_space r in
  _ ← nonempty sp;
  r ← strip_prefix "files," r;
  let '(sp, r) := span PyStr.is_space r in
  _ ← nonempty sp;
  match r with
  | EmptyString =>
      (* [\s+] gives one character back to [.+] *)
      match sp with
      | String _ (String _ _) => Some (d1, d2, last_char sp)
      | _ => None
      end
  | _ => Some (d1, d2, r)
  end.

(** [re.search]: the leftmost match. *)
Fixpoint search (s : string) : option (string * string * string) :=
  match match_here s with
  | Some g => Some g
  | None => match s with
            | String _ s' => search s'
            | EmptyString => None
            end
  end.

(** The lines of a text read with universal newlines, without their line
    ends. *)
Fixpoint lines_aux (cur : string) (s : string) : list string :=
  match s with
  | EmptyString => match cur with EmptyString => [] | _ => [cur] end
  | String "010" s' => cur :: lines_aux EmptyString s'
  | String "013" (String "010" s') => cur :: lines_aux EmptyString s'
  | String "013" s' => cur :: lines_aux EmptyString s'
  | String c s' => lines_aux (cur +:+ String c EmptyString) s'
  end.

Definition lines (s : string) : list string := lines_aux EmptyString s.

End TreeSummary.

(** ** Numbers read from text *)

Module PyNum.

(** The whitespace [int] and [float] skip at both ends of a string: the
    ASCII blanks and the two spaces of Latin-1. *)
Definition is_blank (c : ascii) : bool :=
  let n := N_of_ascii c in
  ((9 <=? n) && (n <=? 13) || (n =? 32) || (n =? 133) || (n =? 160))%N.

Fixpoint lskip (s : string) : string :=
  match s with
  | String c s' => if is_blank c then lskip s' else s
  | EmptyString => EmptyString
  end.

Fixpoint rskip (s : string) : string :=
  match s with
  | String c s' =>
      match rskip s' with
      | EmptyString => if is_blank c then EmptyString else String c EmptyString
      | r => String c r
      end
  | EmptyString => EmptyString
  end.

Definition trim (s : string) : string := rskip (lskip s).

(** A run of decimal digits in which single underscores may separate
    digits: the digits and what follows the run.  [None]: an underscore
    that is not between two digits. *)
Fixpoint digit_run (after_digit : bool) (s : string) : option (string * string) :=
  match s with
  | EmptyString => Some (EmptyString, EmptyString)
  | String c s' =>
      if TreeSummary.is_digit c then
        '(ds, r) ← digit_run true s'; Some (String c ds, r)
      else if Ascii.eqb c "_" then
        if after_digit then
          match s' with
          | String d _ => if TreeSummary.is_digit d then digit_run false s' else None
          | EmptyString => None
          end
        else None
      else Some (EmptyString, s)
  end.

(** A sign, and the text after it. *)
Definition split_sign (s : string) : bool * string :=
  match s with
  | String c rest =>
      if Ascii.eqb c "-" then (true, rest)
      else if Ascii.eqb c "+" then (false, rest)
      else (false, s)
  | EmptyString => (false, s)
  end.

(** The exponent part of a float literal: its value and what follows. *)
Definition exponent (s : string) : option (Z * string) :=
  match s with
  | String c rest =>
      if Ascii.eqb c "e" || Ascii.eqb c "E" then
        let '(negative, body) := split_sign rest in
        '(ds, r) ← digit_run false body;
        match ds with
        | EmptyString => None
        | _ => let n := TreeSummary.int_of_digits 0 ds in
               Some (if negative then - n else n, r)
        end
      else Some (0, s)
  | EmptyString => Some (0, s)
  end.

(** [float(s)]; [None] is [ValueError]. *)
Definition float_ (s : string) : option float :=
  let '(negative, body) := split_sign (trim s) in
  let low := PyStr.lower body in
  if String.eqb low "inf" || String.eqb low "infinity"
  then Some (S754_infinity negative)
  else if String.eqb low "nan" then Some S754_nan
  else
    '(ip, r1) ← digit_run false body;
    '(fp, r2) ← match r1 with
                | String c r => if Ascii.eqb c "." then digit_run false r
                                else Some (EmptyString, r1)
                | EmptyString => Some (EmptyString, r1)
                end;
    match ip +:+ fp with
    | EmptyString => None
    | digits =>
        '(ex, r3) ← exponent r2;
        match r3 with
        | EmptyString =>
            let n := TreeSummary.int_of_digits 0 digits in
            let k := ex - Z.of_nat (String.length fp) in
            Some (if n =? 0 then S754_zero negative
                  else PyFloat.of_decimal (if negative then - n else n) k)
        | _ => None
        end
    end.

(** [repr] of a string of code points 0..255. *)
Definition repr_char (quote : ascii) (c : ascii) : string :=
  let n := N_of_ascii c in
  if Ascii.eqb c quote || (n =? 92)%N then String "\" (String c EmptyString)
  else if (n =? 9)%N then "\t"
  else if (n =? 10)%N then "\n"
  else if (n =? 13)%N then "\r"
  else if ((n <? 32) || (n =? 127) || (128 <=? n) && (n <=? 160) || (n =? 173))%N
  then "\x" +:+ String (Json.hex_digit (n / 16))
                  (String (Json.hex_digit (n mod 16)) EmptyString)
  else String c EmptyString.

Fixpoint repr_body (quote : ascii) (s : string) : string :=
  match s with
  | EmptyString => EmptyString
  | String c s' => repr_char quote c +:+ repr_body quote s'
  end.

Definition has_char (c : ascii) (s : string) : bool :=
  TreeSummary.contains (String c EmptyString) s.

Definition repr (s : string) : string :=
  let quote := if has_char "'" s && negb (has_char "034" s) then "034"%char
               else "'"%char in
  String quote (repr_body quote s) +:+ String quote EmptyString.

(** The text of the [ValueError] of [int(s)] for a text that is no
    numeral: the literal is shown by its [repr], cut at 200 characters. *)
Definition int_error (s : string) : string :=
  "invalid literal for int() with base 10: " +:+ String.substring 0 200 (repr s).

(** The longest numeral [int] converts (CPython 3.11 and later). *)
Definition max_str_digits : nat := 4300.

Definition exceeds_error (digits : nat) : string :=
  "Exceeds the limit (4300 digits) for integer string conversion: value has " +:+
  str_of_Z (Z.of_nat digits) +:+
  " digits; use sys.set_int_max_str_digits() to increase the limit".

(** [int(s)] in base 10: the number, or the text of the [ValueError]. *)
Definition int_ (s : string) : string + Z :=
  let '(negative, body) := split_sign (trim s) in
  match digit_run false body with
  | Some (ds, rest) =>
      if (max_str_digits <? String.length ds)%nat
      then inl (exceeds_error (String.length ds))
      else
        match ds, rest with
        | String _ _, EmptyString =>
            let n := TreeSummary.int_of_digits 0 ds in
            inr (if negative then - n else n)
        | _, _ => inl (int_error s)
        end
  | None => inl (int_error s)
  end.

End PyNum.

(** ** The summary of the tree listing *)

(** The loop over the reversed lines: the first line that starts with
    [Total] and mentions [directories] decides.  A count that [int]
    refuses, one of more than 4300 digits, ends the function through its
    handler, with the text of the exception. *)
Fixpoint scan_listing (rev_lines : list string) : pydict :=
  match rev_lines with
  | [] => []
  | line :: rest =>
      let stripped := PyStr.strip line in
      if String.prefix "Total" stripped
         && TreeSummary.contains "directories" line then
        match TreeSummary.search stripped with
        | Some (d1, d2, size) =>
            match PyNum.int_ d1 with
            | inl exn => [("error", PStr exn)]
            | inr directories =>
                match PyNum.int_ d2 with
                | inl exn => [("error", PStr exn)]
                | inr files =>
                    [("total_directories", PInt directories);
                     ("total_files", PInt files);
                     ("reported_size", PStr size)]
                end
            end
        | None => []
        end
      else scan_listing rest
  end.

(** [_extract_tree_summary]: summary of the tree listing, or the error of
    reading it.  The listing is read one byte per character, which is the
    UTF-8 reading of a listing in ASCII. *)
Definition _extract_tree_summary (c : BackupConfig) (w : world) : pydict :=
  match files w !! tree_path c with
  | Some data => scan_listing (List.rev (TreeSummary.lines (decode_text data)))
  | None =>
      [("error", PStr ("[Errno 2] No such file or directory: "
                        +:+ PyNum.repr (tree_path c)))]
  end.

(** ** Dates and times *)

(** A naive [datetime.datetime]. *)
Record datetime : Type := {
  year : Z; month : Z; day : Z;
  hour : Z; minute : Z; second : Z;
  microsecond : Z
}.

(** [t.strftime('%Y%m%dT%H%M%S')] *)
Definition strftime_compact (t : datetime) : string :=
  str_of_Z_width 4 (year t) +:+ str_of_Z_width 2 (month t) +:+
  str_of_Z_width 2 (day t) +:+ "T" +:+
  str_of_Z_width 2 (hour t) +:+ str_of_Z_width 2 (minute t) +:+
  str_of_Z_width 2 (second t).

(** [t.isoformat(timespec="seconds")] *)
Definition isoformat_seconds (t : datetime) : string :=
  str_of_Z_width 4 (year t) +:+ "-" +:+ str_of_Z_width 2 (month t) +:+ "-" +:+
  str_of_Z_width 2 (day t) +:+ "T" +:+
  str_of_Z_width 2 (hour t) +:+ ":" +:+ str_of_Z_width 2 (minute t) +:+ ":" +:+
  str_of_Z_width 2 (second t).

(** The answers of the [platform] module. *)
Record platform_info : Type := {
  platform_system : string;
  platform_release : string;
  platform_version : string;
  platform_machine : string;
  platform_processor : string;
  platform_node : string;
  platform_python_version : string
}.

(** What one call of [_create_manifest] reads from its surroundings besides
    the file system: the clock, the uuid generator and the platform. *)
Record manifest_env : Type := {
  now : datetime;
  uuid4 : string;
  platform : platform_info
}.

(** ** Arithmetic on Python values *)

(** The number a value is in arithmetic ([bool] is a subtype of [int]);
    [None] is [TypeError]. *)
Definition as_num (v : pyval) : option num :=
  match v with
  | PInt z => Some (NInt z)
  | PFloat f => Some (NFloat f)
  | PBool b => Some (NInt (if b then 1 else 0))
  | _ => None
  end.

Definition opt_py (o : option pyval) : pyval :=
  match o with Some v => v | None => PNone end.

Definition opt_str_py (o : option string) : pyval :=
  match o with Some s => PStr s | None => PNone end.

(** [format(v, ".1f")] of a number. *)
Definition format_1f (v : num) : option string :=
  match v with
  | NInt z => PyFloat.format_fixed 1 <$> PyFloat.of_int z
  | NFloat f => Some (PyFloat.format_fixed 1 f)
  end.

Definition f1024 : float := PyFloat.round_dyadic 1024 0.

(** [v < 1024.0] *)
Definition lt_1024 (v : num) : bool :=
  match v with
  | NInt z => z <? 1024
  | NFloat f => PyFloat.ltb f f1024
  end.

Fixpoint format_bytes_loop (units : list string) (v : num) : option string :=
  match units with
  | [] => s ← format_1f v; Some (s +:+ " TB")
  | unit :: rest =>
      if lt_1024 v then s ← format_1f v; Some (s +:+ " " +:+ unit)
      else v' ← Num.truediv v (NFloat f1024); format_bytes_loop rest (NFloat v')
  end.

(** [format_bytes] of [_create_manifest]: bytes in human readable format. *)
Definition format_bytes (v : num) : option string :=
  format_bytes_loop ["B"; "KB"; "MB"; "GB"] v.

(** [f"{v/1024/1024:.1f} MB"] *)
Definition format_mb (v : pyval) : option string :=
  n ← as_num v;
  a ← Num.truediv n (NInt 1024);
  b ← Num.truediv (NFloat a) (NInt 1024);
  Some (PyFloat.format_fixed 1 b +:+ " MB").

(** [v > 0] *)
Definition py_gt0 (v : pyval) : option bool := Num.gt0 <$> as_num v.

(** [v == s] for a string [s] *)
Definition py_eq_str (v : pyval) (s : string) : bool :=
  match v with
  | PStr t => String.eqb t s
  | _ => false
  end.

(** ** Filesystem descriptors of the manifest *)

(** The keys of [fs] copied under new names, without those that are absent
    or [None]. *)
Definition pick (fs : pydict) (keys : list (string * string)) : pydict :=
  List.flat_map
    (fun '(name, key) =>
       match dict_get fs key with
       | Some PNone | None => []
       | Some v => [(name, v)]
       end) keys.

Definition filesystem_info (fs : pyval) : option pyval :=
  match fs with
  | PDict d =>
      let type := opt_py (dict_get d "type") in
      let details :=
        if py_eq_str type "ISO 9660" then
          pick d [("volume_identifier", "volume_identifier");
                  ("creation_date", "volume_creation_date");
                  ("publisher", "publisher");
                  ("data_preparer", "data_preparer");
                  ("logical_block_size", "logical_block_size");
                  ("volume_space_size", "volume_space_size")]
        else if py_eq_str type "UDF" then
          pick d [("logical_volume_identifier", "logical_volume_identifier");
                  ("logical_block_size", "logical_block_size");
                  ("implementation", "implementation")]
        else [] in
      Some (PDict [("type", type); ("details", PDict details)])
  | _ => None   (* [AttributeError]: no [get] *)
  end.

(** [_extract_filesystem_info]: [None] is the exception of a value that
    cannot be iterated or of an element that is not a dictionary. *)
Definition _extract_filesystem_info (iso_analysis : pydict) : option (list pyval) :=
  match dict_get_default iso_analysis "filesystems" (PList []) with
  | PList l => mapM filesystem_info l
  | PStr EmptyString | PDict [] => Some []
  | _ => None
  end.

(** ** The manifest *)

Definition dq : string := Json.dquote.

(** [iso_analysis.get('tool_info', {}).get(key, default)] *)
Definition tool_info_get (iso_analysis : pydict) (key : string) (default : pyval)
  : option pyval :=
  match dict_get_default iso_analysis "tool_info" (PDict []) with
  | PDict d => Some (dict_get_default d key default)
  | _ => None
  end.

(** [result.iso_path.stat().st_size if result.iso_path.exists() else None] *)
Definition iso_file_size_of (result : BackupResult) (w : world) : option Z :=
  (fun data => Z.of_nat (List.length data)) <$> files w !! iso_path result.

(** The fixed table that documents which XML element feeds which field. *)
Definition xml_field_mappings : pyval :=
  let fs9660 := "/isolyzer/image/fileSystems/fileSystem[@TYPE='ISO 9660']" in
  let fsudf := "/isolyzer/image/fileSystems/fileSystem[@TYPE='UDF']" in
  PDict [
    ("note", PStr "This section documents which XML elements from the raw isolyzer output map to the fields above");
    ("tool_info", PDict [
      ("tool_used", PStr "/isolyzer/toolInfo/toolName");
      ("tool_version", PStr "/isolyzer/toolInfo/toolVersion")]);
    ("status_fields", PDict [
      ("analysis_successful", PStr "/isolyzer/image/statusInfo/success")]);
    ("test_fields", PDict [
      ("contains_known_filesystem", PStr "/isolyzer/image/tests/containsKnownFileSystem");
      ("size_expected_bytes", PStr "/isolyzer/image/tests/sizeExpected");
      ("size_actual_bytes", PStr "/isolyzer/image/tests/sizeActual");
      ("size_difference_bytes", PStr "/isolyzer/image/tests/sizeDifference");
      ("size_difference_sectors", PStr "/isolyzer/image/tests/sizeDifferenceSectors");
      ("size_as_expected", PStr "/isolyzer/image/tests/sizeAsExpected");
      ("smaller_than_expected", PStr "/isolyzer/image/tests/smallerThanExpected");
      ("valid_iso9660", PStr ("presence of " +:+ fs9660));
      ("contains_udf", PStr ("presence of " +:+ fsudf))]);
    ("iso9660_fields", PDict [
      ("volume_identifier", PStr (fs9660 +:+ "/primaryVolumeDescriptor/volumeIdentifier"));
      ("creation_date", PStr (fs9660 +:+ "/primaryVolumeDescriptor/volumeCreationDateAndTime"));
      ("publisher", PStr (fs9660 +:+ "/primaryVolumeDescriptor/publisherIdentifier"));
      ("data_preparer", PStr (fs9660 +:+ "/primaryVolumeDescriptor/dataPreparerIdentifier"));
      ("logical_block_size", PStr (fs9660 +:+ "/primaryVolumeDescriptor/logicalBlockSize"));
      ("volume_space_size", PStr (fs9660 +:+ "/primaryVolumeDescriptor/volumeSpaceSize"))]);
    ("udf_fields", PDict [
      ("logical_volume_identifier", PStr (fsudf +:+ "/logicalVolumeDescriptor/logicalVolumeIdentifier"));
      ("logical_block_size", PStr (fsudf +:+ "/logicalVolumeDescriptor/logicalBlockSize"));
      ("implementation", PStr (fsudf +:+ "/logicalVolumeDescriptor/implementationIdentifier"))])
  ].

Section Manifest.

Variable c : BackupConfig.
Variable me : manifest_env.
Variable w : world.
Variable result : BackupResult.
Variable disk_info : pydict.
Variable iso_analysis : pydict.

Definition ia_get (key : string) (default : pyval) : pyval :=
  dict_get_default iso_analysis key default.

Definition di_get (key : string) (default : pyval) : pyval :=
  dict_get_default disk_info key default.

Definition backup_metadata : pyval :=
  PDict [
    ("run_id", PStr (strftime_compact (now me) +:+ "_" +:+ operator c +:+ "_" +:+ disk_id c));
    ("uuid", PStr (uuid4 me));
    ("tool_name", PStr "Optical Disc ISO Backup Utility");
    ("tool_version", PStr "v14-streamlined");
    ("created", PStr (isoformat_seconds (now me)));
    ("operator", PStr (operator c));
    ("dry_run", PBool (dry_run c))
  ].

Definition backup_status : pyval :=
  PDict [
    ("overall_status", PStr (if success result then "success" else "failed"));
    ("iso_created", PBool (bool_decide (is_Some (iso_file_size_of result w))));
    ("verification_performed", PBool (negb (no_verification c) && negb (dry_run c)));
    ("verification_passed",
      match checksum_match result with
      | Some b => PBool b
      | None => PStr "skipped"
      end);
    ("errors", if opt_str_truthy (error_message result)
               then opt_str_py (error_message result) else PNone)
  ].

Definition source_disc : pyval :=
  PDict [
    ("disk_identifier", PStr (disk_id c));
    ("device_path", PStr ("/dev/" +:+ disk_id c));
    ("raw_device_path", PStr ("/dev/r" +:+ disk_id c));
    ("volume_name", PStr (volume_name c));
    ("media_type", di_get "OpticalMediaType" (PStr "Unknown"));
    ("filesystem", di_get "FilesystemName" (di_get "FilesystemType" (PStr "Unknown")));
    ("drive_model", di_get "MediaName" (di_get "IORegistryEntryName" (PStr "Unknown")));
    ("drive_capabilities", di_get "OpticalDeviceType" (PStr "Unknown"));
    ("connection_type", di_get "BusProtocol" (PStr "Unknown"));
    ("erasable", di_get "OpticalMediaErasable" (PBool false));
    ("read_only", PBool (negb (truthy (di_get "Writable" (PBool true)))))
  ].

Definition volume_information : option pyval :=
  total ← format_bytes (NInt (disk_size result));
  let used := di_get "VolumeSize" (PInt (disk_size result)) in
  used_n ← as_num used;
  used_formatted ← format_bytes used_n;
  Some (PDict [
    ("total_size_bytes", PInt (disk_size result));
    ("total_size_formatted", PStr total);
    ("used_space_bytes", used);
    ("used_space_formatted", PStr used_formatted);
    ("allocation_block_size",
      di_get "VolumeAllocationBlockSize" (di_get "DeviceBlockSize" (PStr "Unknown")));
    ("mount_point", di_get "MountPoint" (PStr ("/Volumes/" +:+ volume_name c)))
  ]).

Definition output_files : option pyval :=
  let iso_file_size := iso_file_size_of result w in
  formatted ← match iso_file_size with
              | Some n => if n =? 0 then Some PNone
                          else PStr <$> format_bytes (NInt n)
              | None => Some PNone
              end;
  Some (PDict [
    ("iso_filename", PStr (path_name (iso_path result)));
    ("iso_file_size_bytes", match iso_file_size with Some n => PInt n | None => PNone end);
    ("iso_file_size_formatted", formatted);
    ("output_directory", PStr (output_dir c));
    ("log_filename", PStr (path_name (log_path c)));
    ("tree_filename", PStr (path_name (tree_path c)));
    ("isolyzer_filename", PStr (path_name (isolyzer_path c)));
    ("manifest_filename", PStr (path_name (manifest_path c)))
  ]).

Definition shell_equivalent : string :=
  "[ " +:+ dq +:+ "$(md5 -q " +:+ path_name (iso_path result) +:+ ")" +:+ dq +:+
  " = " +:+ dq +:+ "$(dd if=/dev/r" +:+ disk_id c +:+ " bs=4m 2>/dev/null | md5 -q)" +:+ dq +:+
  " ] && echo " +:+ dq +:+ "MATCH" +:+ dq +:+ " || echo " +:+ dq +:+ "MISMATCH" +:+ dq.

Definition operations_performed : pyval :=
  PDict [
    ("tree_listing", PDict [
      ("command", PStr ("tree -RapugD --si --du /Volumes/" +:+ volume_name c));
      ("output_file", PStr (path_name (tree_path c)));
      ("summary", PDict (_extract_tree_summary c w))]);
    ("disk_unmount", PDict [
      ("command", PStr ("diskutil unmountDisk /dev/" +:+ disk_id c));
      ("status", PStr (if negb (dry_run c) then "success" else "skipped"))]);
    ("iso_creation", PDict [
      ("command", PStr ("dd if=/dev/r" +:+ disk_id c +:+ " of=" +:+ iso_path result +:+ " bs=4m"));
      ("method", PStr "parallel processing with simultaneous hash calculation");
      ("block_size", PStr "4MB");
      ("performed", PBool (negb (dry_run c)))]);
    ("verification", PDict [
      ("method", PStr "md5 hash comparison (ISO file vs raw device stream)");
      ("algorithm", PStr "MD5");
      ("algorithm_bits", PInt 128);
      ("performed", PBool (negb (no_verification c) && negb (dry_run c)));
      ("shell_equivalent", PStr shell_equivalent)]);
    ("finalization", PDict [
      ("remount_command", PStr ("diskutil mount /dev/" +:+ disk_id c));
      ("eject_command", PStr ("diskutil eject /dev/" +:+ disk_id c));
      ("status", PStr (if negb (dry_run c) then "completed" else "skipped"))])
  ].

Definition timing_performance : option pyval :=
  duration ← _format_duration (creation_time result);
  speed ← speed_mb_s result (creation_time result);
  Some (PDict [
    ("iso_creation", PDict [
      ("duration_seconds", PFloat (creation_time result));
      ("duration_formatted", PStr duration);
      ("average_speed_mb_s", PFloat speed);
      ("average_speed_formatted", PStr (PyFloat.format_fixed 2 speed +:+ " MB/s"))]);
    ("verification", PDict [
      ("duration_seconds", PFloat PyFloat.zero);
      ("duration_formatted", PStr "Performed during creation");
      ("note", PStr "Verification performed during ISO creation (parallel processing)")]);
    ("total_operation", PDict [
      ("duration_seconds", PFloat (creation_time result));
      ("duration_formatted", PStr duration);
      ("efficiency_note", PStr "~50% time savings vs sequential read/verify operations")])
  ]).

(** Truth value of [result.checksum_match]. *)
Definition match_truthy : bool :=
  match checksum_match result with Some true => true | _ => false end.

Definition integrity_verification : pyval :=
  PDict [
    ("hash_algorithm", PStr "MD5");
    ("hash_length_bits", PInt 128);
    ("iso_hash", opt_str_py (md5_iso result));
    ("source_hash", opt_str_py (md5_raw result));
    ("hashes_match", match checksum_match result with Some b => PBool b | None => PNone end);
    ("verification_method", PStr "Parallel hash calculation during creation");
    ("integrity_status",
      PStr (match checksum_match result with
            | Some true => "verified"
            | Some false => "failed"
            | None => "not_performed"
            end));
    ("notes", if match_truthy then PStr "ISO verified as bit-perfect copy" else PNone)
  ].

Definition size_validation : option pyval :=
  expected_formatted ← format_mb (ia_get "size_expected" (PInt 0));
  actual_formatted ← format_mb (ia_get "size_actual" (PInt 0));
  differs ← py_gt0 (ia_get "size_difference_bytes" (PInt 0));
  Some (PDict [
    ("size_as_expected", ia_get "size_as_expected" (PBool true));
    ("size_expected_bytes", ia_get "size_expected" (PInt 0));
    ("size_actual_bytes", ia_get "size_actual" (PInt 0));
    ("size_difference_bytes", ia_get "size_difference_bytes" (PInt 0));
    ("size_difference_sectors", ia_get "size_difference_sectors" (PInt 0));
    ("smaller_than_expected", ia_get "smaller_than_expected" (PBool false));
    ("contains_known_filesystem", ia_get "contains_known_filesystem" (PBool true));
    ("size_expected_formatted", PStr expected_formatted);
    ("size_actual_formatted", PStr actual_formatted);
    ("note", if (differs : bool)
             then PStr "Small differences (1-2 sectors) are normal for optical media"
             else PNone)
  ]).

Definition structural_analysis : option pyval :=
  tool_used ← tool_info_get iso_analysis "name" (PStr "isolyzer");
  tool_version ← tool_info_get iso_analysis "version" (PStr "unknown");
  sizes ← size_validation;
  filesystems ← _extract_filesystem_info iso_analysis;
  Some (PDict [
    ("tool_used", tool_used);
    ("tool_version", tool_version);
    ("analysis_performed",
      PBool (negb (truthy (ia_get "skipped" (PBool false)))
             && negb (dict_has iso_analysis "error")));
    ("analysis_successful", ia_get "status_success" (PBool false));
    ("valid_iso9660", ia_get "valid_iso9660" (PBool false));
    ("contains_udf", ia_get "has_udf" (PBool false));
    ("size_validation", sizes);
    ("filesystems_detected", PList filesystems);
    ("warnings", ia_get "warnings" (PList []));
    ("error", opt_py (dict_get iso_analysis "error"));
    ("xml_field_mappings", xml_field_mappings)
  ]).

Definition system_environment : pyval :=
  let p := platform me in
  PDict [
    ("operating_system", PStr (platform_system p));
    ("os_version", PStr (platform_release p));
    ("kernel_version", PStr (platform_version p));
    ("machine_architecture", PStr (platform_machine p));
    ("processor", PStr (platform_processor p));
    ("hostname", PStr (platform_node p));
    ("python_version", PStr (platform_python_version p));
    ("user_context", PStr "sudo required for raw device access")
  ].

Definition technical_details : pyval :=
  PDict [
    ("source_device_properties", PDict [
      ("device_identifier", di_get "DeviceIdentifier" PNone);
      ("device_node", di_get "DeviceNode" PNone);
      ("ejectable", di_get "Ejectable" PNone);
      ("removable", di_get "Removable" PNone);
      ("internal", di_get "Internal" PNone);
      ("smart_status", di_get "SMARTStatus" PNone);
      ("bootable", di_get "Bootable" PNone);
      ("writable", di_get "Writable" PNone)]);
    ("backup_parameters", PDict [
      ("dd_block_size", PStr "4MB");
      ("read_device", PStr ("/dev/r" +:+ disk_id c));
      ("write_destination", PStr (iso_path result));
      ("parallel_processing", PBool true);
      ("verification_during_creation", PBool true);
      ("error_handling", PStr "standard dd error handling")])
  ].

Definition quality_assurance : pyval :=
  let valid := truthy (ia_get "valid_iso9660" PNone) in
  PDict [
    ("verification_levels", PList [
      PDict [
        ("type", PStr "bit_perfect_copy");
        ("method", PStr "MD5 hash comparison");
        ("status", PStr (if match_truthy then "verified" else "failed"));
        ("confidence", PStr (if match_truthy then "100%" else "0%"))];
      PDict [
        ("type", PStr "structural_integrity");
        ("method", PStr "isolyzer analysis");
        ("status",
          PStr (if valid && truthy (ia_get "status_success" PNone) then "verified"
                else if truthy (ia_get "error" PNone) then "failed"
                else "not_performed"));
        ("confidence", PStr (if valid then "high" else "unknown"))]]);
    ("recommended_verifications", PList [
      PStr "Mount created ISO and compare file structure";
      PStr "Test ISO in target environment";
      PStr "Verify specific files if critical data";
      PStr "Check isolyzer analysis for structural issues"]);
    ("backup_best_practices", PList [
      PStr "Store ISO in multiple locations";
      PStr "Create checksum file for long-term storage";
      PStr "Document any disc damage or read errors";
      PStr "Keep isolyzer analysis for format validation"]);
    ("manifest_notes", PStr "This manifest provides comprehensive backup documentation including both bit-level and structural verification for audit and validation purposes")
  ].

(** The dictionary [manifest] of [_create_manifest].  [None] is an
    exception raised while it is built. *)
Definition manifest : option pyval :=
  volume ← volume_information;
  outputs ← output_files;
  timing ← timing_performance;
  structure ← structural_analysis;
  Some (PDict [
    ("backup_metadata", backup_metadata);
    ("backup_status", backup_status);
    ("source_disc", source_disc);
    ("volume_information", volume);
    ("output_files", outputs);
    ("operations_performed", operations_performed);
    ("timing_performance", timing);
    ("integrity_verification", integrity_verification);
    ("structural_analysis", structure);
    ("system_environment", system_environment);
    ("technical_details", technical_details);
    ("quality_assurance", quality_assurance)
  ]).

End Manifest.

(** [_create_manifest]: build the manifest and write it as JSON. *)
Definition _create_manifest (c : BackupConfig) (me : manifest_env)
    (result : BackupResult) (disk_info iso_analysis : pydict) : Run unit :=
  w ← inspect (fun w => w);
  m ← or_raise "exception while building the manifest"
        (manifest c me w result disk_info iso_analysis);
  modify (write_file (manifest_path c) (encode_text (Json.dumps m))).

(** ** The steps of a backup *)

(** What the [isolyzer] run comes to. *)
Inductive isolyzer_run : Type :=
| IsoOutput (stdout : string) (analysis : pydict)
    (* it ran; [analysis] is the dictionary [_parse_isolyzer_xml] makes of
       its output *)
| IsoFailed (msg : string)      (* [CalledProcessError], [msg] its text *)
| IsoNotFound                   (* [FileNotFoundError] *)
| IsoOther (msg : string).      (* any other exception, [msg] its text *)

(** Everything one run of [create_backup] reads from its surroundings, in the
    order it meets it. *)
Record Env : Type := {
  euid : Z;                                (* [os.geteuid()] *)
  disk_info_plist : cmd_result pydict;     (* [diskutil info -plist] *)
  metadata_info : cmd_result string;       (* [diskutil info] of [_log_metadata] *)
  overwrite_answer : user_input;           (* the line typed at the prompt *)
  tree_run : option string;                (* output of [tree]; [None]: not run *)
  unmount_run : cmd_result string;         (* [diskutil unmountDisk] *)
  dd : dd_run;
  isolyzer : isolyzer_run;
  finalize_run : cmd_result string;        (* [diskutil] of [_finalize_disk] *)
  formatted_log : string;                  (* the text [create_formatted_log] writes *)
  m_env : manifest_env
}.

(** [get_input]: the stripped answer; Ctrl-C ends the process. *)
Definition get_input (answer : user_input) : Run string :=
  match answer with
  | Typed line => mret (PyStr.strip line)
  | CtrlC => sys_exit 1
  end.

(** [run_cmd]: the output of a command run with [check=True]. *)
Definition run_cmd {A : Type} (r : cmd_result A) : Run A :=
  match r with
  | CmdOk out => mret out
  | CmdFailed msg => raise ("CalledProcessError: " +:+ msg)
  | CmdMissing msg => raise ("FileNotFoundError: " +:+ msg)
  end.

(** [_get_disk_info]: a failing [diskutil] gives the empty dictionary. *)
Definition _get_disk_info (e : Env) : Run pydict :=
  match disk_info_plist e with
  | CmdFailed _ => mret []
  | r => run_cmd r
  end.

(** [_log_metadata]: only the memory log is written; [diskutil info] runs
    with [check=True]. *)
Definition _log_metadata (e : Env) : Run unit :=
  _ ← run_cmd (metadata_info e); mret tt.

(** [_confirm_overwrite] *)
Definition _confirm_overwrite (e : Env) : Run bool :=
  response ← get_input (overwrite_answer e);
  mret (String.eqb (PyStr.lower response) "y").

(** [_generate_tree_listing]: the file is opened, then [tree] writes into
    it; a failure to run [tree] is logged and leaves the file empty. *)
Definition _generate_tree_listing (c : BackupConfig) (e : Env) : Run unit :=
  modify (write_file (tree_path c)
            (encode_text (match tree_run e with Some out => out | None => "" end))).

(** [_unmount_disk] *)
Definition _unmount_disk (e : Env) : Run bool :=
  match unmount_run e with
  | CmdOk _ => mret true
  | CmdFailed _ => mret false
  | CmdMissing msg => raise ("FileNotFoundError: " +:+ msg)
  end.

(** The minimal XML written when [isolyzer] fails. *)
Definition minimal_xml (msg : string) : string :=
  "<?xml version=" +:+ dq +:+ "1.0" +:+ dq +:+ " ?>" +:+ newline +:+
  "<isolyzer xmlns=" +:+ dq +:+ "http://kb.nl/ns/isolyzer/v1/" +:+ dq +:+ ">" +:+ newline +:+
  "  <toolInfo>" +:+ newline +:+
  "    <toolName>isolyzer</toolName>" +:+ newline +:+
  "    <toolVersion>unknown</toolVersion>" +:+ newline +:+
  "  </toolInfo>" +:+ newline +:+
  "  <image>" +:+ newline +:+
  "    <statusInfo>" +:+ newline +:+
  "      <success>False</success>" +:+ newline +:+
  "      <error>" +:+ msg +:+ "</error>" +:+ newline +:+
  "    </statusInfo>" +:+ newline +:+
  "  </image>" +:+ newline +:+
  "</isolyzer>" +:+ newline.

(** [_analyze_iso_structure]: analyse the ISO with [isolyzer]; every failure
    is turned into an error record. *)
Definition _analyze_iso_structure (c : BackupConfig) (e : Env) : Run pydict :=
  match isolyzer e with
  | IsoOutput stdout analysis =>
      _ ← modify (write_file (isolyzer_path c) (encode_text stdout));
      mret analysis
  | IsoFailed msg =>
      _ ← modify (write_file (isolyzer_path c) (encode_text (minimal_xml msg)));
      mret [("error", PStr msg); ("error_type", PStr "execution_failed")]
  | IsoNotFound =>
      mret [("error", PStr "isolyzer not installed"); ("error_type", PStr "not_found")]
  | IsoOther msg =>
      mret [("error", PStr msg); ("error_type", PStr "parsing_failed")]
  end.

(** [_finalize_disk]: remount and eject.  A dry run asks [diskutil info]
    with [check=True]; a real run does not check the exit status. *)
Definition _finalize_disk (c : BackupConfig) (e : Env) : Run unit :=
  match finalize_run e with
  | CmdOk _ => mret tt
  | CmdFailed msg =>
      if dry_run c then raise ("CalledProcessError: " +:+ msg) else mret tt
  | CmdMissing msg => raise ("FileNotFoundError: " +:+ msg)
  end.

(** The two lines [_generate_summary] logs for a real run. *)
Definition summary_lines (result : BackupResult) : option (list string) :=
  let elapsed := creation_time result in
  speed ← speed_mb_s result elapsed;
  '(minutes, remaining_seconds) ← duration_parts elapsed;
  Some [
    colorize cyan "Time to create + verify:" +:+ " " +:+
      colorize yellow (PyFloat.format_fixed 2 elapsed +:+ " seconds") +:+
      " (" +:+ str_of_Z minutes +:+ " minutes, " +:+
      PyFloat.format_fixed 2 remaining_seconds +:+ " seconds)";
    colorize cyan "Average speed:" +:+ " " +:+
      colorize yellow (PyFloat.format_fixed 2 speed +:+ " MB/s") ].

(** [_generate_summary] *)
Definition _generate_summary (c : BackupConfig) (result : BackupResult) : Run unit :=
  if negb (dry_run c) then
    _ ← or_raise "exception while formatting the summary" (summary_lines result);
    mret tt
  else mret tt.

(** [create_formatted_log]: the log file is written; its text is an input
    of the model. *)
Definition create_formatted_log (c : BackupConfig) (e : Env) : Run unit :=
  modify (write_file (log_path c) (encode_text (formatted_log e))).

(** [disk_info.get("TotalSize", 0)], an integer in [diskutil]'s plist. *)
Definition total_size (disk_info : pydict) : Z :=
  match dict_get disk_info "TotalSize" with
  | Some (PInt n) => n
  | _ => 0
  end.

Definition failure (c : BackupConfig) (size : Z) (msg : string) : BackupResult :=
  {| success := false; iso_path := output_path c; disk_size := size;
     md5_iso := None; md5_raw := None;
     creation_time := PyFloat.zero; verification_time := PyFloat.zero;
     error_message := Some msg |}.

(** ** [OpticalDiscBackup.create_backup] *)

Definition create_backup (c : BackupConfig) (e : Env) : Run BackupResult :=
  if negb (euid e =? 0) then mret (failure c 0 "Not running as root")
  else
    disk_info ← _get_disk_info e;
    match disk_info with
    | [] => mret (failure c 0 ("Could not get disk info for " +:+ disk_id c))
    | _ =>
        let disk_size := total_size disk_info in
        _ ← _log_metadata e;
        existing ← inspect (path_exists (output_path c));
        overwrite ← (if existing : bool then _confirm_overwrite e else mret true);
        if negb overwrite
        then mret (failure c disk_size "Aborted to avoid overwrite")
        else
          _ ← modify (make_dir (output_dir c));
          _ ← _generate_tree_listing c e;
          _ ← (if negb (dry_run c) then _unmount_disk e else mret true);
          '(creation_time, md5_iso, md5_raw, iso_analysis) ←
            (if dry_run c then
               mret (PyFloat.zero, "dry_run_hash", "dry_run_hash",
                     [("skipped", PBool true); ("reason", PStr "dry run")])
             else
               '(creation_time, md5_iso, md5_raw) ←
                 _create_and_verify_iso c disk_size (dd e);
               iso_analysis ← _analyze_iso_structure c e;
               mret (creation_time, md5_iso, md5_raw, iso_analysis));
          _ ← _finalize_disk c e;
          let result :=
            {| success := true; iso_path := output_path c; disk_size := disk_size;
               md5_iso := Some md5_iso; md5_raw := Some md5_raw;
               creation_time := creation_time; verification_time := PyFloat.zero;
               error_message := None |} in
          _ ← _generate_summary c result;
          _ ← create_formatted_log c e;
          _ ← _create_manifest c (m_env e) result disk_info iso_analysis;
          mret result
    end.

(** ** [main], from the configuration on *)

(** The exit status of the process and the file system it leaves.  An
    exception that nothing catches ends the process with status 1. *)
Definition main (c : BackupConfig) (e : Env) (w : world) : Z * world :=
  match create_backup c e w with
  | (Returned result, w') => (exit_status result, w')
  | (Exited code, w') => (code, w')
  | (Raised _, w') => (1, w')
  end.

(** ** A sample run

    A five-byte disc read in two blocks on a machine without [isolyzer]. *)

Definition sample_config : BackupConfig :=
  {| disk_id := "disk2"; volume_name := "MYDISC"; filename := "disc1";
     operator := "JD"; output_dir := "/out/disc1";
     dry_run := false; no_verification := false |}.

Definition sample_platform : platform_info :=
  {| platform_system := "Darwin"; platform_release := "23.1.0";
     platform_version := "Darwin Kernel Version 23.1.0";
     platform_machine := "arm64"; platform_processor := "arm";
     platform_node := "lab-mac"; platform_python_version := "3.11.2" |}.

Definition sample_manifest_env : manifest_env :=
  {| now := {| year := 2024; month := 3; day := 7;
               hour := 9; minute := 5; second := 1; microsecond := 0 |};
     uuid4 := "123e4567-e89b-42d3-a456-426614174000";
     platform := sample_platform |}.

Definition sample_disk_info : pydict :=
  [("TotalSize", PInt 5); ("OpticalMediaType", PStr "CD-ROM");
   ("Writable", PBool false)].

Definition sample_reads : list read_event :=
  [ReadData ["a"; "b"; "c"]%byte (PyFloat.of_decimal 10005 (-1));
   ReadData ["d"; "e"]%byte (PyFloat.of_decimal 1001 0)].

Definition sample_dd : dd_run :=
  {| dd_start_clock := PyFloat.of_decimal 1000 0;
     dd_reads := sample_reads;
     dd_returncode := 0;
     dd_stderr := "0+2 records in";
     dd_end_clock := PyFloat.of_decimal 10015 (-1) |}.

Definition sample_env : Env :=
  {| euid := 0;
     disk_info_plist := CmdOk sample_disk_info;
     metadata_info := CmdOk "   Device Identifier: disk2";
     overwrite_answer := Typed "n";
     tree_run := Some ("." +:+ newline +:+ "Total 1 directories, 2 files, 5 bytes" +:+ newline);
     unmount_run := CmdOk "";
     dd := sample_dd;
     isolyzer := IsoNotFound;
     finalize_run := CmdOk "";
     formatted_log := "OPTICAL DISC TO ISO BACKUP LOG";
     m_env := sample_manifest_env |}.

(** An empty file system. *)
Definition empty_world : world := {| files := ∅; dirs := ∅ |}.

(** ** Reading and comparing documents *)

(** The value at a path of keys in nested dictionaries. *)
Fixpoint py_path (v : pyval) (path : list string) : option pyval :=
  match path with
  | [] => Some v
  | k :: rest =>
      match v with
      | PDict d =>
          match dict_get d k with
          | Some v' => py_path v' rest
          | None => None
          end
      | _ => None
      end
  end.

(** [d[k] = v] *)
Fixpoint dict_set (d : pydict) (k : string) (v : pyval) : pydict :=
  match d with
  | [] => [(k, v)]
  | (k', v') :: d' =>
      if String.eqb k' k then (k, v) :: d' else (k', v') :: dict_set d' k v
  end.

(** The document with the value at a path replaced. *)
Fixpoint py_set (v : pyval) (path : list string) (x : pyval) : pyval :=
  match path with
  | [] => x
  | k :: rest =>
      match v with
      | PDict d => PDict (dict_set d k (py_set (dict_get_default d k PNone) rest x))
      | _ => v
      end
  end.

(** The manifest without its generation timestamp. *)
Definition without_created (m : pyval) : pyval :=
  py_set m ["backup_metadata"; "created"] PNone.

(** The manifest without what identifies the call that built it: the run
    id, the uuid and the generation timestamp. *)
Definition without_run_identity (m : pyval) : pyval :=
  py_set (py_set (py_set m ["backup_metadata"; "run_id"] PNone)
            ["backup_metadata"; "uuid"] PNone)
    ["backup_metadata"; "created"] PNone.

(** The manifest without the two fields that say whether verification was
    performed. *)
Definition without_verification_flags (m : pyval) : pyval :=
  py_set (py_set m ["backup_status"; "verification_performed"] PNone)
    ["operations_performed"; "verification"; "performed"] PNone.

(** The configuration with another [no_verification] flag. *)
Definition with_no_verification (b : bool) (c : BackupConfig) : BackupConfig :=
  {| disk_id := disk_id c; volume_name := volume_name c; filename := filename c;
     operator := operator c; output_dir := output_dir c;
     dry_run := dry_run c; no_verification := b |}.

(** The configuration with another [dry_run] flag. *)
Definition with_dry_run (b : bool) (c : BackupConfig) : BackupConfig :=
  {| disk_id := disk_id c; volume_name := volume_name c; filename := filename c;
     operator := operator c; output_dir := output_dir c;
     dry_run := b; no_verification := no_verification c |}.

(** The record [_analyze_iso_structure] returns when [isolyzer] is absent. *)
Definition not_found_record : pydict :=
  [("error", PStr "isolyzer not installed"); ("error_type", PStr "not_found")].

(** The record of a dry run. *)
Definition dry_run_record : pydict :=
  [("skipped", PBool true); ("reason", PStr "dry run")].

(** A second call of the manifest builder at the same second: only the
    uuid drawn differs. *)
Definition sample_manifest_env' : manifest_env :=
  {| now := now sample_manifest_env;
     uuid4 := "9b2f1c3a-7d5e-4f80-b1a2-0c9d8e7f6a5b";
     platform := sample_platform |}.

(** The result of the sample run. *)
Definition sample_result : BackupResult :=
  {| success := true; iso_path := "/out/disc1/disc1.iso"; disk_size := 5;
     md5_iso := Some "ab56b4d92b40713acc5af89985d4b786";
     md5_raw := Some "ab56b4d92b40713acc5af89985d4b786";
     creation_time := PyFloat.of_decimal 15 (-1);
     verification_time := PyFloat.zero;
     error_message := None |}.

(** A file system in which the ISO of the sample run already exists. *)
Definition world_with_iso : world :=
  write_file "/out/disc1/disc1.iso" ["o"; "l"; "d"]%byte empty_world.

(** The operator answers the overwrite prompt with a capital Y. *)
Definition env_capital_y : Env :=
  {| euid := euid sample_env;
     disk_info_plist := disk_info_plist sample_env;
     metadata_info := metadata_info sample_env;
     overwrite_answer := Typed "Y";
     tree_run := tree_run sample_env;
     unmount_run := unmount_run sample_env;
     dd := dd sample_env;
     isolyzer := isolyzer sample_env;
     finalize_run := finalize_run sample_env;
     formatted_log := formatted_log sample_env;
     m_env := m_env sample_env |}.

(** The file system the sample run leaves. *)
Definition sample_world : world :=
  snd (create_backup sample_config sample_env empty_world).

(** The manifest of the sample run. *)
Definition sample_manifest : option pyval :=
  manifest sample_config sample_manifest_env sample_world sample_result
    sample_disk_info not_found_record.

(** The manifest a second call builds at the same second. *)
Definition sample_manifest' : option pyval :=
  manifest sample_config sample_manifest_env' sample_world sample_result
    sample_disk_info not_found_record.

(** The same disc imaged as a dry run. *)
Definition sample_dry_config : BackupConfig := with_dry_run true sample_config.

(** ** Two runs compared *)

(** The two fields of a manifest that say whether verification was
    performed. *)
Definition verification_flags (m : pyval) : option pyval * option pyval :=
  (py_path m ["backup_status"; "verification_performed"],
   py_path m ["operations_performed"; "verification"; "performed"]).

(** Two runs end the same way and leave the same file system, but for the
    manifest file: if it was written, its two documents hold the flags [f1]
    and [f2] and agree everywhere else. *)
Definition same_but_flags (c : BackupConfig) (f1 f2 : bool)
    (x y : outcome BackupResult * world) : Prop :=
  fst x = fst y /\
  dirs (snd x) = dirs (snd y) /\
  (forall p, p <> manifest_path c -> files (snd x) !! p = files (snd y) !! p) /\
  (files (snd x) !! manifest_path c = files (snd y) !! manifest_path c \/
   exists m1 m2,
     files (snd x) !! manifest_path c = Some (encode_text (Json.dumps m1)) /\
     files (snd y) !! manifest_path c = Some (encode_text (Json.dumps m2)) /\
     verification_flags m1 = (Some (PBool f1), Some (PBool f1)) /\
     verification_flags m2 = (Some (PBool f2), Some (PBool f2)) /\
     without_verification_flags m1 = without_verification_flags m2).

(** ** What a run may touch, and runs in other surroundings *)




(** The surroundings with other answers of [diskutil unmountDisk], of the
    [dd] process and of [isolyzer]. *)
Definition with_copy_inputs (u : cmd_result string) (d : dd_run)
    (i : isolyzer_run) (e : Env) : Env :=
  {| euid := euid e; disk_info_plist := disk_info_plist e;
     metadata_info := metadata_info e; overwrite_answer := overwrite_answer e;
     tree_run := tree_run e; unmount_run := u; dd := d; isolyzer := i;
     finalize_run := finalize_run e; formatted_log := formatted_log e;
     m_env := m_env e |}.

(** The surroundings with another answer of [diskutil unmountDisk]. *)
Definition with_unmount_run (u : cmd_result string) (e : Env) : Env :=
  with_copy_inputs u (dd e) (isolyzer e) e.

(** The surroundings with another answer of the [diskutil] calls of
    [_finalize_disk]. *)
Definition with_finalize_run (f : cmd_result string) (e : Env) : Env :=
  {| euid := euid e; disk_info_plist := disk_info_plist e;
     metadata_info := metadata_info e; overwrite_answer := overwrite_answer e;
     tree_run := tree_run e; unmount_run := unmount_run e; dd := dd e;
     isolyzer := isolyzer e;
     finalize_run := f; formatted_log := formatted_log e;
     m_env := m_env e |}.

(** ** The memory log and its preview *)

(** The time stamp of a log entry:
    [now.strftime('%Y-%m-%dT%H:%M:%S') + f".{now.microsecond // 1000:03d}"]. *)
Definition log_timestamp (t : datetime) : string :=
  isoformat_seconds t +:+ "." +:+ str_of_Z_width 3 (microsecond t / 1000).

(** What [MemoryLogHandler.emit] and [log_to_file_only] append to the
    buffer at time [t]. *)
Definition log_entry (t : datetime) (msg : string) : string :=
  log_timestamp t +:+ " - " +:+ msg.

Definition log_append (t : datetime) (msg : string) (buffer : list string)
  : list string :=
  buffer ++ [log_entry t msg].

Module Ansi.

Definition between (lo hi : N) (c : ascii) : bool :=
  let n := N_of_ascii c in ((lo <=? n) && (n <=? hi))%N.

Definition is_esc (c : ascii) : bool := (N_of_ascii c =? 27)%N.

(** The class [[@-Z\\-_]]: the codes 0x40..0x5F without the bracket. *)
Definition is_single (c : ascii) : bool := between 64 90 c || between 92 95 c.

(** The classes [[0-?]], [[ -/]] and [[@-~]]. *)
Definition is_parameter (c : ascii) : bool := between 48 63 c.
Definition is_intermediate (c : ascii) : bool := between 32 47 c.
Definition is_final (c : ascii) : bool := between 64 126 c.

(** The number of characters the pattern
    [\x1B(?:[@-Z\\-_]|\[[0-?]*[ -/]*[@-~])] matches at the start of [s]. *)
Definition escape_length (s : string) : option nat :=
  match s with
  | String c (String d rest) =>
      if is_esc c then
        if is_single d then Some 2%nat
        else if Ascii.eqb d "[" then
          let '(params, r1) := TreeSummary.span is_parameter rest in
          let '(inter, r2) := TreeSummary.span is_intermediate r1 in
          match r2 with
          | String f _ =>
              if is_final f
              then Some (3 + String.length params + String.length inter)%nat
              else None
          | EmptyString => None
          end
        else None
      else None
  | _ => None
  end.

(** [ansi_escape.sub('', s)], with [skip] characters of a match still to
    drop: where the pattern matches, the match is dropped; elsewhere the
    character is kept. *)
Fixpoint sub_from (skip : nat) (s : string) : string :=
  match s with
  | EmptyString => EmptyString
  | String c s' =>
      match skip with
      | S k => sub_from k s'
      | O =>
          match escape_length s with
          | Some (S k) => sub_from k s'
          | _ => String c (sub_from 0 s')
          end
      end
  end.

Definition strip (s : string) : string := sub_from 0 s.

End Ansi.

(** [s.split(sep, 1)[1]]: what follows the first occurrence of [sep];
    [None] is [IndexError]. *)
Fixpoint after_first (sep s : string) : option string :=
  match TreeSummary.strip_prefix sep s with
  | Some rest => Some rest
  | None =>
      match s with
      | String _ s' => after_first sep s'
      | EmptyString => None
      end
  end.

(** [l[-n:]] for [0 < n]. *)
Definition last_n {A : Type} (n : nat) (l : list A) : list A :=
  List.skipn (List.length l - n) l.

(** [_get_log_preview]: the last ten entries of the buffer without their
    time stamps and colours; an entry without a separator makes the whole
    preview one error line. *)
Definition _get_log_preview (buffer : list string) : list string :=
  match mapM (fun entry => Ansi.strip <$> after_first " - " entry)
             (last_n 10 buffer) with
  | Some preview => preview
  | None => ["Log preview error: list index out of range"]
  end.

(** ** Helper functions *)

(** [str.splitlines] on the code points 0..255. *)
Definition is_linebreak (c : ascii) : bool :=
  let n := N_of_ascii c in
  ((10 <=? n) && (n <=? 13) || (28 <=? n) && (n <=? 30) || (n =? 133))%N.

Fixpoint splitlines_aux (cur : string) (s : string) : list string :=
  match s with
  | EmptyString => match cur with EmptyString => [] | _ => [cur] end
  | String c s' =>
      if is_linebreak c then
        cur :: match s' with
               | String d s'' =>
                   if Ascii.eqb c "013" && Ascii.eqb d "010"
                   then splitlines_aux EmptyString s''
                   else splitlines_aux EmptyString s'
               | EmptyString => []
               end
      else splitlines_aux (cur +:+ String c EmptyString) s'
  end.

Definition splitlines (s : string) : list string := splitlines_aux EmptyString s.

(** The loop of [get_volume_name]: the first line that mentions
    [Volume Name:] decides. *)
Fixpoint volume_name_in (lines : list string) : string :=
  match lines with
  | [] => "Unknown"
  | line :: rest =>
      if TreeSummary.contains "Volume Name:" line then
        match after_first ":" line with
        | Some name => PyStr.strip name
        | None => "Unknown"   (* not reached: the line holds a colon *)
        end
      else volume_name_in rest
  end.

(** [get_volume_name]: the volume name from [diskutil info], [Unknown] when
    the command fails or names none. *)
Definition get_volume_name (diskutil_info : cmd_result string) : Run string :=
  match diskutil_info with
  | CmdFailed _ => mret "Unknown"
  | r => info ← run_cmd r; mret (volume_name_in (splitlines info))
  end.

(** [list_disks]: the output of [diskutil list], empty when it fails. *)
Definition list_disks (diskutil_list : cmd_result string) : Run string :=
  match diskutil_list with
  | CmdFailed _ => mret ""
  | r => run_cmd r
  end.

(** ** Texts made of characters of one kind *)

(** [all(p(c) for c in s)] *)
Fixpoint all_chars (p : ascii -> bool) (s : string) : bool :=
  match s with
  | EmptyString => true
  | String c s' => p c && all_chars p s'
  end.

(** A character of ASCII: in a text of such characters, a character is a
    byte also in UTF-8. *)
Definition is_ascii (c : ascii) : bool := (N_of_ascii c <? 128)%N.

(** The tree listing, if there is one, is a text in ASCII. *)
Definition ascii_listing (c : BackupConfig) (w : world) : bool :=
  match files w !! tree_path c with
  | Some data => all_chars is_ascii (decode_text data)
  | None => true
  end.

(** A text that is empty or starts with the escape character. *)
Definition starts_escape (t : string) : bool :=
  match t with
  | EmptyString => true
  | String c _ => Ansi.is_esc c
  end.

(** Characters that are no space, no colon. *)
Definition not_space (c : ascii) : bool := negb (Ascii.eqb c " ").

Definition not_colon (c : ascii) : bool := negb (Ascii.eqb c ":").

Definition is_dict (v : pyval) : bool :=
  match v with PDict _ => true | _ => false end.

(** A filesystem descriptor of the manifest: a type and details without
    [None] values. *)
Definition fs_descriptor (v : pyval) : Prop :=
  exists type details,
    v = PDict [("type", type); ("details", PDict details)] /\
    Forall (fun kv => snd kv <> PNone) details /\
    (type <> PStr "ISO 9660" -> type <> PStr "UDF" -> details = []).

(** The line [tree] ends its listing with, as [_extract_tree_summary] looks
    for it. *)
Definition total_line (directories files : Z) (size : string) : string :=
  "Total " +:+ str_of_Z directories +:+ " directories, " +:+
  str_of_Z files +:+ " files, " +:+ size.

(** The lines the loop passes over: they do not start with [Total] or do
    not mention [directories]. *)
Definition no_total (line : string) : bool :=
  negb (String.prefix "Total" (PyStr.strip line)
        && TreeSummary.contains "directories" line).

(** ** The isolyzer report *)

(** An element of a parsed document, as [xml.etree.ElementTree] holds it:
    the tag with its namespace in braces, the attributes, the text before
    the first child ([None] when there is none) and the children. *)
Inductive element : Type :=
| Element (tag : string) (attrib : list (string * string))
    (text : option string) (children : list element).

Definition tag_of (e : element) : string :=
  match e with Element tag _ _ _ => tag end.
Definition attrib_of (e : element) : list (string * string) :=
  match e with Element _ attrib _ _ => attrib end.
Definition text_of (e : element) : option string :=
  match e with Element _ _ text _ => text end.
Definition children_of (e : element) : list element :=
  match e with Element _ _ _ children => children end.

(** What [ET.fromstring] makes of a text. *)
Inductive xml_parse : Type :=
| XmlError (msg : string)      (* [ET.ParseError], [msg] its text *)
| XmlRaised (msg : string)     (* any other exception, [msg] its text *)
| XmlRoot (root : element).

(** The tag a name has under the prefix [iso]. *)
Definition iso (name : string) : string :=
  "{http://kb.nl/ns/isolyzer/v1/}" +:+ name.

Definition has_tag (name : string) (e : element) : bool :=
  String.eqb (tag_of e) (iso name).

(** [e.find('iso:<name>', ns)]: the first child with the tag. *)
Definition xml_find (e : element) (name : string) : option element :=
  List.find (has_tag name) (children_of e).

(** [e.findall('iso:<outer>/iso:<inner>', ns)] *)
Definition xml_findall2 (e : element) (outer inner : string) : list element :=
  List.flat_map (fun o => List.filter (has_tag inner) (children_of o))
    (List.filter (has_tag outer) (children_of e)).

(** [fs.get(key)] on the attributes of an element *)
Fixpoint xml_attr (attrib : list (string * string)) (key : string) : option string :=
  match attrib with
  | [] => None
  | (k, v) :: rest => if String.eqb k key then Some v else xml_attr rest key
  end.

(** [_get_xml_text]: the stripped text of a child, empty when the child or
    its text is missing. *)
Definition _get_xml_text (e : element) (name : string) : string :=
  match xml_find e name with
  | Some found =>
      match text_of found with
      | Some text => if PyStr.truthy text then PyStr.strip text else ""
      | None => ""
      end
  | None => ""
  end.

(** [int(text or 0)]: the left side is the text of the [ValueError]. *)
Definition int_or_raise (text : string) : string + Z :=
  if PyStr.truthy text then PyNum.int_ text else inr 0.

(** [try: int(text) if text else 0 / except ValueError: 0] *)
Definition int_or_zero (text : string) : Z :=
  if PyStr.truthy text then
    match PyNum.int_ text with inr n => n | inl _ => 0 end
  else 0.

(** [try: float(text) if text else 0 / except ValueError: 0] *)
Definition float_or_zero (text : string) : pyval :=
  if PyStr.truthy text then
    match PyNum.float_ text with Some f => PFloat f | None => PInt 0 end
  else PInt 0.

(** [text == 'True'] *)
Definition is_True (text : string) : pyval := PBool (String.eqb text "True").

Definition tool_info_of (root : element) : pydict :=
  match xml_find root "toolInfo" with
  | Some tool =>
      [("name", PStr (_get_xml_text tool "toolName"));
       ("version", PStr (_get_xml_text tool "toolVersion"))]
  | None => []
  end.

Definition file_info_of (image : element) : string + pydict :=
  match xml_find image "fileInfo" with
  | Some file =>
      match int_or_raise (_get_xml_text file "fileSizeInBytes") with
      | inr size =>
          inr [("name", PStr (_get_xml_text file "fileName"));
               ("size_bytes", PInt size);
               ("last_modified", PStr (_get_xml_text file "fileLastModified"))]
      | inl exn => inl exn
      end
  | None => inr []
  end.

Definition status_info_of (image : element) : pydict :=
  match xml_find image "statusInfo" with
  | Some status => [("success", is_True (_get_xml_text status "success"))]
  | None => []
  end.

Definition tests_of (image : element) : pydict :=
  match xml_find image "tests" with
  | Some tests =>
      [("contains_known_filesystem",
        is_True (_get_xml_text tests "containsKnownFileSystem"));
       ("size_expected", PInt (int_or_zero (_get_xml_text tests "sizeExpected")));
       ("size_actual", PInt (int_or_zero (_get_xml_text tests "sizeActual")));
       ("size_difference",
        PInt (int_or_zero (_get_xml_text tests "sizeDifference")));
       ("size_difference_sectors",
        float_or_zero (_get_xml_text tests "sizeDifferenceSectors"));
       ("size_as_expected", is_True (_get_xml_text tests "sizeAsExpected"));
       ("smaller_than_expected",
        is_True (_get_xml_text tests "smallerThanExpected"))]
  | None => []
  end.

(** The [TYPE] of a [fileSystem] element, [None] without the attribute. *)
Definition element_type (fs : element) : pyval :=
  opt_str_py (xml_attr (attrib_of fs) "TYPE").

(** The dictionary made of one [fileSystem] element. *)
Definition filesystem_of (fs : element) : string + pydict :=
  let fs_type := element_type fs in
  let fs_data := [("type", fs_type)] in
  if py_eq_str fs_type "ISO 9660" then
    match xml_find fs "primaryVolumeDescriptor" with
    | Some pvd =>
        match int_or_raise (_get_xml_text pvd "logicalBlockSize") with
        | inr block =>
            match int_or_raise (_get_xml_text pvd "volumeSpaceSize") with
            | inr space =>
                inr (fs_data ++
                     [("volume_identifier",
                       PStr (_get_xml_text pvd "volumeIdentifier"));
                      ("volume_creation_date",
                       PStr (_get_xml_text pvd "volumeCreationDateAndTime"));
                      ("publisher",
                       PStr (_get_xml_text pvd "publisherIdentifier"));
                      ("data_preparer",
                       PStr (_get_xml_text pvd "dataPreparerIdentifier"));
                      ("logical_block_size", PInt block);
                      ("volume_space_size", PInt space)])
            | inl exn => inl exn
            end
        | inl exn => inl exn
        end
    | None => inr fs_data
    end
  else if py_eq_str fs_type "UDF" then
    match xml_find fs "logicalVolumeDescriptor" with
    | Some lvd =>
        match int_or_raise (_get_xml_text lvd "logicalBlockSize") with
        | inr block =>
            inr (fs_data ++
                 [("logical_volume_identifier",
                   PStr (_get_xml_text lvd "logicalVolumeIdentifier"));
                  ("logical_block_size", PInt block);
                  ("implementation",
                   PStr (_get_xml_text lvd "implementationIdentifier"))])
        | inl exn => inl exn
        end
    | None => inr fs_data
    end
  else inr fs_data.

(** The loop over the [fileSystem] elements: the first exception ends it. *)
Fixpoint filesystems_of (elements : list element) : string + list pyval :=
  match elements with
  | [] => inr []
  | fs :: rest =>
      match filesystem_of fs with
      | inr d =>
          match filesystems_of rest with
          | inr ds => inr (PDict d :: ds)
          | inl exn => inl exn
          end
      | inl exn => inl exn
      end
  end.

(** [any(fs['type'] == name for fs in filesystems)]; every element is a
    dictionary with the key [type]. *)
Definition any_type (name : string) (filesystems : list pyval) : bool :=
  List.existsb
    (fun fs => match fs with
               | PDict d => py_eq_str (dict_get_default d "type" PNone) name
               | _ => false
               end) filesystems.

(** The warnings; [size_difference] is an [int] whenever it is there. *)
Definition warnings_of (tests : pydict) : list pyval :=
  if negb (truthy (dict_get_default tests "size_as_expected" (PBool true)))
  then [PStr ("File size differs from expected by " +:+
              match dict_get_default tests "size_difference" (PInt 0) with
              | PInt n => str_of_Z n
              | _ => ""
              end +:+ " bytes")]
  else [].

Definition unknown_error (exn : string) : pydict :=
  [("error", PStr ("Unexpected parsing error: " +:+ exn));
   ("error_type", PStr "unknown_error")].

(** [_parse_isolyzer_xml], from the parsed document on: the analysis, or
    an error record.  The line it sends to the log file is left out. *)
Definition _parse_isolyzer_xml (document : xml_parse) : pydict :=
  match document with
  | XmlError msg =>
      [("error", PStr ("XML parsing failed: " +:+ msg));
       ("error_type", PStr "xml_parse_error")]
  | XmlRaised msg => unknown_error msg
  | XmlRoot root =>
      let tool_info := tool_info_of root in
      match xml_find root "image" with
      | None => [("error", PStr "No image element found in XML")]
      | Some image =>
          match file_info_of image with
          | inl exn => unknown_error exn
          | inr file_info =>
              let status_info := status_info_of image in
              let tests := tests_of image in
              match filesystems_of (xml_findall2 image "fileSystems" "fileSystem") with
              | inl exn => unknown_error exn
              | inr filesystems =>
                  [("tool_info", PDict tool_info);
                   ("file_info", PDict file_info);
                   ("valid_iso9660", PBool (any_type "ISO 9660" filesystems));
                   ("has_udf", PBool (any_type "UDF" filesystems));
                   ("status_success",
                    dict_get_default status_info "success" (PBool false));
                   ("size_as_expected",
                    dict_get_default tests "size_as_expected" (PBool false));
                   ("size_difference_bytes",
                    dict_get_default tests "size_difference" (PInt 0));
                   ("size_difference_sectors",
                    dict_get_default tests "size_difference_sectors" (PInt 0));
                   ("size_expected",
                    dict_get_default tests "size_expected" (PInt 0));
                   ("size_actual",
                    dict_get_default tests "size_actual" (PInt 0));
                   ("contains_known_filesystem",
                    dict_get_default tests "contains_known_filesystem" (PBool true));
                   ("smaller_than_expected",
                    dict_get_default tests "smaller_than_expected" (PBool false));
                   ("filesystems", PList filesystems);
                   ("tests", PDict tests);
                   ("warnings", PList (warnings_of tests))]
              end
          end
      end
  end.

(** The keys of an analysis, in the order of the dictionary. *)
Definition report_keys : list string :=
  ["tool_info"; "file_info"; "valid_iso9660"; "has_udf"; "status_success";
   "size_as_expected"; "size_difference_bytes"; "size_difference_sectors";
   "size_expected"; "size_actual"; "contains_known_filesystem";
   "smaller_than_expected"; "filesystems"; "tests"; "warnings"].

(** The [type] of a dictionary. *)
Definition type_of (v : pyval) : pyval :=
  match v with
  | PDict d => dict_get_default d "type" PNone
  | _ => PNone
  end.

(** An element with the tag [iso:<name>] that holds only a text. *)
Definition text_element (name text : string) : element :=
  Element (iso name) [] (Some text) [].

(** A report as [isolyzer] writes it for a disc with an ISO 9660 and a UDF
    file system, one sector shorter than expected: its tests, its image and
    the document. *)
Definition sample_tests : element :=
  Element (iso "tests") [] None
    [text_element "containsKnownFileSystem" "True";
     text_element "sizeExpected" "6144";
     text_element "sizeActual" "4096";
     text_element "sizeDifference" "-2048";
     text_element "sizeDifferenceSectors" "-1.0";
     text_element "sizeAsExpected" "False";
     text_element "smallerThanExpected" "True"].

Definition sample_file : string -> element := fun size =>
  Element (iso "fileInfo") [] None
    [text_element "fileName" "disc.iso";
     text_element "fileSizeInBytes" size;
     text_element "fileLastModified" "Mon Jan  1 00:00:00 2024"].

Definition sample_image : element :=
  Element (iso "image") [] None
    [sample_file " 4096 ";
     Element (iso "statusInfo") [] None [text_element "success" "True"];
     sample_tests;
     Element (iso "fileSystems") [] None
       [Element (iso "fileSystem") [("TYPE", "ISO 9660")] None
          [Element (iso "primaryVolumeDescriptor") [] None
             [text_element "volumeIdentifier" "DISC";
              text_element "logicalBlockSize" "2048";
              text_element "volumeSpaceSize" "3"]];
        Element (iso "fileSystem") [("TYPE", "UDF")] None []]].

Definition sample_report : element :=
  Element (iso "isolyzer") [] None
    [Element (iso "toolInfo") [] None
       [text_element "toolName" "isolyzer"; text_element "toolVersion" "1.4.0"];
     sample_image].

Definition sample_file_info : pydict :=
  [("name", PStr "disc.iso"); ("size_bytes", PInt 4096);
   ("last_modified", PStr "Mon Jan  1 00:00:00 2024")].

Definition sample_filesystems : list pyval :=
  [PDict [("type", PStr "ISO 9660"); ("volume_identifier", PStr "DISC");
          ("volume_creation_date", PStr ""); ("publisher", PStr "");
          ("data_preparer", PStr ""); ("logical_block_size", PInt 2048);
          ("volume_space_size", PInt 3)];
   PDict [("type", PStr "UDF")]].

(** The analysis of a document that could be read. *)
Definition parsed (document : xml_parse) (image : element)
    (file_info : pydict) (filesystems : list pyval) : Prop :=
  exists root,
    document = XmlRoot root /\ xml_find root "image" = Some image /\
    file_info_of image = inr file_info /\
    filesystems_of (xml_findall2 image "fileSystems" "fileSystem") = inr filesystems.

(** The image element of a document, if it has one. *)
Definition image_of (document : xml_parse) : option element :=
  match document with
  | XmlRoot root => xml_find root "image"
  | _ => None
  end.

(** ** Runs that reach their end *)











(** * Properties *)

(** ** Signs of float results *)

Section FloatSign.

Import PyFloat.

Lemma shr_1_nonneg mrs : 0 <= shr_m mrs -> 0 <= shr_m (shr_1 mrs).
Proof.
  destruct mrs as [m r s]; simpl.
  destruct m as [|p|p]; simpl; try lia.
  destruct p; simpl; lia.
Qed.

Lemma iter_pos_shr_1_nonneg n mrs :
  0 <= shr_m mrs -> 0 <= shr_m (SpecFloat.iter_pos shr_1 n mrs).
Proof.
  revert mrs. induction n as [n IH|n IH|]; intros mrs Hm; simpl.
  - apply IH, IH, shr_1_nonneg, Hm.
  - apply IH, IH, Hm.
  - apply shr_1_nonneg, Hm.
Qed.

Lemma shr_nonneg mrs e n : 0 <= shr_m mrs -> 0 <= shr_m (fst (shr mrs e n)).
Proof.
  intros Hm. unfold shr. destruct n; simpl; auto using iter_pos_shr_1_nonneg.
Qed.

Lemma shr_record_of_loc_m m l : shr_m (shr_record_of_loc m l) = m.
Proof. destruct l as [|[]]; reflexivity. Qed.

Lemma shr_fexp_nonneg m e l :
  0 <= m -> 0 <= shr_m (fst (shr_fexp prec emax m e l)).
Proof.
  intros Hm. unfold shr_fexp. apply shr_nonneg.
  rewrite shr_record_of_loc_m. exact Hm.
Qed.

Lemma round_nearest_even_nonneg m l : 0 <= m -> 0 <= round_nearest_even m l.
Proof.
  intros Hm. unfold round_nearest_even.
  destruct l as [|[]]; try destruct (Z.even m); lia.
Qed.

(** Rounding a non-negative mantissa under a clear sign bit gives [+0.0],
    a positive finite value or [+inf], never a NaN. *)
Lemma binary_round_aux_nonneg mz ez lz :
  0 <= mz -> nonneg (binary_round_aux prec emax false mz ez lz) = true.
Proof.
  intros Hm. unfold binary_round_aux.
  pose proof (shr_fexp_nonneg mz ez lz Hm) as H1.
  destruct (shr_fexp prec emax mz ez lz) as [mrs' e'] eqn:E1. simpl in H1.
  pose proof (shr_fexp_nonneg _ e' loc_Exact
                (round_nearest_even_nonneg _ (loc_of_shr_record mrs') H1)) as H2.
  destruct (shr_fexp prec emax _ e' loc_Exact) as [mrs'' e''] eqn:E2. simpl in H2.
  destruct (shr_m mrs'') as [|p|p]; simpl; try reflexivity.
  - destruct (e'' <=? emax - prec); reflexivity.
  - lia.
Qed.

Lemma round_dyadic_nonneg m e : 0 <= m -> nonneg (round_dyadic m e) = true.
Proof.
  intros Hm. unfold round_dyadic, binary_normalize.
  destruct m as [|p|p]; try reflexivity; try lia.
  unfold binary_round.
  destruct (shl_align p e _) as [mz ez].
  apply binary_round_aux_nonneg. lia.
Qed.

Lemma of_int_nonneg z f : 0 <= z -> of_int z = Some f -> finite_nonneg f = true.
Proof.
  intros Hz. unfold of_int.
  pose proof (round_dyadic_nonneg z 0 Hz) as Hn.
  destruct (round_dyadic z 0) as [[]|[]| |[] m e]; simpl in Hn;
    intros ?; simplify_eq; try reflexivity; discriminate.
Qed.

Lemma ltb_zero_cases x :
  ltb zero x = true ->
  x = S754_infinity false \/ exists m e, x = S754_finite false m e.
Proof.
  unfold ltb, SFltb, zero.
  destruct x as [s|[]| |[] m e]; simpl; try discriminate; eauto.
Qed.

Lemma div_core_nonneg mx ex my ey :
  0 <= fst (fst (SFdiv_core_binary prec emax (Zpos mx) ex (Zpos my) ey)).
Proof.
  unfold SFdiv_core_binary.
  set (s := _ - _ - _).
  set (m' := match s with
             | Z0 => Zpos mx
             | Zpos _ => Z.shiftl (Zpos mx) s
             | Zneg _ => 0
             end).
  assert (0 <= m') as Hm'.
  { subst m'. destruct s; try lia. apply Z.shiftl_nonneg. lia. }
  pose proof (Z.div_pos m' (Zpos my) Hm' eq_refl) as Hq.
  unfold Z.div in Hq.
  destruct (Z.div_eucl m' (Zpos my)) as [q r]. exact Hq.
Qed.

Lemma ieee_div_finite_nonneg mx ex my ey :
  nonneg (ieee_div (S754_finite false mx ex) (S754_finite false my ey)) = true.
Proof.
  unfold ieee_div, SFdiv.
  pose proof (div_core_nonneg mx ex my ey) as Hq.
  destruct (SFdiv_core_binary prec emax (Zpos mx) ex (Zpos my) ey) as [[mz ez] lz].
  apply binary_round_aux_nonneg. exact Hq.
Qed.

(** A non-negative finite value divided by a positive one. *)
Lemma ieee_div_nonneg x y :
  finite_nonneg x = true -> ltb zero y = true -> nonneg (ieee_div x y) = true.
Proof.
  intros Hx Hy.
  destruct (ltb_zero_cases y Hy) as [->|(my & ey & ->)];
    destruct x as [[]|[]| |[] mx ex]; try discriminate; try reflexivity.
  apply ieee_div_finite_nonneg.
Qed.

(** A non-negative value, possibly infinite, divided by a positive finite
    one. *)
Lemma ieee_div_nonneg_by_finite x y :
  nonneg x = true -> finite_nonneg y = true -> is_zero y = false ->
  nonneg (ieee_div x y) = true.
Proof.
  intros Hx Hy Hz.
  destruct y as [[]|[]| |[] my ey]; try discriminate;
    destruct x as [[]|[]| |[] mx ex]; try discriminate; try reflexivity.
  apply ieee_div_finite_nonneg.
Qed.

Lemma to_int_nonneg x n : nonneg x = true -> to_int x = Some n -> 0 <= n.
Proof.
  destruct x as [s|s| |[] m e]; simpl; try discriminate.
  - intros _ [= <-]. lia.
  - intros _ [= <-]. apply Z.shiftl_nonneg. lia.
Qed.

Lemma to_int_of_leb x n : leb zero x = true -> to_int x = Some n -> 0 <= n.
Proof.
  destruct x as [s|s| |[] m e]; simpl; try discriminate.
  - intros _ [= <-]. lia.
  - intros _ [= <-]. apply Z.shiftl_nonneg. lia.
Qed.

End FloatSign.

(** ** The progress computation *)

Section Progress.

Lemma truediv_int_float_nonneg a y f :
  0 <= a -> PyFloat.ltb PyFloat.zero y = true ->
  Num.truediv (NInt a) (NFloat y) = Some f -> PyFloat.nonneg f = true.
Proof.
  intros Ha Hy. simpl.
  destruct (PyFloat.of_int a) as [fa|] eqn:Ea; simpl; [|discriminate].
  unfold PyFloat.div. destruct (PyFloat.is_zero y); [discriminate|].
  intros [= <-]. apply ieee_div_nonneg; eauto using of_int_nonneg.
Qed.

Lemma int_truediv_nonneg a b f :
  0 <= a -> 0 < b -> Num.int_truediv a b = Some f -> PyFloat.nonneg f = true.
Proof.
  intros Ha Hb. unfold Num.int_truediv.
  destruct (Z.eqb_spec b 0) as [|_]; [lia|].
  replace (b <? 0) with false by lia.
  destruct (Z.eqb_spec a 0) as [|Hne]; [intros [= <-]; reflexivity|].
  replace (a <? 0) with false by lia.
  rewrite (Z.abs_eq a), (Z.abs_eq b) by lia.
  destruct a as [|p|p]; try lia. destruct b as [|q|q]; try lia.
  simpl xorb. cbv iota. unfold PyFloat.round_quotient.
  pose proof (ieee_div_finite_nonneg p 0 q 0) as Hd.
  destruct (PyFloat.ieee_div _ _) as [[]|[]| |[] m e];
    try discriminate; intros ?; simplify_eq; reflexivity.
Qed.

Lemma speed_mb_nonneg speed f :
  Num.nonneg speed = true ->
  Num.truediv speed (NInt (1024 * 1024)) = Some f -> PyFloat.nonneg f = true.
Proof.
  destruct speed as [z|s]; cbn [Num.nonneg Num.truediv]; intros Hs.
  - apply int_truediv_nonneg; lia.
  - change (PyFloat.of_int (1024 * 1024))
      with (Some (S754_finite false 4503599627370496 (-32))).
    cbn [mbind option_bind]. unfold PyFloat.div. cbn [PyFloat.is_zero].
    intros [= <-]. apply ieee_div_nonneg_by_finite; auto.
Qed.

Lemma speed_nonneg current elapsed speed :
  0 <= current ->
  (if PyFloat.ltb PyFloat.zero elapsed
   then NFloat <$> Num.truediv (NInt current) (NFloat elapsed)
   else Some (NInt 0)) = Some speed ->
  Num.nonneg speed = true.
Proof.
  intros Hc. destruct (PyFloat.ltb PyFloat.zero elapsed) eqn:Hpos.
  - destruct (Num.truediv _ _) as [f|] eqn:E; [|discriminate].
    intros [= <-]. simpl. eapply truediv_int_float_nonneg; eauto.
  - intros [= <-]. reflexivity.
Qed.

Lemma eta_nonneg remaining speed eta :
  0 <= remaining -> Num.nonneg speed = true ->
  (if Num.gt0 speed
   then NFloat <$> Num.truediv (NInt remaining) speed
   else Some (NInt 0)) = Some eta ->
  Num.nonneg eta = true.
Proof.
  intros Hr Hs. destruct (Num.gt0 speed) eqn:Hpos.
  - destruct (Num.truediv _ _) as [f|] eqn:E; [|discriminate].
    intros [= <-]. simpl. destruct speed as [z|s].
    + simpl in Hpos. eapply int_truediv_nonneg; [exact Hr| |exact E]. lia.
    + eapply truediv_int_float_nonneg; eauto.
  - intros [= <-]. reflexivity.
Qed.

Lemma num_to_int_nonneg x n :
  Num.nonneg x = true -> Num.to_int x = Some n -> 0 <= n.
Proof.
  destruct x as [z|f]; simpl.
  - intros Hz [= <-]. lia.
  - apply to_int_nonneg.
Qed.

End Progress.

(** C5: the progress computation is the stated function of (bytes done,
    bytes total, elapsed seconds): the throughput is bytes done / elapsed
    when elapsed > 0 and 0 otherwise, the remaining-time estimate is
    max(0, total - done) / throughput when the throughput is > 0 and 0
    otherwise; and for bytes done >= 0, bytes total >= 0 and elapsed >= 0 the
    displayed elapsed seconds, remaining seconds and throughput are never
    negative. *)
Theorem progress_never_negative (current total : Z) (elapsed : float)
    (pv : progress_values) :
  0 <= current -> 0 <= total -> PyFloat.leb PyFloat.zero elapsed = true ->
  progress_compute current total elapsed = Some pv ->
  (if PyFloat.ltb PyFloat.zero elapsed
   then NFloat <$> Num.truediv (NInt current) (NFloat elapsed)
   else Some (NInt 0)) = Some (pv_speed pv) /\
  (if Num.gt0 (pv_speed pv)
   then NFloat <$> Num.truediv (NInt (Z.max 0 (total - current))) (pv_speed pv)
   else Some (NInt 0)) = Some (pv_eta pv) /\
  pv_elapsed pv = elapsed /\
  (forall n, PyFloat.to_int (pv_elapsed pv) = Some n -> 0 <= n) /\
  (forall n, Num.to_int (pv_eta pv) = Some n -> 0 <= n) /\
  Num.nonneg (pv_speed pv) = true /\
  Num.nonneg (pv_eta pv) = true /\
  PyFloat.nonneg (pv_speed_mb pv) = true.
Proof.
  intros Hc Ht He. unfold progress_compute.
  destruct (if PyFloat.ltb PyFloat.zero elapsed then _ else _)
    as [speed|] eqn:Es; cbn [mbind option_bind]; [|intros; discriminate].
  destruct (if Num.gt0 speed then _ else _) as [eta|] eqn:Ee;
    cbn [mbind option_bind]; [|intros; discriminate].
  destruct (Num.truediv (NInt current) (NInt _)) as [mbc|];
    cbn [mbind option_bind]; [|intros; discriminate].
  destruct (Num.truediv (NInt total) (NInt _)) as [mbt|];
    cbn [mbind option_bind]; [|intros; discriminate].
  destruct (Num.truediv speed (NInt _)) as [smb|] eqn:Em;
    cbn [mbind option_bind]; [|intros; discriminate].
  intros [= <-]. cbn [pv_speed pv_eta pv_elapsed pv_speed_mb].
  pose proof (speed_nonneg _ _ _ Hc Es) as Hs.
  assert (Num.nonneg eta = true) as Hn
    by (eapply eta_nonneg; [| |exact Ee]; [lia|exact Hs]).
  split; [reflexivity|]. split; [exact Ee|]. split; [reflexivity|].
  split; [intros n; apply to_int_of_leb, He|].
  split; [intros n; apply num_to_int_nonneg, Hn|].
  split; [exact Hs|]. split; [exact Hn|].
  exact (speed_mb_nonneg _ _ Hs Em).
Qed.

Lemma progress_never_negative_witness :
  exists pv,
    progress_compute (4 * 1024 * 1024) (700 * 1024 * 1024)
      (PyFloat.of_decimal 5 (-1)) = Some pv /\
    (forall n, Num.to_int (pv_eta pv) = Some n -> 0 <= n) /\
    PyFloat.nonneg (pv_speed_mb pv) = true.
Proof.
  assert (exists pv,
             progress_compute (4 * 1024 * 1024) (700 * 1024 * 1024)
               (PyFloat.of_decimal 5 (-1)) = Some pv) as [pv Hpv]
    by (vm_compute; eexists; reflexivity).
  exists pv. split; [exact Hpv|].
  pose proof (progress_never_negative (4 * 1024 * 1024) (700 * 1024 * 1024)
                (PyFloat.of_decimal 5 (-1)) pv
                ltac:(lia) ltac:(lia) ltac:(vm_compute; reflexivity) Hpv) as T.
  split; [apply T | apply T].
Defined.

(** What the progress display writes half a second into a 700 MiB copy. *)
Example display_progress_sample :
  _display_progress "ISO Creation" (4 * 1024 * 1024) (700 * 1024 * 1024)
    (PyFloat.of_decimal 1000 0) (PyFloat.of_decimal 10005 (-1))
  = Some (esc +:+ "[4A" +:+
          clear_line +:+ colorize cyan "ISO Creation" +:+ ": 4MB / 700MB" +:+ newline +:+
          clear_line +:+ colorize cyan "Elapsed" +:+ ": 0:00:00" +:+ newline +:+
          clear_line +:+ colorize cyan "Remaining" +:+ ": 0:01:27" +:+ newline +:+
          clear_line +:+ colorize cyan "Avg Speed" +:+ ": 8.00MB/s" +:+ newline).
Proof. vm_compute. reflexivity. Qed.

(** ** Duration formatting *)

(** C8: the boundary cases of [_format_duration]: 0 seconds gives
    "0 seconds"; 59.99 seconds gives 0 minutes and 59.99 seconds; 60 seconds
    gives 1 minute and 0 seconds; 3661 seconds gives 61 minutes and 1 second,
    the minutes not rolling over into hours. *)
Theorem format_duration_boundaries :
  _format_duration PyFloat.zero = Some "0 seconds" /\
  duration_parts (PyFloat.of_decimal 5999 (-2))
    = Some (0, PyFloat.of_decimal 5999 (-2)) /\
  _format_duration (PyFloat.of_decimal 5999 (-2)) = Some "59.99 seconds" /\
  duration_parts (PyFloat.of_decimal 60 0) = Some (1, PyFloat.zero) /\
  _format_duration (PyFloat.of_decimal 60 0) = Some "1 minutes, 0.00 seconds" /\
  duration_parts (PyFloat.of_decimal 3661 0) = Some (61, PyFloat.of_decimal 1 0) /\
  _format_duration (PyFloat.of_decimal 3661 0) = Some "61 minutes, 1.00 seconds".
Proof. vm_compute. repeat split; reflexivity. Qed.

(** ** The copy loop *)

Section CopyLoopFacts.

Context {H : Type} `{Hasher H}.

(** Both hash objects go through the same updates. *)
Lemma copy_loop_hashers_agree disk_size start_time reads (st0 : copy_state H) :
  iso_hasher st0 = raw_hasher st0 ->
  let st := fst (copy_loop disk_size start_time reads st0) in
  iso_hasher st = raw_hasher st.
Proof.
  revert st0. induction reads as [|ev rest IH]; intros st0 Heq; simpl; [exact Heq|].
  destruct ev as [chunk clock| |exn]; simpl; try exact Heq.
  destruct chunk as [|b chunk]; simpl; [exact Heq|].
  destruct (_display_progress _ _ _ _ _) as [text|]; simpl.
  - apply IH. simpl. now rewrite Heq.
  - now rewrite Heq.
Qed.

(** The counter moves with the file, however the loop ends. *)
Lemma copy_loop_counts disk_size start_time reads (st0 : copy_state H) :
  let st := fst (copy_loop disk_size start_time reads st0) in
  bytes_written st - bytes_written st0 =
  Z.of_nat (length (iso_file st)) - Z.of_nat (length (iso_file st0)).
Proof.
  revert st0. induction reads as [|ev rest IH]; intros st0; simpl; [lia|].
  destruct ev as [chunk clock| |exn]; simpl; try lia.
  destruct chunk as [|b chunk]; simpl; [lia|].
  destruct (_display_progress _ _ _ _ _) as [text|]; simpl.
  - specialize (IH (show (copy_chunk st0 (b :: chunk)) text)).
    simpl in IH. rewrite length_app in IH. simpl in IH. lia.
  - rewrite length_app. simpl. lia.
Qed.

(** However the loop ends, it has written and counted some first blocks of
    the stream. *)
Lemma copy_loop_any_exit disk_size start_time reads (st0 : copy_state H) :
  let st := fst (copy_loop disk_size start_time reads st0) in
  exists n,
    iso_file st = iso_file st0 ++ concat (firstn n (blocks_read reads)) /\
    bytes_written st
    = bytes_written st0 + total_length (firstn n (blocks_read reads)).
Proof.
  revert st0. induction reads as [|ev rest IH]; intros st0; simpl.
  - exists 0%nat. simpl. rewrite app_nil_r. split; [reflexivity|lia].
  - destruct ev as [chunk clock| |exn]; simpl;
      try (exists 0%nat; simpl; rewrite app_nil_r; split; [reflexivity|lia]).
    destruct chunk as [|b chunk]; simpl;
      try (exists 0%nat; simpl; rewrite app_nil_r; split; [reflexivity|lia]).
    destruct (_display_progress _ _ _ _ _) as [text|]; simpl.
    + destruct (IH (show (copy_chunk st0 (b :: chunk)) text)) as (n & Hf & Hb).
      exists (S n). simpl in *. rewrite Hf, Hb, <- app_assoc.
      split; [reflexivity|lia].
    + exists 1%nat. simpl. rewrite app_nil_r. split; [reflexivity|lia].
Qed.

(** A loop that ends at the end of the stream has taken every block. *)
Lemma copy_loop_end_of_stream disk_size start_time reads (st0 st : copy_state H) :
  copy_loop disk_size start_time reads st0 = (st, EndOfStream) ->
  iso_file st = iso_file st0 ++ concat (blocks_read reads) /\
  iso_hasher st = fold_left h_update (blocks_read reads) (iso_hasher st0) /\
  raw_hasher st = fold_left h_update (blocks_read reads) (raw_hasher st0) /\
  bytes_written st = bytes_written st0 + total_length (blocks_read reads).
Proof.
  revert st0. induction reads as [|ev rest IH]; intros st0; simpl.
  - intros [= <-]. rewrite app_nil_r. repeat split; lia.
  - destruct ev as [chunk clock| |exn]; simpl; try discriminate.
    destruct chunk as [|b chunk]; simpl.
    + intros [= <-]. rewrite app_nil_r. repeat split; lia.
    + destruct (_display_progress _ _ _ _ _) as [text|]; [|discriminate].
      intros Hloop. destruct (IH _ Hloop) as (Hf & Hi & Hr & Hb).
      simpl in Hf, Hi, Hr, Hb. rewrite Hf, Hi, Hr, Hb.
      rewrite <- app_assoc. simpl. repeat split; lia.
Qed.

End CopyLoopFacts.

(** An MD5 object of the loop has been fed exactly what the file holds. *)
Lemma md5_fed_is_file disk_size start_time reads (st0 : copy_state MD5.md5) :
  MD5.fed (iso_hasher st0) = iso_file st0 ->
  let st := fst (copy_loop disk_size start_time reads st0) in
  MD5.fed (iso_hasher st) = iso_file st.
Proof.
  revert st0. induction reads as [|ev rest IH]; intros st0 Heq; simpl; [exact Heq|].
  destruct ev as [chunk clock| |exn]; simpl; try exact Heq.
  destruct chunk as [|b chunk]; simpl; [exact Heq|].
  destruct (_display_progress _ _ _ _ _) as [text|]; simpl.
  - apply IH. simpl. now rewrite Heq.
  - now rewrite Heq.
Qed.

(** C1: in every run of the copy loop the ISO-file MD5 and the raw-disk MD5
    are updated with the identical byte sequence, so the two hexadecimal
    digests are equal; whenever [_create_and_verify_iso] returns, its two
    digests are equal. *)
Theorem digests_always_equal (disk_size : Z) (start_time : float)
    (reads : list read_event) :
  let st := fst (copy_loop (H := MD5.md5) disk_size start_time reads copy_start) in
  (MD5.fed (iso_hasher st) = MD5.fed (raw_hasher st) /\
   MD5.fed (iso_hasher st) = iso_file st /\
   h_hexdigest (iso_hasher st) = h_hexdigest (raw_hasher st)) /\
  (forall c dd w creation_time iso_hash raw_hash w',
     _create_and_verify_iso c disk_size dd w
       = (Returned (creation_time, iso_hash, raw_hash), w') ->
     iso_hash = raw_hash).
Proof.
  split.
  - pose proof (copy_loop_hashers_agree disk_size start_time reads copy_start eq_refl) as Hh.
    pose proof (md5_fed_is_file disk_size start_time reads copy_start eq_refl) as Hf.
    simpl in Hh, Hf. rewrite <- Hh. auto.
  - intros c dd w t a b w'. unfold _create_and_verify_iso.
    pose proof (copy_loop_hashers_agree (H := MD5.md5) disk_size (dd_start_clock dd)
                  (dd_reads dd) copy_start eq_refl) as Hh.
    destruct (copy_loop _ _ _ _) as [st how]. simpl in Hh.
    destruct how; try discriminate.
    destruct (negb _); [discriminate|].
    intros [= _ <- <- _]. now rewrite Hh.
Qed.

(** The two digests of the sample disc, whose content is [abcde]. *)
Example sample_digests :
  fst (_create_and_verify_iso sample_config 5 sample_dd empty_world)
  = Returned (PyFloat.of_decimal 15 (-1),
              "ab56b4d92b40713acc5af89985d4b786",
              "ab56b4d92b40713acc5af89985d4b786").
Proof. vm_compute. reflexivity. Qed.

(** An empty source: nothing written, the digest of the empty sequence. *)
Example empty_source_digest :
  let st := fst (copy_loop (H := MD5.md5) 0 PyFloat.zero [] copy_start) in
  bytes_written st = 0 /\
  h_hexdigest (iso_hasher st) = "d41d8cd98f00b204e9800998ecf8427e".
Proof. vm_compute. split; reflexivity. Qed.

(** C4: at every exit of the loop [bytes_written] is the sum of the lengths
    of the blocks read and written so far, which is the length of the file;
    when the loop ends at the end of the stream these are all the blocks the
    source delivered, and when they add up to the declared total size,
    [bytes_written] is that size. *)
Theorem bytes_written_is_total_read {H : Type} `{Hasher H} (disk_size : Z)
    (start_time : float) (reads : list read_event) :
  let run := copy_loop disk_size start_time reads copy_start in
  let st := fst run in
  (exists n,
     iso_file st = concat (firstn n (blocks_read reads)) /\
     bytes_written st = total_length (firstn n (blocks_read reads))) /\
  bytes_written st = Z.of_nat (length (iso_file st)) /\
  (snd run = EndOfStream ->
   iso_file st = concat (blocks_read reads) /\
   bytes_written st = total_length (blocks_read reads) /\
   (total_length (blocks_read reads) = disk_size -> bytes_written st = disk_size)).
Proof.
  intros run st. split; [|split].
  - destruct (copy_loop_any_exit disk_size start_time reads copy_start)
      as (n & Hf & Hb).
    exists n. split; [exact Hf|]. fold run st in Hb. simpl in Hb. lia.
  - pose proof (copy_loop_counts disk_size start_time reads copy_start) as Hc.
    fold run st in Hc. simpl in Hc. lia.
  - intros Hend. subst st.
    destruct run as [st how] eqn:Hloop. cbn [fst snd] in *. subst how.
    destruct (copy_loop_end_of_stream _ _ _ _ _ Hloop) as (Hf & _ & _ & Hb).
    simpl in Hf, Hb. repeat split; try lia; auto.
Qed.

Lemma bytes_written_is_total_read_witness :
  snd (copy_loop (H := MD5.md5) 5 (PyFloat.of_decimal 1000 0)
         sample_reads copy_start) = EndOfStream /\
  total_length (blocks_read sample_reads) = 5 /\
  bytes_written (fst (copy_loop (H := MD5.md5) 5 (PyFloat.of_decimal 1000 0)
                        sample_reads copy_start)) = 5.
Proof.
  assert (snd (copy_loop (H := MD5.md5) 5 (PyFloat.of_decimal 1000 0)
                 sample_reads copy_start) = EndOfStream) as Hend
    by (vm_compute; reflexivity).
  assert (total_length (blocks_read sample_reads) = 5) as Hsum
    by (vm_compute; reflexivity).
  split; [exact Hend|]. split; [exact Hsum|].
  exact (proj2 (proj2 (proj2 (proj2
    (bytes_written_is_total_read 5 (PyFloat.of_decimal 1000 0) sample_reads))
    Hend)) Hsum).
Defined.

(** ** Exit status *)

Lemma checksum_mismatch_iff r :
  checksum_match r = Some false <->
  exists a b, md5_iso r = Some a /\ md5_raw r = Some b /\
              a <> "" /\ b <> "" /\ a <> b.
Proof.
  unfold checksum_match. split.
  - destruct (md5_iso r) as [a|]; [|intros; discriminate].
    destruct (md5_raw r) as [b|]; [|intros; discriminate].
    destruct a as [|ca a]; [intros; discriminate|].
    destruct b as [|cb b]; [intros; discriminate|]. cbn [PyStr.truthy andb].
    destruct (String.eqb_spec (String ca a) (String cb b)); [intros; discriminate|].
    intros _. exists (String ca a), (String cb b). repeat split; congruence.
  - intros (a & b & -> & -> & Ha & Hb & Hab).
    destruct a as [|ca a]; [congruence|]. destruct b as [|cb b]; [congruence|].
    cbn [PyStr.truthy andb].
    destruct (String.eqb_spec (String ca a) (String cb b)); congruence.
Qed.

Lemma exit_status_cases r :
  (exit_status r = 0 <-> success r = true /\ checksum_match r <> Some false) /\
  (exit_status r = 2 <-> success r = true /\ checksum_match r = Some false) /\
  (exit_status r = 1 <-> success r = false).
Proof.
  unfold exit_status.
  destruct (success r); destruct (checksum_match r) as [[]|];
    repeat split; intros; try lia; try congruence; try tauto;
    try (destruct H; congruence).
Qed.

(** The exit code of [main] read off the way [create_backup] ends. *)
Lemma main_exit_code c e w :
  fst (main c e w) =
  match fst (create_backup c e w) with
  | Returned r => exit_status r
  | Exited code => code
  | Raised _ => 1
  end.
Proof. unfold main. destruct (create_backup c e w) as [[r|code|exn] w']; reflexivity. Qed.

Lemma sample_run :
  create_backup sample_config sample_env empty_world
  = (Returned sample_result, sample_world).
Proof. vm_compute. reflexivity. Qed.

(** C2: the exit status chosen from a result is 0 when the result is
    successful and the checksums are not a definite mismatch, 2 when the
    result is successful and [checksum_match] is false, which is when both
    digests are present, not empty and different, and 1 when the success
    flag is false, as it is in every failure result (not root, no disk
    info, overwrite declined); and [main] ends with the status of the
    result whenever [create_backup] returns one. *)
Theorem exit_status_contract r :
  (exit_status r = 0 <-> success r = true /\ checksum_match r <> Some false) /\
  (exit_status r = 2 <-> success r = true /\ checksum_match r = Some false) /\
  (exit_status r = 1 <-> success r = false) /\
  (checksum_match r = Some false <->
   exists a b, md5_iso r = Some a /\ md5_raw r = Some b /\
               a <> "" /\ b <> "" /\ a <> b) /\
  (forall c e w w', create_backup c e w = (Returned r, w') ->
     main c e w = (exit_status r, w')) /\
  (forall c size msg, exit_status (failure c size msg) = 1).
Proof.
  pose proof (exit_status_cases r) as (H0 & H2 & H1).
  split; [exact H0|]. split; [exact H2|]. split; [exact H1|].
  split; [apply checksum_mismatch_iff|]. split; [|reflexivity].
  intros c e w w' Hrun. unfold main. rewrite Hrun. reflexivity.
Qed.

(** The three exit codes on three results. *)
Example exit_status_samples :
  exit_status sample_result = 0 /\
  exit_status {| success := true; iso_path := "x.iso"; disk_size := 1;
                 md5_iso := Some "d41d8cd98f00b204e9800998ecf8427e";
                 md5_raw := Some "900150983cd24fb0d6963f7d28e17f72";
                 creation_time := PyFloat.zero; verification_time := PyFloat.zero;
                 error_message := None |} = 2 /\
  exit_status (failure sample_config 0 "Not running as root") = 1.
Proof. vm_compute. repeat split; reflexivity. Qed.

(** ** Runs of [create_backup] *)

Ltac run_unfold :=
  unfold or_raise in *;
  unfold mbind, Run_bind, mret, Run_ret, modify, inspect, sys_exit, raise in *.

(** *** Steps that leave the file system alone *)

Lemma run_cmd_world {A} (r : cmd_result A) w o w' : run_cmd r w = (o, w') -> w' = w.
Proof. destruct r; run_unfold; simpl; intros [= _ <-]; reflexivity. Qed.

Lemma log_metadata_world e w o w' : _log_metadata e w = (o, w') -> w' = w.
Proof.
  unfold _log_metadata. run_unfold.
  destruct (run_cmd (metadata_info e) w) as [[?|?|?] w1] eqn:E;
    apply run_cmd_world in E; subst; intros [= _ <-]; reflexivity.
Qed.

Lemma confirm_overwrite_world e w o w' : _confirm_overwrite e w = (o, w') -> w' = w.
Proof.
  unfold _confirm_overwrite, get_input. destruct (overwrite_answer e);
    run_unfold; simpl; intros [= _ <-]; reflexivity.
Qed.

Lemma unmount_disk_world e w o w' : _unmount_disk e w = (o, w') -> w' = w.
Proof.
  unfold _unmount_disk. destruct (unmount_run e); run_unfold;
    intros [= _ <-]; reflexivity.
Qed.

Lemma finalize_disk_world c e w o w' : _finalize_disk c e w = (o, w') -> w' = w.
Proof.
  unfold _finalize_disk. destruct (finalize_run e); try destruct (dry_run c);
    run_unfold; intros [= _ <-]; reflexivity.
Qed.

Lemma generate_summary_world c r w o w' : _generate_summary c r w = (o, w') -> w' = w.
Proof.
  unfold _generate_summary. destruct (negb (dry_run c)); run_unfold.
  - destruct (summary_lines r); simpl; intros [= _ <-]; reflexivity.
  - intros [= _ <-]; reflexivity.
Qed.

(** *** What a successful run went through *)

Lemma create_backup_success_inv c e w r w' :
  create_backup c e w = (Returned r, w') -> success r = true ->
  exists disk_info creation_time md5a md5b analysis w0 w1 m,
    disk_info_plist e = CmdOk disk_info /\
    r = {| success := true; iso_path := output_path c;
           disk_size := total_size disk_info;
           md5_iso := Some md5a; md5_raw := Some md5b;
           creation_time := creation_time; verification_time := PyFloat.zero;
           error_message := None |} /\
    w0 = write_file (tree_path c)
           (encode_text (match tree_run e with Some out => out | None => "" end))
           (make_dir (output_dir c) w) /\
    (if dry_run c
     then creation_time = PyFloat.zero /\ md5a = "dry_run_hash" /\
          md5b = "dry_run_hash" /\ analysis = dry_run_record /\
          w1 = write_file (log_path c) (encode_text (formatted_log e)) w0
     else exists wb wc,
          _create_and_verify_iso c (total_size disk_info) (dd e) w0
            = (Returned (creation_time, md5a, md5b), wb) /\
          _analyze_iso_structure c e wb = (Returned analysis, wc) /\
          w1 = write_file (log_path c) (encode_text (formatted_log e)) wc) /\
    manifest c (m_env e) w1 r disk_info analysis = Some m /\
    w' = write_file (manifest_path c) (encode_text (Json.dumps m)) w1.
Proof.
  unfold create_backup.
  destruct (negb (euid e =? 0)).
  { run_unfold. intros [= <- <-]. discriminate. }
  unfold _get_disk_info, run_cmd.
  destruct (disk_info_plist e) as [di|msg|msg] eqn:Hdi; run_unfold;
    try (intros [= <- <-]; discriminate); try discriminate.
  destruct di as [|kv di]; [intros [= <- <-]; discriminate|].
  set (disk_info := kv :: di) in *. clearbody disk_info.
  destruct (_log_metadata e w) as [[[]|?|?] wm] eqn:Emeta; try discriminate.
  apply log_metadata_world in Emeta. subst wm. cbv beta iota.
  destruct ((if path_exists (output_path c) w then _confirm_overwrite e
             else fun w => (Returned true, w)) w) as [[ov|?|?] wo] eqn:Eov;
    try discriminate.
  assert (wo = w) as ->.
  { destruct (path_exists (output_path c) w).
    - eapply confirm_overwrite_world, Eov.
    - now injection Eov as _ <-. }
  cbv beta iota. destruct (negb ov); [intros [= <- <-]; discriminate|].
  cbv beta iota. unfold _generate_tree_listing at 1. run_unfold. cbv beta iota.
  set (w0 := write_file (tree_path c) _ _).
  destruct ((if negb (dry_run c) then _unmount_disk e
             else fun w => (Returned true, w)) w0) as [[um|?|?] wu] eqn:Eum;
    try discriminate.
  assert (wu = w0) as ->.
  { destruct (negb (dry_run c)).
    - eapply unmount_disk_world, Eum.
    - now injection Eum as _ <-. }
  cbv beta iota.
  match goal with
  | |- context [match ?m with pair _ _ => _ end] =>
      destruct m as [[[[[ct ma] mb] an]|?|?] wc] eqn:Eacq; try discriminate
  end.
  cbv beta iota.
  destruct (_finalize_disk c e wc) as [[[]|?|?] wf] eqn:Efin; try discriminate.
  apply finalize_disk_world in Efin. subst wf. cbv beta iota.
  match goal with
  | |- context [_generate_summary c ?r wc] =>
      set (res := r);
      destruct (_generate_summary c res wc) as [[[]|?|?] ws] eqn:Esum;
      try discriminate
  end.
  apply generate_summary_world in Esum. subst ws. cbv beta iota.
  unfold create_formatted_log, _create_manifest. run_unfold. cbv beta iota.
  set (w1 := write_file (log_path c) _ wc).
  destruct (manifest c (m_env e) w1 res disk_info an) as [m|] eqn:Hm;
    cbv beta iota; [|discriminate].
  intros [= <- <-] _.
  exists disk_info, ct, ma, mb, an, w0, w1, m.
  split; [reflexivity|]. split; [reflexivity|]. split; [reflexivity|].
  split; [|split; [exact Hm|reflexivity]].
  destruct (dry_run c).
  - cbv beta iota in Eacq. injection Eacq as <- <- <- <- <-. auto.
  - cbv beta iota in Eacq.
    destruct (_create_and_verify_iso c (total_size disk_info) (dd e) w0)
      as [[[[ct' ma'] mb']|?|?] wb] eqn:Hcopy; try discriminate.
    cbv beta iota in Eacq.
    destruct (_analyze_iso_structure c e wb) as [[an'|?|?] wc'] eqn:Han;
      try discriminate.
    injection Eacq as <- <- <- <- <-. eauto.
Qed.

(** A returned success carries two equal digests, so its exit code is 0. *)
Lemma success_digests_equal c e w r w' :
  create_backup c e w = (Returned r, w') -> success r = true ->
  exists h, md5_iso r = Some h /\ md5_raw r = Some h.
Proof.
  intros Hrun Hok.
  destruct (create_backup_success_inv _ _ _ _ _ Hrun Hok)
    as (di & ct & ma & mb & an & w0 & w1 & m & _ & -> & _ & Hacq & _).
  cbn [md5_iso md5_raw].
  destruct (dry_run c).
  - destruct Hacq as (_ & -> & -> & _). eauto.
  - destruct Hacq as (wb & wc & Hcopy & _).
    unfold _create_and_verify_iso in Hcopy.
    pose proof (copy_loop_hashers_agree (H := MD5.md5) (total_size di)
                  (dd_start_clock (dd e)) (dd_reads (dd e)) copy_start eq_refl) as Hh.
    destruct (copy_loop _ _ _ _) as [st how]. simpl in Hh.
    destruct how; try discriminate.
    destruct (negb _); [discriminate|].
    injection Hcopy as _ <- <- _. rewrite Hh. eauto.
Qed.


(** *** The output paths are distinct *)

Lemma app_cons c s t : String c s +:+ t = String c (s +:+ t).
Proof. reflexivity. Qed.
Lemma app_empty t : "" +:+ t = t.
Proof. reflexivity. Qed.
Lemma str_app_assoc a b c : (a +:+ b) +:+ c = a +:+ (b +:+ c).
Proof. induction a as [|ch a IH]; [reflexivity|]. rewrite !app_cons. now rewrite IH. Qed.

Lemma append_inj_r s a b : s +:+ a = s +:+ b -> a = b.
Proof. induction s as [|ch s IH]; simpl; [auto|]. intros [= E]. auto. Qed.

Lemma components_not_nil s : components s <> [].
Proof.
  destruct s as [|c s]; [discriminate|]. cbn [components].
  destruct (is_slash c); [discriminate|]. destruct (components s); discriminate.
Qed.

(** A suffix without slash goes to the last component. *)
Lemma components_suffix f s :
  no_slash s = true ->
  exists init t, components f = init ++ [t] /\
                 components (f +:+ s) = init ++ [t +:+ s].
Proof.
  intros Hs. induction f as [|c f (init & t & Hf & Hfs)].
  - exists [], "". split; [reflexivity|]. rewrite app_empty. cbn [app].
    clear -Hs. induction s as [|c s IH]; [reflexivity|].
    cbn [no_slash] in Hs. apply andb_true_iff in Hs as [Hc Hs].
    cbn [components]. apply negb_true_iff in Hc. rewrite Hc, (IH Hs). reflexivity.
  - rewrite app_cons. cbn [components]. destruct (is_slash c).
    + exists ("" :: init), t. rewrite Hf, Hfs. split; reflexivity.
    + rewrite Hf, Hfs. destruct init as [|x init].
      * exists [], (String c t). split; reflexivity.
      * exists (String c x :: init), t. split; reflexivity.
Qed.

Lemma path_root_suffix f s :
  no_slash s = true -> s <> "" -> path_root (f +:+ s) = path_root f.
Proof.
  intros Hs Hne. destruct s as [|x s]; [contradiction|].
  cbn [no_slash] in Hs. apply andb_true_iff in Hs as [Hx%negb_true_iff Hs].
  destruct f as [|a [|b [|c f]]]; rewrite ?app_cons, ?app_empty.
  - cbn [path_root]. destruct s as [|y [|z s]]; now rewrite Hx.
  - cbn [path_root]. destruct s as [|y s]; rewrite ?Hx; destruct (is_slash a); reflexivity.
  - cbn [path_root]. rewrite Hx. destruct (is_slash a), (is_slash b); reflexivity.
  - reflexivity.
Qed.

Lemma keep_long s : (2 <= String.length s)%nat -> keep_part s = true.
Proof. destruct s as [|a [|b s]]; simpl; try lia. intros _. unfold keep_part.
  cbn. now destruct (Ascii.eqb a "."). Qed.

Lemma length_app_r t s : (String.length s <= String.length (t +:+ s))%nat.
Proof. induction t as [|c t IH]; [rewrite app_empty; lia|]. rewrite app_cons. simpl. lia. Qed.

Lemma join_last parts x : PyStr.join "/" (parts ++ [x]) = join_before parts +:+ x.
Proof.
  induction parts as [|y parts IH]; [reflexivity|].
  cbn [app join_before]. rewrite !str_app_assoc, <- IH.
  destruct (parts ++ [x]) as [|z l] eqn:E.
  - destruct parts; discriminate.
  - reflexivity.
Qed.

Lemma path_str_last root parts x :
  path_str root (parts ++ [x]) = (root +:+ join_before parts) +:+ x.
Proof.
  unfold path_str. rewrite join_last, str_app_assoc.
  destruct root; [|reflexivity]. destruct parts; reflexivity.
Qed.

(** The path of a file name that ends with a suffix is a text that depends
    on the directory and the stem only, followed by the suffix. *)
Lemma path_join_stem dir f :
  exists stem, forall s,
    no_slash s = true -> (2 <= String.length s)%nat ->
    path_join dir (f +:+ s) = stem +:+ s.
Proof.
  destruct (components_suffix f "" eq_refl) as (init & t & Hf & _).
  exists (match path_root f with
          | EmptyString =>
              (path_root dir +:+ join_before (path_parts dir ++ List.filter keep_part init))
          | root => root +:+ join_before (List.filter keep_part init)
          end +:+ t).
  intros s Hs Hlen.
  destruct (components_suffix f s Hs) as (init' & t' & Hf' & Hfs).
  rewrite Hf in Hf'. apply app_inj_tail in Hf' as [<- <-].
  assert (s <> "") as Hne by (destruct s; [simpl in Hlen; lia|discriminate]).
  unfold path_join, path_parts. rewrite (path_root_suffix f s Hs Hne), Hfs.
  rewrite List.filter_app. cbn [List.filter].
  rewrite keep_long by (pose proof (length_app_r t s); lia).
  destruct (path_root f).
  - rewrite app_assoc, path_str_last, !str_app_assoc. reflexivity.
  - rewrite path_str_last, !str_app_assoc. reflexivity.
Qed.

(** Two file names made of the same stem and different suffixes give
    different paths in the same directory. *)
Lemma path_join_suffix dir f s1 s2 :
  no_slash s1 = true -> no_slash s2 = true ->
  (2 <= String.length s1)%nat -> (2 <= String.length s2)%nat -> s1 <> s2 ->
  path_join dir (f +:+ s1) <> path_join dir (f +:+ s2).
Proof.
  intros H1 H2 N1 N2 Hne Heq. apply Hne.
  destruct (path_join_stem dir f) as (stem & Hstem).
  rewrite (Hstem s1 H1 N1), (Hstem s2 H2 N2) in Heq.
  eapply append_inj_r, Heq.
Qed.

Ltac distinct_paths :=
  apply path_join_suffix; first [reflexivity | simpl; lia | discriminate].

Lemma output_path_not_tree c : tree_path c <> output_path c.
Proof. distinct_paths. Qed.
Lemma output_path_not_log c : log_path c <> output_path c.
Proof. distinct_paths. Qed.
Lemma output_path_not_manifest c : manifest_path c <> output_path c.
Proof. distinct_paths. Qed.
Lemma tree_path_not_manifest c : manifest_path c <> tree_path c.
Proof. distinct_paths. Qed.

(** ** The manifest *)

(** The four parts of the manifest that can raise decide whether it is
    built; the other eight are always there. *)
Lemma manifest_parts c me w r d a :
  manifest c me w r d a =
  match volume_information c r d, output_files c w r,
        timing_performance r, structural_analysis a with
  | Some volume, Some outputs, Some timing, Some structure =>
      Some (PDict [
        ("backup_metadata", backup_metadata c me);
        ("backup_status", backup_status c w r);
        ("source_disc", source_disc c d);
        ("volume_information", volume);
        ("output_files", outputs);
        ("operations_performed", operations_performed c w r);
        ("timing_performance", timing);
        ("integrity_verification", integrity_verification r);
        ("structural_analysis", structure);
        ("system_environment", system_environment me);
        ("technical_details", technical_details c r d);
        ("quality_assurance", quality_assurance r a)])
  | _, _, _, _ => None
  end.
Proof.
  unfold manifest.
  destruct (volume_information c r d); [|reflexivity].
  destruct (output_files c w r); [|reflexivity].
  destruct (timing_performance r); [|reflexivity].
  destruct (structural_analysis a); reflexivity.
Qed.

Ltac manifest_cases c w r d a :=
  destruct (volume_information c r d); [|try discriminate; try exact I];
  destruct (output_files c w r); [|try discriminate; try exact I];
  destruct (timing_performance r); [|try discriminate; try exact I];
  destruct (structural_analysis a); [|try discriminate; try exact I].

(** The builder reads two files only: the tree listing and the image. *)
Lemma manifest_reads c me w1 w2 r d a :
  files w1 !! tree_path c = files w2 !! tree_path c ->
  files w1 !! iso_path r = files w2 !! iso_path r ->
  manifest c me w1 r d a = manifest c me w2 r d a.
Proof.
  intros Ht Hi. rewrite !manifest_parts.
  unfold output_files, backup_status, operations_performed,
    iso_file_size_of, _extract_tree_summary.
  now rewrite Ht, Hi.
Qed.



(** Two calls of the builder differ in the run id, the uuid and the
    timestamp at most. *)
Lemma manifest_two_calls c me1 me2 w r d a :
  platform me1 = platform me2 ->
  match manifest c me1 w r d a, manifest c me2 w r d a with
  | Some m1, Some m2 => without_run_identity m1 = without_run_identity m2
  | None, None => True
  | _, _ => False
  end.
Proof.
  intros Hp. rewrite !manifest_parts.
  manifest_cases c w r d a.
  unfold system_environment. rewrite Hp. reflexivity.
Qed.

(** Two configurations that differ in [no_verification] give manifests that
    differ in the two verification flags at most. *)
Lemma manifest_two_flags c b1 b2 me w r d a :
  match manifest (with_no_verification b1 c) me w r d a,
        manifest (with_no_verification b2 c) me w r d a with
  | Some m1, Some m2 =>
      verification_flags m1
        = (Some (PBool (negb b1 && negb (dry_run c))),
           Some (PBool (negb b1 && negb (dry_run c)))) /\
      verification_flags m2
        = (Some (PBool (negb b2 && negb (dry_run c))),
           Some (PBool (negb b2 && negb (dry_run c)))) /\
      without_verification_flags m1 = without_verification_flags m2
  | None, None => True
  | _, _ => False
  end.
Proof.
  rewrite !manifest_parts.
  change (volume_information (with_no_verification b1 c) r d)
    with (volume_information c r d).
  change (volume_information (with_no_verification b2 c) r d)
    with (volume_information c r d).
  change (output_files (with_no_verification b1 c) w r) with (output_files c w r).
  change (output_files (with_no_verification b2 c) w r) with (output_files c w r).
  manifest_cases c w r d a.
  repeat split; reflexivity.
Qed.

(** ** Runs that reach their end *)




(** ** Dry runs *)




(** ** An absent validator *)





(** ** A declined overwrite *)

(** C7 (amended): if the ISO file exists and the operator's answer,
    stripped and lower-cased, is not "y", the run aborts before any copying
    with the failure result "Aborted to avoid overwrite", the exit status is
    1, and the file system is left as it was. *)
Theorem overwrite_declined c e w di line :
  euid e = 0 ->
  disk_info_plist e = CmdOk di -> di <> [] ->
  (exists out, metadata_info e = CmdOk out) ->
  path_exists (output_path c) w = true ->
  overwrite_answer e = Typed line ->
  String.eqb (PyStr.lower (PyStr.strip line)) "y" = false ->
  create_backup c e w
    = (Returned (failure c (total_size di) "Aborted to avoid overwrite"), w) /\
  main c e w = (1, w).
Proof.
  intros Hroot Hdi Hne [out Hmeta] Hex Hans Hno.
  assert (create_backup c e w
          = (Returned (failure c (total_size di) "Aborted to avoid overwrite"), w))
    as Hrun.
  { unfold create_backup. rewrite Hroot. change (negb (0 =? 0)) with false.
    unfold _get_disk_info, _log_metadata, _confirm_overwrite, get_input, run_cmd.
    rewrite Hdi, Hmeta, Hans. run_unfold.
    destruct di as [|kv di]; [congruence|]. cbv beta iota.
    rewrite Hex. cbv beta iota. rewrite Hno. reflexivity. }
  split; [exact Hrun|]. unfold main. rewrite Hrun. reflexivity.
Qed.

Lemma overwrite_declined_witness :
  path_exists (output_path sample_config) world_with_iso = true /\
  overwrite_answer sample_env = Typed "n" /\
  main sample_config sample_env world_with_iso = (1, world_with_iso).
Proof.
  split; [vm_compute; reflexivity|]. split; [reflexivity|].
  refine (proj2 (overwrite_declined sample_config sample_env world_with_iso
                   sample_disk_info "n" eq_refl eq_refl _ _ _ eq_refl eq_refl)).
  - discriminate.
  - eexists. reflexivity.
  - vm_compute. reflexivity.
Defined.

(** C7 as stated fails: the answer "Y" is a response other than "y", yet the
    run goes on, replaces the existing ISO file and exits with status 0. *)
Lemma capital_y_overwrites :
  path_exists (output_path sample_config) world_with_iso = true /\
  overwrite_answer env_capital_y = Typed "Y" /\
  String.eqb "Y" "y" = false /\
  fst (main sample_config env_capital_y world_with_iso) = 0 /\
  files world_with_iso !! output_path sample_config = Some ["o"; "l"; "d"]%byte /\
  files (snd (main sample_config env_capital_y world_with_iso))
    !! output_path sample_config = Some ["a"; "b"; "c"; "d"; "e"]%byte.
Proof. vm_compute. repeat split; reflexivity. Qed.

(** ** The no-verification flag *)

Lemma same_but_flags_refl c f1 f2 x : same_but_flags c f1 f2 x x.
Proof. unfold same_but_flags. auto. Qed.

Lemma create_manifest_two_flags c b1 b2 me r d a w :
  same_but_flags c (negb b1 && negb (dry_run c)) (negb b2 && negb (dry_run c))
    (let '(o, w') := _create_manifest (with_no_verification b1 c) me r d a w in
     match o with
     | Returned _ => (Returned r, w')
     | Exited code => (Exited code, w')
     | Raised exn => (Raised exn, w')
     end)
    (let '(o, w') := _create_manifest (with_no_verification b2 c) me r d a w in
     match o with
     | Returned _ => (Returned r, w')
     | Exited code => (Exited code, w')
     | Raised exn => (Raised exn, w')
     end).
Proof.
  unfold _create_manifest. run_unfold. cbv beta iota.
  pose proof (manifest_two_flags c b1 b2 me w r d a) as Hm.
  destruct (manifest (with_no_verification b1 c) me w r d a) as [m1|];
    destruct (manifest (with_no_verification b2 c) me w r d a) as [m2|];
    try contradiction; cbv beta iota; [|apply same_but_flags_refl].
  change (manifest_path (with_no_verification b1 c)) with (manifest_path c).
  change (manifest_path (with_no_verification b2 c)) with (manifest_path c).
  unfold same_but_flags. cbn [fst snd files dirs write_file].
  split; [reflexivity|]. split; [reflexivity|]. split.
  - intros p Hp. now rewrite !lookup_insert_ne by congruence.
  - right. exists m1, m2. rewrite !lookup_insert_eq. tauto.
Qed.

(** Every step of [create_backup] but the manifest reads the same of both
    configurations. *)
Lemma create_backup_two_flags c b1 b2 e w :
  same_but_flags c (negb b1 && negb (dry_run c)) (negb b2 && negb (dry_run c))
    (create_backup (with_no_verification b1 c) e w)
    (create_backup (with_no_verification b2 c) e w).
Proof.
  unfold create_backup.
  destruct (negb (euid e =? 0)); [apply same_but_flags_refl|].
  run_unfold.
  destruct (_get_disk_info e w) as [[di|?|?] wd]; cbv beta iota;
    try apply same_but_flags_refl.
  destruct di as [|kv di]; [apply same_but_flags_refl|].
  set (disk_info := kv :: di). clearbody disk_info.
  destruct (_log_metadata e wd) as [[[]|?|?] wm]; cbv beta iota;
    try apply same_but_flags_refl.
  change (output_path (with_no_verification b1 c)) with (output_path c).
  change (output_path (with_no_verification b2 c)) with (output_path c).
  destruct ((if path_exists (output_path c) wm then _confirm_overwrite e
             else fun w => (Returned true, w)) wm) as [[ov|?|?] wo];
    cbv beta iota; try apply same_but_flags_refl.
  destruct (negb ov); [apply same_but_flags_refl|]. cbv beta iota.
  change (output_dir (with_no_verification b1 c)) with (output_dir c).
  change (output_dir (with_no_verification b2 c)) with (output_dir c).
  change (_generate_tree_listing (with_no_verification b1 c) e)
    with (_generate_tree_listing c e).
  change (_generate_tree_listing (with_no_verification b2 c) e)
    with (_generate_tree_listing c e).
  destruct (_generate_tree_listing c e (make_dir (output_dir c) wo))
    as [[[]|?|?] wt]; cbv beta iota; try apply same_but_flags_refl.
  change (dry_run (with_no_verification b1 c)) with (dry_run c).
  change (dry_run (with_no_verification b2 c)) with (dry_run c).
  destruct ((if negb (dry_run c) then _unmount_disk e
             else fun w => (Returned true, w)) wt) as [[um|?|?] wu];
    cbv beta iota; try apply same_but_flags_refl.
  change (_create_and_verify_iso (with_no_verification b1 c))
    with (_create_and_verify_iso c).
  change (_create_and_verify_iso (with_no_verification b2 c))
    with (_create_and_verify_iso c).
  change (_analyze_iso_structure (with_no_verification b1 c) e)
    with (_analyze_iso_structure c e).
  change (_analyze_iso_structure (with_no_verification b2 c) e)
    with (_analyze_iso_structure c e).
  match goal with
  | |- context [match ?m with pair _ _ => _ end] =>
      destruct m as [[[[[ct ma] mb] an]|?|?] wc]; cbv beta iota;
      try apply same_but_flags_refl
  end.
  change (_finalize_disk (with_no_verification b1 c) e) with (_finalize_disk c e).
  change (_finalize_disk (with_no_verification b2 c) e) with (_finalize_disk c e).
  destruct (_finalize_disk c e wc) as [[[]|?|?] wf]; cbv beta iota;
    try apply same_but_flags_refl.
  change (_generate_summary (with_no_verification b1 c)) with (_generate_summary c).
  change (_generate_summary (with_no_verification b2 c)) with (_generate_summary c).
  match goal with
  | |- context [_generate_summary c ?r wf] =>
      set (res := r);
      destruct (_generate_summary c res wf) as [[[]|?|?] ws]; cbv beta iota;
      try apply same_but_flags_refl
  end.
  change (create_formatted_log (with_no_verification b1 c) e)
    with (create_formatted_log c e).
  change (create_formatted_log (with_no_verification b2 c) e)
    with (create_formatted_log c e).
  destruct (create_formatted_log c e ws) as [[[]|?|?] wl]; cbv beta iota;
    try apply same_but_flags_refl.
  apply create_manifest_two_flags.
Qed.

(** C9: for a run that is not a dry run, the no-verification flag changes
    nothing of the copy, the hashing, the comparison or the exit status: two
    runs that differ in the flag only end the same way, with the same result
    and digests and the same exit status, and leave the same files, except
    that the two manifests differ in the two fields that say whether
    verification was performed (false with the flag, true without); a
    successful result still carries both digests, and a mismatch would still
    give exit status 2. *)
Theorem no_verification_only_changes_flags c e w :
  dry_run c = false ->
  let skipping := create_backup (with_no_verification true c) e w in
  let verifying := create_backup (with_no_verification false c) e w in
  same_but_flags c false true skipping verifying /\
  fst skipping = fst verifying /\
  fst (main (with_no_verification true c) e w)
    = fst (main (with_no_verification false c) e w) /\
  (forall r, fst skipping = Returned r -> success r = true ->
     exists h, md5_iso r = Some h /\ md5_raw r = Some h) /\
  (forall r, success r = true -> checksum_match r = Some false ->
     exit_status r = 2).
Proof.
  intros Hreal skipping verifying.
  pose proof (create_backup_two_flags c true false e w) as Hsame.
  rewrite Hreal in Hsame. cbn [negb andb] in Hsame.
  fold skipping verifying in Hsame.
  split; [exact Hsame|]. split; [apply Hsame|].
  split; [rewrite !main_exit_code; fold skipping verifying;
          now rewrite (proj1 Hsame)|].
  split.
  - intros r Hr Hok. subst skipping.
    destruct (create_backup (with_no_verification true c) e w) as [o w'] eqn:Hrun.
    cbn [fst] in Hr. subst o.
    exact (success_digests_equal _ _ _ _ _ Hrun Hok).
  - intros r Hok Hmis. apply exit_status_cases. auto.
Qed.

Lemma no_verification_only_changes_flags_witness :
  dry_run sample_config = false /\
  fst (create_backup (with_no_verification true sample_config) sample_env empty_world)
    = fst (create_backup (with_no_verification false sample_config) sample_env
             empty_world) /\
  fst (main (with_no_verification true sample_config) sample_env empty_world)
    = fst (main (with_no_verification false sample_config) sample_env empty_world).
Proof.
  pose proof (no_verification_only_changes_flags sample_config sample_env
                empty_world eq_refl) as T.
  split; [reflexivity|]. split; [apply T | apply T].
Defined.

(** The two manifests of the sample disc, with and without the flag. *)
Example no_verification_sample :
  let skipping :=
    manifest (with_no_verification true sample_config) sample_manifest_env
      sample_world sample_result sample_disk_info not_found_record in
  let verifying :=
    manifest (with_no_verification false sample_config) sample_manifest_env
      sample_world sample_result sample_disk_info not_found_record in
  (verification_flags <$> skipping) = Some (Some (PBool false), Some (PBool false)) /\
  (verification_flags <$> verifying) = Some (Some (PBool true), Some (PBool true)) /\
  (skipping ≫= fun m => py_path m ["integrity_verification"; "hashes_match"])
    = Some (PBool true) /\
  (without_verification_flags <$> skipping)
    = (without_verification_flags <$> verifying).
Proof. vm_compute. repeat split; reflexivity. Qed.

(** ** Building the manifest twice *)

(** C3 (amended): for a fixed configuration, result, disk metadata and
    structural-analysis record, two calls of the manifest builder write two
    documents that are identical except for the run id, the uuid and the
    generation timestamp of [backup_metadata]; a builder that raises does so
    in both calls and writes nothing. *)
Theorem manifest_twice_same_but_identity c r d a me1 me2 w :
  platform me1 = platform me2 -> iso_path r <> manifest_path c ->
  let first := _create_manifest c me1 r d a w in
  let second := _create_manifest c me2 r d a (snd first) in
  (forall m1, manifest c me1 w r d a = Some m1 ->
     exists m2,
       manifest c me2 (snd first) r d a = Some m2 /\
       fst first = Returned tt /\ fst second = Returned tt /\
       files (snd first) !! manifest_path c = Some (encode_text (Json.dumps m1)) /\
       files (snd second) !! manifest_path c = Some (encode_text (Json.dumps m2)) /\
       without_run_identity m1 = without_run_identity m2 /\
       Json.dumps (without_run_identity m1) = Json.dumps (without_run_identity m2)) /\
  (manifest c me1 w r d a = None ->
     (exists exn, fst first = Raised exn /\ fst second = Raised exn) /\
     snd second = w).
Proof.
  intros Hp Hiso first second.
  assert (forall data,
             manifest c me2 (write_file (manifest_path c) data w) r d a
             = manifest c me2 w r d a) as Hread.
  { intros data. apply manifest_reads; cbn [files write_file];
      apply lookup_insert_ne; auto using tree_path_not_manifest. }
  pose proof (manifest_two_calls c me1 me2 w r d a Hp) as Htwo.
  subst first second. unfold _create_manifest. run_unfold. cbv beta iota.
  destruct (manifest c me1 w r d a) as [m1|] eqn:H1; cbv beta iota; cbn [fst snd].
  - split; [|discriminate]. intros ? [= <-].
    rewrite Hread.
    destruct (manifest c me2 w r d a) as [m2|] eqn:H2; [|contradiction].
    cbv beta iota. cbn [fst snd files write_file].
    exists m2. rewrite !lookup_insert_eq. rewrite Htwo. repeat split; reflexivity.
  - split; [discriminate|]. intros _.
    destruct (manifest c me2 w r d a) as [m2|] eqn:H2; [contradiction|].
    cbv beta iota. cbn [fst snd]. split; [|reflexivity]. eauto.
Qed.

Lemma manifest_twice_same_but_identity_witness :
  platform sample_manifest_env = platform sample_manifest_env' /\
  iso_path sample_result <> manifest_path sample_config /\
  exists m1 m2,
    sample_manifest = Some m1 /\
    files (snd (_create_manifest sample_config sample_manifest_env sample_result
                  sample_disk_info not_found_record sample_world))
      !! manifest_path sample_config = Some (encode_text (Json.dumps m1)) /\
    Json.dumps (without_run_identity m1) = Json.dumps (without_run_identity m2).
Proof.
  assert (iso_path sample_result <> manifest_path sample_config) as Hne
    by (intro Hq; vm_compute in Hq; discriminate Hq).
  assert (exists m1, sample_manifest = Some m1) as [m1 H1]
    by (vm_compute; eexists; reflexivity).
  destruct (proj1 (manifest_twice_same_but_identity sample_config sample_result
                     sample_disk_info not_found_record sample_manifest_env
                     sample_manifest_env' sample_world eq_refl Hne) m1 H1)
    as (m2 & _ & _ & _ & Hfile & _ & _ & Hdumps).
  split; [reflexivity|]. split; [exact Hne|].
  exists m1, m2. split; [exact H1|]. split; [exact Hfile | exact Hdumps].
Defined.

(** C3 as stated fails: two calls of the builder in the same second, on the
    same inputs, give the same generation timestamp and yet two different
    documents, with or without that field: each call draws a new uuid. *)
Lemma same_second_different_documents :
  now sample_manifest_env = now sample_manifest_env' /\
  (sample_manifest ≫= fun m => py_path m ["backup_metadata"; "created"])
    = (sample_manifest' ≫= fun m => py_path m ["backup_metadata"; "created"]) /\
  (sample_manifest ≫= fun m => py_path m ["backup_metadata"; "uuid"])
    = Some (PStr "123e4567-e89b-42d3-a456-426614174000") /\
  (sample_manifest' ≫= fun m => py_path m ["backup_metadata"; "uuid"])
    = Some (PStr "9b2f1c3a-7d5e-4f80-b1a2-0c9d8e7f6a5b") /\
  match sample_manifest, sample_manifest' with
  | Some m1, Some m2 =>
      String.eqb (Json.dumps (without_created m1)) (Json.dumps (without_created m2))
  | _, _ => true
  end = false.
Proof. vm_compute. repeat split; reflexivity. Qed.

(** * Further properties *)

(** ** What a run touches *)

Section Keeps.

Variable R : world -> world -> Prop.
Hypothesis R_refl : forall w, R w w.
Hypothesis R_trans : forall w1 w2 w3, R w1 w2 -> R w2 w3 -> R w1 w3.



















End Keeps.







Lemma isolyzer_path_not_output c : output_path c <> isolyzer_path c.
Proof. distinct_paths. Qed.
Lemma isolyzer_path_not_tree c : tree_path c <> isolyzer_path c.
Proof. distinct_paths. Qed.
Lemma log_path_not_tree c : tree_path c <> log_path c.
Proof. distinct_paths. Qed.
Lemma log_path_not_manifest c : manifest_path c <> log_path c.
Proof. distinct_paths. Qed.


(** *** Exit codes *)



(** *** Failure results *)

(** X3: a failure result is returned before anything is written: the file
    system is as it was, the result carries no digest, and its message is
    one of the three of [create_backup]. *)
Theorem failure_leaves_no_trace c e w r w' :
  create_backup c e w = (Returned r, w') -> success r = false ->
  w' = w /\ md5_iso r = None /\ md5_raw r = None /\
  iso_path r = output_path c /\ exit_status r = 1 /\
  (error_message r = Some "Not running as root" /\ euid e <> 0 \/
   error_message r = Some ("Could not get disk info for " +:+ disk_id c) \/
   error_message r = Some "Aborted to avoid overwrite" /\
   path_exists (output_path c) w = true).
Proof.
  unfold create_backup.
  destruct (negb (euid e =? 0)) eqn:Hroot.
  { run_unfold. intros [= <- <-] _. repeat split; auto.
    left. split; [reflexivity|]. intros Hz. rewrite Hz in Hroot. discriminate. }
  unfold _get_disk_info, run_cmd.
  destruct (disk_info_plist e) as [di|msg|msg] eqn:Hdi; run_unfold;
    try discriminate;
    try (intros [= <- <-] _; repeat split; auto).
  destruct di as [|kv di]; [intros [= <- <-] _; repeat split; auto|].
  set (disk_info := kv :: di) in *. clearbody disk_info.
  destruct (_log_metadata e w) as [[[]|?|?] wm] eqn:Emeta; try discriminate.
  apply log_metadata_world in Emeta. subst wm. cbv beta iota.
  destruct ((if path_exists (output_path c) w then _confirm_overwrite e
             else fun w => (Returned true, w)) w) as [[ov|?|?] wo] eqn:Eov;
    try discriminate.
  assert (wo = w /\ (ov = false -> path_exists (output_path c) w = true))
    as [-> Hex].
  { destruct (path_exists (output_path c) w).
    - split; [eapply confirm_overwrite_world, Eov|auto].
    - injection Eov as <- <-. split; [reflexivity|discriminate]. }
  cbv beta iota. destruct ov; cbn [negb]; cbv beta iota;
    [|intros [= <- <-] _; repeat split; auto].
  unfold _generate_tree_listing at 1. run_unfold. cbv beta iota.
  match goal with
  | |- context [(if negb (dry_run c) then _ else _) ?w0] =>
      destruct ((if negb (dry_run c) then _unmount_disk e
                 else fun w => (Returned true, w)) w0) as [[um|?|?] wu];
      try discriminate
  end.
  cbv beta iota.
  match goal with
  | |- context [match ?m with pair _ _ => _ end] =>
      destruct m as [[[[[ct ma] mb] an]|?|?] wc]; try discriminate
  end.
  cbv beta iota.
  destruct (_finalize_disk c e wc) as [[[]|?|?] wf]; try discriminate.
  cbv beta iota.
  match goal with
  | |- context [_generate_summary c ?r wf] =>
      destruct (_generate_summary c r wf) as [[[]|?|?] ws]; try discriminate
  end.
  cbv beta iota.
  unfold create_formatted_log, _create_manifest. run_unfold. cbv beta iota.
  match goal with
  | |- context [manifest ?a ?b ?c ?d ?e ?f] =>
      destruct (manifest a b c d e f); cbv beta iota; [|discriminate]
  end.
  intros [= <- <-]. discriminate.
Qed.

Lemma sample_declined_run :
  create_backup sample_config sample_env world_with_iso
  = (Returned (failure sample_config 5 "Aborted to avoid overwrite"), world_with_iso).
Proof. vm_compute. reflexivity. Qed.

Lemma failure_leaves_no_trace_witness :
  success (failure sample_config 5 "Aborted to avoid overwrite") = false /\
  md5_iso (failure sample_config 5 "Aborted to avoid overwrite") = None /\
  exit_status (failure sample_config 5 "Aborted to avoid overwrite") = 1.
Proof.
  pose proof (failure_leaves_no_trace sample_config sample_env world_with_iso
                _ _ sample_declined_run eq_refl) as T.
  split; [reflexivity|]. split; [apply T | apply T].
Defined.

(** *** Successful runs *)

Lemma digest_hex_not_empty msg : MD5.digest_hex msg <> "".
Proof.
  unfold MD5.digest_hex.
  destruct (fold_left MD5.compress _ _) as [[[a b] c] d].
  discriminate.
Qed.

Lemma copy_returns c size d w ct ma mb wb :
  _create_and_verify_iso c size d w = (Returned (ct, ma, mb), wb) ->
  let data := concat (blocks_read (dd_reads d)) in
  wb = write_file (output_path c) data w /\
  ma = MD5.digest_hex data /\ mb = MD5.digest_hex data /\
  dd_returncode d = 0 /\
  ct = PyFloat.sub (dd_end_clock d) (dd_start_clock d).
Proof.
  unfold _create_and_verify_iso.
  pose proof (copy_loop_hashers_agree (H := MD5.md5) size (dd_start_clock d)
                (dd_reads d) copy_start eq_refl) as Hh.
  pose proof (md5_fed_is_file size (dd_start_clock d) (dd_reads d)
                copy_start eq_refl) as Hf.
  destruct (copy_loop _ _ _ _) as [st how] eqn:Hloop. simpl in Hh, Hf.
  destruct how; try discriminate.
  destruct (copy_loop_end_of_stream _ _ _ _ _ Hloop) as (Hfile & _).
  simpl in Hfile.
  destruct (dd_returncode d =? 0) eqn:Hrc; simpl; [|discriminate].
  intros [= <- <- <- <-]. simpl.
  rewrite <- Hh. unfold h_hexdigest; simpl. rewrite Hf, Hfile.
  repeat split; auto. lia.
Qed.

Lemma analyze_writes_only_report c e w an w' :
  _analyze_iso_structure c e w = (Returned an, w') ->
  forall p, p <> isolyzer_path c -> files w' !! p = files w !! p.
Proof.
  unfold _analyze_iso_structure.
  destruct (isolyzer e); run_unfold; intros [= _ <-] p Hp;
    cbn [files write_file]; try reflexivity;
    now apply lookup_insert_ne.
Qed.

(** What a successful result looks like, and the manifest written for it. *)
Lemma success_manifest c e w r w' :
  create_backup c e w = (Returned r, w') -> success r = true ->
  exists ha hb w1 m,
    md5_iso r = Some ha /\ md5_raw r = Some hb /\ iso_path r = output_path c /\
    error_message r = None /\
    (if dry_run c then ha = "dry_run_hash" /\ hb = "dry_run_hash" /\
                       files w1 !! output_path c = files w !! output_path c
     else ha = MD5.digest_hex (concat (blocks_read (dd_reads (dd e)))) /\
          hb = ha /\ dd_returncode (dd e) = 0 /\
          files w1 !! output_path c
          = Some (concat (blocks_read (dd_reads (dd e))))) /\
    files w1 !! log_path c = Some (encode_text (formatted_log e)) /\
    files w1 !! tree_path c
    = Some (encode_text (match tree_run e with Some out => out | None => "" end)) /\
    output_dir c ∈ dirs w1 /\
    manifest c (m_env e) w1 r
      (match disk_info_plist e with CmdOk d => d | _ => [] end)
      (if dry_run c then dry_run_record
       else match fst (_analyze_iso_structure c e w) with
            | Returned an => an
            | _ => []
            end) = Some m /\
    w' = write_file (manifest_path c) (encode_text (Json.dumps m)) w1.
Proof.
  intros Hrun Hok.
  destruct (create_backup_success_inv _ _ _ _ _ Hrun Hok)
    as (di & ct & ma & mb & an & w0 & w1 & m & Hdi & Hr & Hw0 & Hacq & Hm & Hw').
  exists ma, mb, w1, m. rewrite Hdi.
  split; [now rewrite Hr|]. split; [now rewrite Hr|]. split; [now rewrite Hr|].
  split; [now rewrite Hr|].
  destruct (dry_run c) eqn:Hdry.
  - destruct Hacq as (-> & -> & -> & -> & Hw1).
    split; [|split; [|split; [|split; [|split; [exact Hm|exact Hw']]]]].
    + split; [reflexivity|]. split; [reflexivity|].
      rewrite Hw1, Hw0. cbn [files write_file make_dir].
      rewrite !lookup_insert_ne; auto using output_path_not_tree, output_path_not_log.
    + rewrite Hw1. cbn [files write_file]. apply lookup_insert_eq.
    + rewrite Hw1, Hw0. cbn [files write_file make_dir].
      rewrite lookup_insert_ne by (apply not_eq_sym, log_path_not_tree).
      apply lookup_insert_eq.
    + rewrite Hw1, Hw0. cbn [dirs write_file make_dir].
      apply elem_of_union_l, elem_of_singleton. reflexivity.
  - destruct Hacq as (wb & wc & Hcopy & Han & Hw1).
    destruct (copy_returns _ _ _ _ _ _ _ _ Hcopy) as (Hwb & -> & -> & Hrc & _).
    pose proof (analyze_writes_only_report _ _ _ _ _ Han) as Hframe.
    assert (dirs wc = dirs wb) as Hdirs.
    { revert Han. unfold _analyze_iso_structure.
      destruct (isolyzer e); run_unfold; intros [= _ <-]; reflexivity. }
    assert (fst (_analyze_iso_structure c e w) = Returned an) as ->.
    { revert Han. unfold _analyze_iso_structure.
      destruct (isolyzer e); run_unfold; intros [= <- _]; reflexivity. }
    split; [|split; [|split; [|split; [|split; [exact Hm|exact Hw']]]]].
    + split; [reflexivity|]. split; [reflexivity|]. split; [exact Hrc|].
      rewrite Hw1. cbn [files write_file].
      rewrite lookup_insert_ne by apply output_path_not_log.
      rewrite Hframe by apply isolyzer_path_not_output.
      rewrite Hwb. cbn [files write_file]. apply lookup_insert_eq.
    + rewrite Hw1. cbn [files write_file]. apply lookup_insert_eq.
    + rewrite Hw1. cbn [files write_file].
      rewrite lookup_insert_ne by (apply not_eq_sym, log_path_not_tree).
      rewrite Hframe by apply isolyzer_path_not_tree.
      rewrite Hwb. cbn [files write_file].
      rewrite lookup_insert_ne by (apply not_eq_sym, output_path_not_tree).
      rewrite Hw0. cbn [files write_file]. apply lookup_insert_eq.
    + rewrite Hw1. cbn [dirs write_file]. rewrite Hdirs, Hwb.
      cbn [dirs write_file]. rewrite Hw0. cbn [dirs write_file make_dir].
      apply elem_of_union_l, elem_of_singleton. reflexivity.
Qed.

(** X4: after a successful run that is not a dry run, the ISO file holds
    exactly the bytes the [dd] process delivered, in order; both digests of
    the result are the MD5 of that file; [dd] ended with status 0; the log
    and the tree listing are in place in the output directory; and the
    manifest records the size of the file and its digest. *)
Theorem successful_copy_is_faithful c e w r w' :
  dry_run c = false ->
  create_backup c e w = (Returned r, w') -> success r = true ->
  let data := concat (blocks_read (dd_reads (dd e))) in
  files w' !! output_path c = Some data /\
  md5_iso r = Some (MD5.digest_hex data) /\
  md5_raw r = Some (MD5.digest_hex data) /\
  dd_returncode (dd e) = 0 /\
  files w' !! log_path c = Some (encode_text (formatted_log e)) /\
  is_Some (files w' !! tree_path c) /\
  output_dir c ∈ dirs w' /\
  exists m,
    files w' !! manifest_path c = Some (encode_text (Json.dumps m)) /\
    py_path m ["backup_status"; "iso_created"] = Some (PBool true) /\
    py_path m ["output_files"; "iso_file_size_bytes"]
    = Some (PInt (Z.of_nat (length data))) /\
    py_path m ["integrity_verification"; "iso_hash"]
    = Some (PStr (MD5.digest_hex data)) /\
    py_path m ["integrity_verification"; "source_hash"]
    = Some (PStr (MD5.digest_hex data)).
Proof.
  intros Hreal Hrun Hok data.
  destruct (success_manifest _ _ _ _ _ Hrun Hok)
    as (ha & hb & w1 & m & Ha & Hb & Hip & _ & Hd & Hlog & Htree & Hdir & Hm & Hw').
  rewrite Hreal in Hd, Hm. destruct Hd as (-> & -> & Hrc & Hiso).
  fold data in Hiso, Ha, Hb.
  rewrite Hw'. cbn [files dirs write_file].
  rewrite !lookup_insert_ne
    by auto using output_path_not_manifest, log_path_not_manifest,
                  tree_path_not_manifest.
  split; [exact Hiso|]. split; [exact Ha|]. split; [exact Hb|].
  split; [exact Hrc|]. split; [exact Hlog|]. split; [rewrite Htree; eauto|].
  split; [exact Hdir|].
  exists m. split; [apply lookup_insert_eq|].
  rewrite manifest_parts in Hm.
  destruct (volume_information _ _ _); [|discriminate].
  unfold output_files, backup_status, iso_file_size_of in Hm.
  rewrite Hip, Hiso in Hm. cbn [fmap option_fmap option_map] in Hm.
  match type of Hm with
  | context [mbind _ ?x] => destruct x as [formatted|]; [|discriminate]
  end.
  cbn [mbind option_bind] in Hm.
  destruct (timing_performance r); [|discriminate].
  destruct (structural_analysis _); [|discriminate].
  injection Hm as <-.
  unfold integrity_verification. rewrite Ha, Hb.
  repeat split; reflexivity.
Qed.

Lemma successful_copy_is_faithful_witness :
  dry_run sample_config = false /\
  success sample_result = true /\
  files sample_world !! output_path sample_config
  = Some (concat (blocks_read (dd_reads (dd sample_env)))) /\
  md5_iso sample_result
  = Some (MD5.digest_hex (concat (blocks_read (dd_reads (dd sample_env))))).
Proof.
  pose proof (successful_copy_is_faithful sample_config sample_env empty_world
                sample_result sample_world eq_refl sample_run eq_refl) as T.
  split; [reflexivity|]. split; [reflexivity|]. split; [apply T | apply T].
Defined.

(** X5: the manifest of every completed run, dry or not and with or without
    the no-verification flag, reports success: [checksum_match] is true,
    and the manifest says verification_passed = true, hashes_match = true,
    integrity_status = "verified" and errors = null, while
    verification_performed is false for a dry run and under the flag. *)
Theorem manifest_always_reports_verified c e w r w' :
  create_backup c e w = (Returned r, w') -> success r = true ->
  checksum_match r = Some true /\
  exists m,
    files w' !! manifest_path c = Some (encode_text (Json.dumps m)) /\
    py_path m ["backup_status"; "overall_status"] = Some (PStr "success") /\
    py_path m ["backup_status"; "verification_performed"]
    = Some (PBool (negb (no_verification c) && negb (dry_run c))) /\
    py_path m ["backup_status"; "verification_passed"] = Some (PBool true) /\
    py_path m ["backup_status"; "errors"] = Some PNone /\
    py_path m ["integrity_verification"; "hashes_match"] = Some (PBool true) /\
    py_path m ["integrity_verification"; "integrity_status"]
    = Some (PStr "verified") /\
    py_path m ["integrity_verification"; "notes"]
    = Some (PStr "ISO verified as bit-perfect copy").
Proof.
  intros Hrun Hok.
  destruct (success_manifest _ _ _ _ _ Hrun Hok)
    as (ha & hb & w1 & m & Ha & Hb & Hip & Herr & Hd & _ & _ & _ & Hm & Hw').
  assert (checksum_match r = Some true) as Hmatch.
  { unfold checksum_match. rewrite Ha, Hb.
    destruct (dry_run c).
    - destruct Hd as (-> & -> & _). reflexivity.
    - destruct Hd as (-> & -> & _).
      pose proof (digest_hex_not_empty (concat (blocks_read (dd_reads (dd e))))) as Hne.
      destruct (MD5.digest_hex _) as [|ch rest]; [congruence|].
      cbn [PyStr.truthy andb]. now rewrite String.eqb_refl. }
  split; [exact Hmatch|].
  exists m. split; [rewrite Hw'; cbn [files write_file]; apply lookup_insert_eq|].
  rewrite manifest_parts in Hm.
  destruct (volume_information _ _ _); [|discriminate].
  destruct (output_files _ _ _); [|discriminate].
  destruct (timing_performance r); [|discriminate].
  destruct (structural_analysis _); [|discriminate].
  injection Hm as <-.
  unfold backup_status, integrity_verification, match_truthy.
  rewrite Hmatch, Hok, Herr. repeat split; reflexivity.
Qed.

Lemma manifest_always_reports_verified_witness :
  success sample_result = true /\
  checksum_match sample_result = Some true.
Proof.
  split; [reflexivity|].
  exact (proj1 (manifest_always_reports_verified sample_config sample_env
                  empty_world sample_result sample_world sample_run eq_refl)).
Defined.

(** *** What a run does not depend on *)

(** X6: a dry run consults neither [diskutil unmountDisk] nor [dd] nor
    [isolyzer]: whatever they would answer, the run ends the same way and
    leaves the same file system. *)
Theorem dry_run_ignores_copy_tools c e w u d i :
  dry_run c = true ->
  create_backup c (with_copy_inputs u d i e) w = create_backup c e w /\
  main c (with_copy_inputs u d i e) w = main c e w.
Proof.
  intros Hdry.
  assert (create_backup c (with_copy_inputs u d i e) w = create_backup c e w) as Hsame.
  { unfold create_backup. rewrite Hdry. reflexivity. }
  split; [exact Hsame|]. unfold main. now rewrite Hsame.
Qed.

Lemma dry_run_ignores_copy_tools_witness :
  dry_run sample_dry_config = true /\
  main sample_dry_config
    (with_copy_inputs (CmdFailed "busy") sample_dd (IsoFailed "exit status 1")
       sample_env) empty_world
  = main sample_dry_config sample_env empty_world.
Proof.
  split; [reflexivity|].
  exact (proj2 (dry_run_ignores_copy_tools sample_dry_config sample_env empty_world
                  (CmdFailed "busy") sample_dd (IsoFailed "exit status 1") eq_refl)).
Defined.

(** X7: the status of [diskutil unmountDisk] is ignored: a run whose unmount
    fails goes on exactly like one whose unmount succeeds, and in a run that
    is not a dry run the same holds of the remount and eject. *)
Theorem failed_unmount_is_ignored c e w msg out :
  create_backup c (with_unmount_run (CmdFailed msg) e) w
  = create_backup c (with_unmount_run (CmdOk out) e) w /\
  (dry_run c = false ->
   create_backup c (with_finalize_run (CmdFailed msg) e) w
   = create_backup c (with_finalize_run (CmdOk out) e) w).
Proof.
  split.
  - unfold create_backup. destruct (dry_run c); reflexivity.
  - intros Hreal. unfold create_backup, _finalize_disk. rewrite Hreal. reflexivity.
Qed.

(** *** The overwrite prompt *)

Lemma lower_char_y ch :
  PyStr.lower_char ch = "y"%char -> ch = "y"%char \/ ch = "Y"%char.
Proof.
  destruct ch as [[] [] [] [] [] [] [] []]; vm_compute; intros H;
    first [discriminate H | now left | now right].
Qed.

Lemma lower_is_y s :
  PyStr.lower s = "y" <-> s = "y" \/ s = "Y".
Proof.
  split.
  - destruct s as [|ch [|ch' s]]; simpl; try discriminate.
    intros [= H]. destruct (lower_char_y ch H) as [->| ->]; auto.
  - intros [->| ->]; reflexivity.
Qed.

(** X8: the overwrite prompt is accepted by exactly the answers that are
    [y] or [Y] once surrounding whitespace is removed; every other line
    declines; Ctrl-C ends the process with status 1; and none of the three
    touches the file system. *)
Theorem overwrite_accepted_iff e w :
  (forall line, overwrite_answer e = Typed line ->
     _confirm_overwrite e w
     = (Returned (bool_decide (PyStr.strip line = "y" \/ PyStr.strip line = "Y")), w)) /\
  (overwrite_answer e = CtrlC -> _confirm_overwrite e w = (Exited 1, w)) /\
  (_confirm_overwrite e w = (Returned true, w) <->
   exists line, overwrite_answer e = Typed line /\
                (PyStr.strip line = "y" \/ PyStr.strip line = "Y")).
Proof.
  assert (forall line, overwrite_answer e = Typed line ->
     _confirm_overwrite e w
     = (Returned (bool_decide (PyStr.strip line = "y" \/ PyStr.strip line = "Y")), w))
    as Htyped.
  { intros line Hline. unfold _confirm_overwrite, get_input. rewrite Hline.
    run_unfold. do 2 f_equal.
    destruct (String.eqb_spec (PyStr.lower (PyStr.strip line)) "y") as [Hy|Hn].
    - symmetry. apply bool_decide_eq_true. now apply lower_is_y.
    - symmetry. apply bool_decide_eq_false. intros H. now apply Hn, lower_is_y. }
  split; [exact Htyped|]. split.
  - intros Hc. unfold _confirm_overwrite, get_input. now rewrite Hc.
  - split.
    + destruct (overwrite_answer e) as [line|] eqn:Hans.
      * rewrite (Htyped line eq_refl). intros [= H].
        apply bool_decide_eq_true in H. eauto.
      * unfold _confirm_overwrite, get_input. rewrite Hans. discriminate.
    + intros (line & Hline & Hy). rewrite (Htyped line Hline).
      do 2 f_equal. now apply bool_decide_eq_true.
Qed.

(** *** The output paths *)

(** X9: the five output files of a configuration have five different
    paths, whatever the directory and the file name: no output overwrites
    another. *)
Theorem output_paths_are_distinct c :
  NoDup [output_path c; log_path c; manifest_path c; tree_path c; isolyzer_path c].
Proof.
  repeat (apply NoDup_cons; split;
          [rewrite ?elem_of_cons, elem_of_nil;
           intros H; repeat (destruct H as [H|H]); try contradiction;
           revert H; distinct_paths|]).
  apply NoDup_nil_2.
Qed.

(** *** Checksums of a result *)

(** X10: [checksum_match] is [None] exactly when a digest is missing or
    empty, and true exactly when both digests are the same non-empty
    string; it does not depend on the order of the two digests. *)
Theorem checksum_match_cases r :
  (checksum_match r = None <->
   md5_iso r = None \/ md5_iso r = Some "" \/
   md5_raw r = None \/ md5_raw r = Some "") /\
  (checksum_match r = Some true <->
   exists h, h <> "" /\ md5_iso r = Some h /\ md5_raw r = Some h) /\
  (forall r', md5_iso r' = md5_raw r -> md5_raw r' = md5_iso r ->
     checksum_match r' = checksum_match r).
Proof.
  unfold checksum_match. split; [|split].
  - destruct (md5_iso r) as [[|ca a]|]; destruct (md5_raw r) as [[|cb b]|];
      cbn [PyStr.truthy andb]; split; auto; try discriminate;
      intros [H|[H|[H|H]]]; discriminate.
  - split.
    + destruct (md5_iso r) as [a|]; [|discriminate].
      destruct (md5_raw r) as [b|]; [|discriminate].
      destruct a as [|ca a]; [discriminate|].
      destruct b as [|cb b]; [discriminate|]. cbn [PyStr.truthy andb].
      destruct (String.eqb_spec (String ca a) (String cb b)) as [->|];
        [|discriminate].
      intros _. exists (String cb b). repeat split; congruence.
    + intros (h & Hne & -> & ->). destruct h as [|ch h]; [congruence|].
      cbn [PyStr.truthy andb]. now rewrite String.eqb_refl.
  - intros r' -> ->.
    destruct (md5_iso r) as [a|]; destruct (md5_raw r) as [b|]; try reflexivity.
    rewrite (andb_comm (PyStr.truthy b)), (String.eqb_sym b a). reflexivity.
Qed.

(** *** Speed of a result *)

Section Speed.

Import PyFloat.

Lemma round_ndigits_nonneg x nd f :
  0 <= nd -> nonneg x = true -> round_ndigits x nd = Some f -> nonneg f = true.
Proof.
  intros Hnd. destruct x as [s|s| |s m e]; simpl;
    try (intros Hs [= <-]; exact Hs); try discriminate.
  intros Hs. apply negb_true_iff in Hs. subst s.
  assert (0 <= scaled_round m e nd) as Hn.
  { unfold scaled_round. cbv zeta.
    assert (0 <= 10 ^ nd) by (apply Z.pow_nonneg; lia).
    assert (0 <= Z.pos m * 10 ^ nd) as Hnum by (apply Z.mul_nonneg_nonneg; lia).
    destruct (0 <=? e) eqn:He.
    - apply Z.mul_nonneg_nonneg; [exact Hnum|]. apply Z.pow_nonneg. lia.
    - apply Z.leb_gt in He.
      pose proof (Z.div_pos _ (2 ^ (- e)) Hnum
                    ltac:(apply Z.pow_pos_nonneg; lia)) as Hq.
      destruct (_ ?= _); try destruct (Z.even _); lia. }
  destruct (scaled_round m e nd) as [|n|n] eqn:En; [intros [= <-]; reflexivity| |lia].
  cbn [cond_Zopp].
  assert (exists q, 10 ^ nd = Z.pos q) as [q ->].
  { assert (0 < 10 ^ nd) by (apply Z.pow_pos_nonneg; lia).
    destruct (10 ^ nd) as [|q|q]; try lia. eauto. }
  unfold round_quotient.
  pose proof (ieee_div_finite_nonneg n 0 q 0) as Hq.
  destruct (ieee_div _ _) as [[]|[]| |[] m' e']; simpl in Hq; try discriminate;
    intros ?; simplify_eq; reflexivity.
Qed.

(** X11: the speed of a result is never negative for a non-negative disk
    size: a duration that is not positive (zero, negative or not a number)
    gives 0.0 without dividing, and any other gives a value whose sign bit
    is clear. *)
Theorem speed_mb_s_never_negative r duration :
  0 <= disk_size r ->
  (ltb zero duration = false -> speed_mb_s r duration = Some zero) /\
  (forall f, speed_mb_s r duration = Some f -> nonneg f = true).
Proof.
  intros Hsize. unfold speed_mb_s. split.
  - intros ->. reflexivity.
  - intros f. destruct (ltb zero duration) eqn:Hd; [|intros [= <-]; reflexivity].
    destruct (of_int (disk_size r)) as [ds|] eqn:Hds; [|discriminate].
    cbn [mbind option_bind].
    apply round_ndigits_nonneg; [lia|].
    apply ieee_div_nonneg_by_finite; [|reflexivity|reflexivity].
    apply ieee_div_nonneg; [|exact Hd].
    eapply of_int_nonneg; eauto.
Qed.

Lemma speed_mb_s_never_negative_witness :
  0 <= disk_size sample_result /\
  speed_mb_s sample_result (of_decimal (-3) 0) = Some zero /\
  exists f, speed_mb_s sample_result (of_decimal 15 (-1)) = Some f /\
            nonneg f = true.
Proof.
  assert (0 <= disk_size sample_result) as Hs by (vm_compute; discriminate).
  split; [exact Hs|]. split.
  - apply (speed_mb_s_never_negative sample_result (of_decimal (-3) 0) Hs).
    reflexivity.
  - assert (exists f, speed_mb_s sample_result (of_decimal 15 (-1)) = Some f)
      as [f Hf] by (vm_compute; eauto).
    exists f. split; [exact Hf|].
    exact (proj2 (speed_mb_s_never_negative sample_result (of_decimal 15 (-1)) Hs)
             f Hf).
Defined.

End Speed.

(** ** Colours and their removal *)

Lemma span_length p s :
  (String.length (fst (TreeSummary.span p s))
   + String.length (snd (TreeSummary.span p s)) = String.length s)%nat.
Proof.
  induction s as [|c s IH]; simpl; [reflexivity|].
  destruct (p c); simpl; [|reflexivity].
  destruct (TreeSummary.span p s) as [a b]. simpl in *. lia.
Qed.

(** A span is not extended by what follows when that starts with a
    character outside the class. *)
Lemma span_app p s t :
  match t with EmptyString => True | String c _ => p c = false end ->
  TreeSummary.span p (s +:+ t)
  = (fst (TreeSummary.span p s), snd (TreeSummary.span p s) +:+ t).
Proof.
  intros Ht. induction s as [|c s IH]; simpl.
  - destruct t as [|d t]; [reflexivity|]. simpl. now rewrite Ht.
  - destruct (p c); [|reflexivity].
    rewrite IH. destruct (TreeSummary.span p s) as [a b]. reflexivity.
Qed.

Lemma str_app_nil_r a : a +:+ "" = a.
Proof. induction a as [|ch a IH]; [reflexivity|]. rewrite app_cons. now rewrite IH. Qed.

Lemma escape_length_bound s n :
  Ansi.escape_length s = Some n -> (0 < n <= String.length s)%nat.
Proof.
  unfold Ansi.escape_length.
  destruct s as [|c [|d rest]]; try discriminate.
  destruct (Ansi.is_esc c); [|discriminate].
  destruct (Ansi.is_single d); [intros [= <-]; simpl; lia|].
  destruct (Ascii.eqb d "["); [|discriminate].
  pose proof (span_length Ansi.is_parameter rest) as H1.
  destruct (TreeSummary.span Ansi.is_parameter rest) as [params r1].
  pose proof (span_length Ansi.is_intermediate r1) as H2.
  destruct (TreeSummary.span Ansi.is_intermediate r1) as [inter r2].
  simpl in H1, H2.
  destruct r2 as [|f r3]; [discriminate|].
  destruct (Ansi.is_final f); [|discriminate].
  intros [= <-]. simpl in *. lia.
Qed.

Lemma escape_length_app s t :
  s <> "" -> starts_escape t = true ->
  Ansi.escape_length (s +:+ t) = Ansi.escape_length s.
Proof.
  intros Hs Ht.
  assert (match t with EmptyString => True
          | String c _ => Ansi.is_parameter c = false /\ Ansi.is_intermediate c = false
                          /\ Ansi.is_single c = false /\ Ascii.eqb c "[" = false
                          /\ Ansi.is_final c = false end) as Hc.
  { destruct t as [|c t]; [exact I|]. simpl in Ht.
    unfold Ansi.is_esc in Ht. apply N.eqb_eq in Ht.
    assert (c = "027"%char) as ->
      by (rewrite <- (ascii_N_embedding c), Ht; reflexivity).
    repeat split; reflexivity. }
  destruct s as [|c [|d rest]]; [congruence| |].
  - rewrite app_cons, app_empty. destruct t as [|e t]; [reflexivity|].
    destruct Hc as (_ & _ & Hsingle & Hbr & _).
    unfold Ansi.escape_length.
    destruct (Ansi.is_esc c); [|reflexivity]. now rewrite Hsingle, Hbr.
  - rewrite !app_cons. unfold Ansi.escape_length.
    destruct (Ansi.is_esc c); [|reflexivity].
    destruct (Ansi.is_single d); [reflexivity|].
    destruct (Ascii.eqb d "["); [|reflexivity].
    rewrite (span_app Ansi.is_parameter rest t)
      by (destruct t; [exact I|apply Hc]).
    destruct (TreeSummary.span Ansi.is_parameter rest) as [params r1].
    cbn [fst snd].
    rewrite (span_app Ansi.is_intermediate r1 t)
      by (destruct t; [exact I|apply Hc]).
    destruct (TreeSummary.span Ansi.is_intermediate r1) as [inter r2].
    cbn [fst snd].
    destruct r2 as [|f r3]; [|reflexivity]. rewrite app_empty.
    destruct t as [|e t]; [reflexivity|].
    destruct Hc as (_ & _ & _ & _ & Hfinal). now rewrite Hfinal.
Qed.

(** Removing the escape sequences of a text and of what follows it, when
    this starts with an escape character, can be done apart. *)
Lemma sub_from_app t :
  starts_escape t = true ->
  forall s skip, (skip <= String.length s)%nat ->
    Ansi.sub_from skip (s +:+ t) = Ansi.sub_from skip s +:+ Ansi.strip t.
Proof.
  intros Ht. induction s as [|c s IH]; intros skip Hskip.
  - simpl in Hskip. assert (skip = 0%nat) as -> by lia. reflexivity.
  - destruct skip as [|k].
    + change (Ansi.sub_from 0 (String c s +:+ t))
        with (match Ansi.escape_length (String c s +:+ t) with
              | Some (S k) => Ansi.sub_from k (s +:+ t)
              | _ => String c (Ansi.sub_from 0 (s +:+ t))
              end).
      rewrite escape_length_app by (auto; discriminate).
      change (Ansi.sub_from 0 (String c s))
        with (match Ansi.escape_length (String c s) with
              | Some (S k) => Ansi.sub_from k s
              | _ => String c (Ansi.sub_from 0 s)
              end).
      destruct (Ansi.escape_length (String c s)) as [[|k]|] eqn:E.
      * rewrite IH by lia. reflexivity.
      * apply escape_length_bound in E. simpl in E. apply IH. lia.
      * rewrite IH by lia. reflexivity.
    + simpl in Hskip. simpl. apply IH. lia.
Qed.

Lemma strip_no_escape s :
  all_chars (fun c => negb (Ansi.is_esc c)) s = true -> Ansi.strip s = s.
Proof.
  unfold Ansi.strip. induction s as [|c s IH]; [reflexivity|].
  simpl all_chars. intros [Hc Hs]%andb_true_iff.
  change (Ansi.sub_from 0 (String c s))
    with (match Ansi.escape_length (String c s) with
          | Some (S k) => Ansi.sub_from k s
          | _ => String c (Ansi.sub_from 0 s)
          end).
  assert (Ansi.escape_length (String c s) = None) as ->.
  { unfold Ansi.escape_length. destruct s; [reflexivity|].
    apply negb_true_iff in Hc. now rewrite Hc. }
  now rewrite IH.
Qed.

Lemma strip_color c s : Ansi.strip (COLOR c +:+ s) = Ansi.strip s.
Proof. destruct c; reflexivity. Qed.

(** X12: removing the colours undoes [colorize]: the text is stripped of
    the two escape sequences put around it and of nothing else, so a text
    without escape characters comes back unchanged, also when several
    coloured pieces are joined. *)
Theorem colorize_then_strip c c' text rest :
  Ansi.strip (colorize c text) = Ansi.strip text /\
  (all_chars (fun ch => negb (Ansi.is_esc ch)) text = true ->
   Ansi.strip (colorize c text) = text /\
   Ansi.strip (colorize c text +:+ colorize c' rest) = text +:+ Ansi.strip rest).
Proof.
  assert (forall t, starts_escape t = true ->
            Ansi.strip (colorize c text +:+ t) = Ansi.strip text +:+ Ansi.strip t)
    as Hgen.
  { intros t Ht. unfold colorize.
    rewrite !str_app_assoc, strip_color.
    unfold Ansi.strip at 1. rewrite sub_from_app; [|now destruct t|lia].
    rewrite strip_color. reflexivity. }
  assert (Ansi.strip (colorize c text) = Ansi.strip text) as H1.
  { pose proof (Hgen "" eq_refl) as H. rewrite !str_app_nil_r in H.
    exact H. }
  split; [exact H1|]. intros Hclean.
  rewrite H1, (strip_no_escape text Hclean). split; [reflexivity|].
  rewrite Hgen by (destruct c'; reflexivity).
  rewrite (strip_no_escape text Hclean). f_equal.
  unfold colorize. rewrite strip_color.
  pose proof (sub_from_app (COLOR off) eq_refl rest 0 ltac:(lia)) as H.
  fold (Ansi.strip (rest +:+ COLOR off)) in H. rewrite H.
  change (Ansi.strip (COLOR off)) with "". now rewrite str_app_nil_r.
Qed.

(** ** The log preview *)

Lemma all_chars_app p a b :
  all_chars p (a +:+ b) = all_chars p a && all_chars p b.
Proof.
  induction a as [|ch a IH]; [reflexivity|].
  rewrite app_cons. simpl. now rewrite IH, andb_assoc.
Qed.

Lemma uint_no_space u : all_chars not_space (NilEmpty.string_of_uint u) = true.
Proof. induction u; simpl; auto. Qed.

Lemma str_of_Z_no_space z : all_chars not_space (str_of_Z z) = true.
Proof.
  unfold str_of_Z, NilZero.string_of_int.
  destruct (Z.to_int z) as [u|u]; unfold NilZero.string_of_uint;
    destruct u; try reflexivity; simpl; apply uint_no_space.
Qed.

Lemma zeros_no_space n : all_chars not_space (zeros n) = true.
Proof. induction n; simpl; auto. Qed.

Lemma str_of_Z_width_no_space n z : all_chars not_space (str_of_Z_width n z) = true.
Proof.
  unfold str_of_Z_width. rewrite all_chars_app, zeros_no_space, str_of_Z_no_space.
  reflexivity.
Qed.

Lemma log_timestamp_no_space t : all_chars not_space (log_timestamp t) = true.
Proof.
  unfold log_timestamp, isoformat_seconds.
  rewrite !all_chars_app, !str_of_Z_width_no_space. reflexivity.
Qed.

(** The first separator of an entry is the one after its time stamp. *)
Lemma after_first_stamp ts msg :
  all_chars not_space ts = true -> after_first " - " (ts +:+ " - " +:+ msg) = Some msg.
Proof.
  induction ts as [|ch ts IH]; [intros _; reflexivity|].
  simpl all_chars. intros [Hc Hs]%andb_true_iff.
  rewrite app_cons.
  assert (TreeSummary.strip_prefix " - " (String ch (ts +:+ " - " +:+ msg)) = None)
    as Hp.
  { cbn [TreeSummary.strip_prefix].
    destruct (Ascii.eqb_spec " " ch) as [<-|]; [discriminate Hc|reflexivity]. }
  cbn [after_first]. rewrite Hp. auto.
Qed.

Lemma last_n_length {A} n (l : list A) : (length (last_n n l) <= n)%nat.
Proof. unfold last_n. rewrite length_skipn. lia. Qed.

Lemma last_n_map {A B} (f : A -> B) n l :
  last_n n (List.map f l) = List.map f (last_n n l).
Proof. unfold last_n. now rewrite length_map, skipn_map. Qed.

Lemma mapM_map_Some {A B C} (f : B -> option C) (g : A -> B) (h : A -> C) l :
  (forall a, f (g a) = Some (h a)) -> mapM f (List.map g l) = Some (List.map h l).
Proof.
  intros H. induction l as [|a l IH]; [reflexivity|].
  simpl. rewrite H. simpl. rewrite IH. reflexivity.
Qed.

(** X13: the preview of a buffer filled by the two log functions is its
    last ten messages, in order, without time stamps and colours: the time
    stamp holds no separator, so a separator inside a message does no
    harm; the preview never has more than ten lines; and one entry without
    separator among the last ten makes the preview the single error
    line. *)
Theorem log_preview_of_logged (logged : list (datetime * string)) (buffer : list string) :
  _get_log_preview (List.map (fun e => log_entry (fst e) (snd e)) logged)
  = List.map (fun e => Ansi.strip (snd e)) (last_n 10 logged) /\
  (length (_get_log_preview buffer) <= 10)%nat /\
  ((exists entry, entry ∈ last_n 10 buffer /\ after_first " - " entry = None) ->
   _get_log_preview buffer = ["Log preview error: list index out of range"]).
Proof.
  split; [|split].
  - unfold _get_log_preview. rewrite last_n_map.
    rewrite (mapM_map_Some _ _ (fun e => Ansi.strip (snd e))); [reflexivity|].
    intros [t msg]. unfold log_entry. cbn [fst snd].
    rewrite after_first_stamp by apply log_timestamp_no_space. reflexivity.
  - unfold _get_log_preview.
    destruct (mapM _ (last_n 10 buffer)) as [preview|] eqn:E; [|simpl; lia].
    apply length_mapM in E. rewrite <- E. apply last_n_length.
  - intros (entry & Hin & Hnone). unfold _get_log_preview.
    rewrite (mapM_None_2 _ (last_n 10 buffer)); [reflexivity|].
    apply Exists_exists. exists entry. split; [exact Hin|].
    now rewrite Hnone.
Qed.

(** ** The volume name *)

Lemma lstrip_fixed s :
  match s with EmptyString => True | String c _ => PyStr.is_space c = false end ->
  PyStr.lstrip s = s.
Proof. destruct s as [|c s]; [reflexivity|]. simpl. now intros ->. Qed.

Lemma rstrip_head s :
  match PyStr.rstrip s with
  | EmptyString => True
  | String c _ => match s with String d _ => c = d | EmptyString => False end
  end.
Proof.
  destruct s as [|d s]; [exact I|]. simpl.
  destruct (PyStr.rstrip s); [destruct (PyStr.is_space d)|]; auto.
Qed.

Lemma rstrip_idempotent s : PyStr.rstrip (PyStr.rstrip s) = PyStr.rstrip s.
Proof.
  induction s as [|c s IH]; [reflexivity|]. simpl.
  destruct (PyStr.rstrip s) as [|d r] eqn:E.
  - destruct (PyStr.is_space c) eqn:Hc; [reflexivity|]. simpl. now rewrite Hc.
  - change (PyStr.rstrip (String c (String d r)))
      with (match PyStr.rstrip (String d r) with
            | EmptyString => if PyStr.is_space c then EmptyString else String c EmptyString
            | r' => String c r'
            end).
    now rewrite IH.
Qed.

Lemma lstrip_head s :
  match PyStr.lstrip s with
  | EmptyString => True
  | String c _ => PyStr.is_space c = false
  end.
Proof.
  induction s as [|c s IH]; [exact I|]. simpl.
  destruct (PyStr.is_space c) eqn:Hc; [exact IH|exact Hc].
Qed.

(** A stripped text has no whitespace left to strip. *)
Lemma strip_idempotent s : PyStr.strip (PyStr.strip s) = PyStr.strip s.
Proof.
  unfold PyStr.strip.
  rewrite (lstrip_fixed (PyStr.rstrip (PyStr.lstrip s))).
  - apply rstrip_idempotent.
  - pose proof (rstrip_head (PyStr.lstrip s)) as Hr.
    pose proof (lstrip_head s) as Hl.
    destruct (PyStr.rstrip (PyStr.lstrip s)) as [|c r]; [exact I|].
    destruct (PyStr.lstrip s) as [|d t]; [contradiction|]. now subst.
Qed.

Lemma strip_prefix_app pre s : TreeSummary.strip_prefix pre (pre +:+ s) = Some s.
Proof.
  induction pre as [|c pre IH]; [reflexivity|].
  rewrite app_cons. cbn [TreeSummary.strip_prefix].
  now rewrite Ascii.eqb_refl.
Qed.

Lemma contains_app sub a b : TreeSummary.contains sub (a +:+ sub +:+ b) = true.
Proof.
  induction a as [|c a IH].
  - rewrite app_empty. destruct (sub +:+ b) eqn:E;
      cbn [TreeSummary.contains]; rewrite <- ?E, strip_prefix_app; reflexivity.
  - rewrite app_cons. cbn [TreeSummary.contains].
    destruct (TreeSummary.strip_prefix sub _); [reflexivity|exact IH].
Qed.

Lemma after_first_colon pre rest :
  all_chars not_colon pre = true ->
  after_first ":" (pre +:+ "Volume Name:" +:+ rest) = Some rest.
Proof.
  induction pre as [|ch pre IH]; [intros _; reflexivity|].
  simpl all_chars. intros [Hc Hs]%andb_true_iff.
  rewrite app_cons.
  assert (TreeSummary.strip_prefix ":" (String ch (pre +:+ "Volume Name:" +:+ rest))
          = None) as Hp.
  { cbn [TreeSummary.strip_prefix].
    destruct (Ascii.eqb_spec ":" ch) as [<-|]; [discriminate Hc|reflexivity]. }
  cbn [after_first]. rewrite Hp. auto.
Qed.

Lemma volume_name_in_skip before lines :
  Forall (fun l => TreeSummary.contains "Volume Name:" l = false) before ->
  volume_name_in (before ++ lines) = volume_name_in lines.
Proof.
  induction 1 as [|l before Hl _ IH]; [reflexivity|].
  simpl. now rewrite Hl.
Qed.

Lemma volume_name_in_stripped lines :
  PyStr.strip (volume_name_in lines) = volume_name_in lines.
Proof.
  induction lines as [|l lines IH]; [reflexivity|]. simpl.
  destruct (TreeSummary.contains "Volume Name:" l); [|exact IH].
  destruct (after_first ":" l); [apply strip_idempotent|reflexivity].
Qed.

(** X14: [get_volume_name] gives what follows the first colon of the first
    line of [diskutil info] that mentions [Volume Name:], without the
    whitespace around it, colons inside the name included; a failing
    [diskutil] or an output without such a line gives [Unknown]; and the
    name returned never has whitespace at its ends. *)
Theorem volume_name_found info before pre rest after w :
  splitlines info = before ++ (pre +:+ "Volume Name:" +:+ rest) :: after ->
  Forall (fun l => TreeSummary.contains "Volume Name:" l = false) before ->
  all_chars not_colon pre = true ->
  get_volume_name (CmdOk info) w = (Returned (PyStr.strip rest), w) /\
  (forall msg, get_volume_name (CmdFailed msg) w = (Returned "Unknown", w)) /\
  (forall other,
     Forall (fun l => TreeSummary.contains "Volume Name:" l = false)
       (splitlines other) ->
     get_volume_name (CmdOk other) w = (Returned "Unknown", w)) /\
  (forall r name w', get_volume_name r w = (Returned name, w') ->
     PyStr.strip name = name /\ w' = w).
Proof.
  intros Hlines Hbefore Hpre. split; [|split; [|split]].
  - unfold get_volume_name, run_cmd. run_unfold. rewrite Hlines.
    rewrite (volume_name_in_skip _ _ Hbefore). simpl.
    rewrite (contains_app "Volume Name:" pre rest).
    now rewrite (after_first_colon pre rest Hpre).
  - reflexivity.
  - intros other Hnone. unfold get_volume_name, run_cmd. run_unfold.
    rewrite <- (app_nil_r (splitlines other)).
    now rewrite (volume_name_in_skip _ [] Hnone).
  - intros r name w'. unfold get_volume_name, run_cmd.
    destruct r; run_unfold; intros [= <- <-]; split; auto.
    apply volume_name_in_stripped.
Qed.

Lemma volume_name_found_witness :
  get_volume_name
    (CmdOk ("   Device Node:  /dev/disk2" +:+ newline +:+
            "   Volume Name:              MY:DISC  " +:+ newline))
    empty_world
  = (Returned "MY:DISC", empty_world).
Proof.
  exact (proj1 (volume_name_found
    ("   Device Node:  /dev/disk2" +:+ newline +:+
     "   Volume Name:              MY:DISC  " +:+ newline)
    ["   Device Node:  /dev/disk2"] "   " "              MY:DISC  " []
    empty_world eq_refl
    ltac:(repeat constructor) eq_refl)).
Defined.

(** ** Filesystem descriptors *)

Lemma pick_no_none fs keys : Forall (fun kv => snd kv <> PNone) (pick fs keys).
Proof.
  unfold pick. induction keys as [|[name key] keys IH]; [constructor|].
  cbn [flat_map]. apply Forall_app. split; [|exact IH].
  destruct (dict_get fs key) as [[]|]; repeat constructor; discriminate.
Qed.

Lemma py_eq_str_true v s : py_eq_str v s = true -> v = PStr s.
Proof.
  destruct v; try discriminate. simpl. intros H%String.eqb_eq. now subst.
Qed.

Lemma filesystem_info_descriptor fs v :
  filesystem_info fs = Some v -> fs_descriptor v.
Proof.
  destruct fs as [| | | | | |d]; try discriminate. unfold filesystem_info.
  set (k1 := pick d _). set (k2 := pick d _).
  assert (Forall (fun kv => snd kv <> PNone) k1) as H1 by apply pick_no_none.
  assert (Forall (fun kv => snd kv <> PNone) k2) as H2 by apply pick_no_none.
  clearbody k1 k2. intros [= <-]. eexists _, _. split; [reflexivity|]. split.
  - destruct (py_eq_str _ "ISO 9660"); [exact H1|].
    destruct (py_eq_str _ "UDF"); [exact H2|constructor].
  - intros N1 N2.
    destruct (py_eq_str _ "ISO 9660") eqn:E1;
      [apply py_eq_str_true in E1; contradiction|].
    destruct (py_eq_str _ "UDF") eqn:E2;
      [apply py_eq_str_true in E2; contradiction|reflexivity].
Qed.

(** X15: [_extract_filesystem_info] gives one descriptor for each
    filesystem of the analysis, in order; each descriptor has a type and
    details, the details hold no [None] value and are empty for a type that
    is neither ISO 9660 nor UDF; it raises exactly when an element of the
    list is not a dictionary; and an analysis without filesystems gives the
    empty list. *)
Theorem filesystem_info_shape iso_analysis fss :
  dict_get iso_analysis "filesystems" = Some (PList fss) ->
  (forall l, _extract_filesystem_info iso_analysis = Some l ->
     length l = length fss /\ Forall fs_descriptor l /\
     Forall2 (fun fs v => exists d, fs = PDict d /\
                py_path v ["type"] = Some (dict_get_default d "type" PNone)) fss l) /\
  (_extract_filesystem_info iso_analysis = None <->
   Exists (fun fs => is_dict fs = false) fss) /\
  (forall other, dict_get other "filesystems" = None ->
     _extract_filesystem_info other = Some []).
Proof.
  intros Hget. unfold _extract_filesystem_info, dict_get_default.
  rewrite Hget. split; [|split].
  - intros l Hl. split; [symmetry; eapply length_mapM, Hl|].
    apply mapM_Some_1 in Hl. clear Hget. split.
    + induction Hl as [|fs v fss l Hv _ IH]; constructor;
        [eapply filesystem_info_descriptor, Hv|exact IH].
    + induction Hl as [|fs v fss l Hv _ IH]; constructor; [|exact IH].
      destruct fs as [| | | | | |d]; try discriminate.
      exists d. split; [reflexivity|]. injection Hv as <-. reflexivity.
  - rewrite mapM_None. split; intros H; eapply Exists_impl; try exact H;
      intros [| | | | | |d]; simpl; congruence.
  - intros other ->. reflexivity.
Qed.

Lemma filesystem_info_shape_witness :
  _extract_filesystem_info
    [("filesystems",
      PList [PDict [("type", PStr "ISO 9660"); ("volume_identifier", PStr "DISC");
                    ("publisher", PNone)];
             PDict [("type", PStr "HFS")]])]
  = Some [PDict [("type", PStr "ISO 9660");
                 ("details", PDict [("volume_identifier", PStr "DISC")])];
          PDict [("type", PStr "HFS"); ("details", PDict [])]] /\
  length [PDict [("type", PStr "ISO 9660");
                 ("details", PDict [("volume_identifier", PStr "DISC")])];
          PDict [("type", PStr "HFS"); ("details", PDict [])]] = 2%nat.
Proof.
  split; [reflexivity|].
  exact (proj1 (proj1 (filesystem_info_shape
    [("filesystems",
      PList [PDict [("type", PStr "ISO 9660"); ("volume_identifier", PStr "DISC");
                    ("publisher", PNone)];
             PDict [("type", PStr "HFS")]])] _ eq_refl) _ eq_refl)).
Defined.

(** ** Progress at the end of the copy *)

(** X16: once the bytes written reach or pass the declared size, nothing
    remains and the remaining time shown is 0:00:00, whatever the speed:
    an image larger than the size [diskutil] declared never makes the
    estimate negative. *)
Theorem progress_at_completion current total elapsed pv :
  total <= current ->
  progress_compute current total elapsed = Some pv ->
  pv_remaining pv = 0 /\
  Num.to_int (pv_eta pv) = Some 0 /\
  (Num.to_int (pv_eta pv) ≫= timedelta_str) = Some "0:00:00".
Proof.
  intros Hdone. unfold progress_compute.
  rewrite (Z.max_l 0 (total - current)) by lia.
  destruct (if PyFloat.ltb PyFloat.zero elapsed then _ else _)
    as [speed|]; cbn [mbind option_bind]; [|discriminate].
  destruct (if Num.gt0 speed then _ else _) as [eta|] eqn:Ee;
    cbn [mbind option_bind]; [|discriminate].
  destruct (Num.truediv (NInt current) (NInt _)) as [mbc|];
    cbn [mbind option_bind]; [|discriminate].
  destruct (Num.truediv (NInt total) (NInt _)) as [mbt|];
    cbn [mbind option_bind]; [|discriminate].
  destruct (Num.truediv speed (NInt _)) as [smb|];
    cbn [mbind option_bind]; [|discriminate].
  intros [= <-]. cbn [pv_remaining pv_eta].
  assert (Num.to_int eta = Some 0) as Hz.
  { destruct (Num.gt0 speed) eqn:Hs; cbv beta iota in Ee;
      [|injection Ee as <-; reflexivity].
    destruct speed as [z|f].
    - unfold Num.truediv, Num.int_truediv in Ee.
      destruct (z =? 0); [discriminate|].
      change (0 =? 0) with true in Ee. cbv beta iota in Ee.
      injection Ee as <-. destruct (z <? 0); reflexivity.
    - simpl in Hs, Ee.
      destruct (ltb_zero_cases f Hs) as [->|(m & e & ->)];
        simpl in Ee; injection Ee as <-; reflexivity. }
  split; [reflexivity|]. split; [exact Hz|]. rewrite Hz. reflexivity.
Qed.

Lemma progress_at_completion_witness :
  exists pv,
    progress_compute (800 * 1024 * 1024) (700 * 1024 * 1024)
      (PyFloat.of_decimal 95 0) = Some pv /\
    Num.to_int (pv_eta pv) = Some 0.
Proof.
  assert (exists pv,
             progress_compute (800 * 1024 * 1024) (700 * 1024 * 1024)
               (PyFloat.of_decimal 95 0) = Some pv) as [pv Hpv]
    by (vm_compute; eexists; reflexivity).
  exists pv. split; [exact Hpv|].
  exact (proj1 (proj2 (progress_at_completion (800 * 1024 * 1024)
                         (700 * 1024 * 1024) (PyFloat.of_decimal 95 0) pv
                         ltac:(lia) Hpv))).
Defined.

(** ** The tree summary *)

(** *** Decimal numerals *)

Lemma uint_digits u : all_chars TreeSummary.is_digit (NilEmpty.string_of_uint u) = true.
Proof. induction u; simpl; auto. Qed.

Lemma int_of_digits_acc u a :
  TreeSummary.int_of_digits (Zpos a) (NilEmpty.string_of_uint u)
  = Zpos (Pos.of_uint_acc u a).
Proof.
  revert a. induction u; intros a; cbn [NilEmpty.string_of_uint Pos.of_uint_acc];
    [reflexivity|..];
    cbn [TreeSummary.int_of_digits];
    match goal with
    | |- TreeSummary.int_of_digits ?x _ = Zpos (Pos.of_uint_acc _ ?y) =>
        replace x with (Zpos y) by (vm_compute N_of_ascii; lia)
    end; apply IHu.
Qed.

Lemma int_of_digits_uint u :
  TreeSummary.int_of_digits 0 (NilEmpty.string_of_uint u) = Z.of_N (Pos.of_uint u).
Proof.
  induction u; cbn [NilEmpty.string_of_uint Pos.of_uint]; [reflexivity|..];
    cbn [TreeSummary.int_of_digits];
    first [exact IHu | apply int_of_digits_acc].
Qed.

Lemma str_of_Z_uint z :
  0 <= z ->
  exists u, u <> Nil /\ str_of_Z z = NilEmpty.string_of_uint u /\
            Z.of_N (Pos.of_uint u) = z.
Proof.
  intros Hz. destruct z as [|p|p]; [| |lia].
  - exists (D0 Nil). repeat split; discriminate || reflexivity.
  - exists (Pos.to_uint p).
    pose proof (DecimalPos.Unsigned.to_uint_nonnil p) as Hn.
    split; [exact Hn|]. split.
    + unfold str_of_Z, Z.to_int, NilZero.string_of_int, NilZero.string_of_uint.
      destruct (Pos.to_uint p); [contradiction|..]; reflexivity.
    + now rewrite DecimalPos.Unsigned.of_to.
Qed.

(** A non-negative integer written in decimal is a non-empty run of digits
    that reads back as the integer. *)
Lemma str_of_Z_digits z :
  0 <= z ->
  all_chars TreeSummary.is_digit (str_of_Z z) = true /\
  str_of_Z z <> "" /\
  TreeSummary.int_of_digits 0 (str_of_Z z) = z.
Proof.
  intros Hz. destruct (str_of_Z_uint z Hz) as (u & Hu & -> & Hval).
  split; [apply uint_digits|]. split.
  - destruct u; [contradiction|..]; discriminate.
  - now rewrite int_of_digits_uint.
Qed.

(** *** Numerals *)

Lemma digit_not_blank c : TreeSummary.is_digit c = true -> PyNum.is_blank c = false.
Proof.
  unfold TreeSummary.is_digit, PyNum.is_blank. cbv zeta.
  set (n := N_of_ascii c). clearbody n.
  rewrite andb_true_iff, !N.leb_le. intros [H1 H2].
  repeat (apply orb_false_intro);
    rewrite ?andb_false_iff, ?N.leb_gt, ?N.eqb_neq; lia.
Qed.

Lemma rskip_fixed s :
  all_chars (fun c => negb (PyNum.is_blank c)) s = true -> PyNum.rskip s = s.
Proof.
  induction s as [|c s IH]; [reflexivity|]. cbn [all_chars PyNum.rskip].
  intros [Hc Hs]%andb_true_iff. rewrite (IH Hs).
  destruct s; [|reflexivity]. apply negb_true_iff in Hc. now rewrite Hc.
Qed.

Lemma trim_fixed s :
  all_chars (fun c => negb (PyNum.is_blank c)) s = true -> PyNum.trim s = s.
Proof.
  intros H. unfold PyNum.trim.
  assert (PyNum.lskip s = s) as ->; [|now apply rskip_fixed].
  destruct s as [|c s]; [reflexivity|]. cbn [all_chars] in H.
  apply andb_true_iff in H as [Hc%negb_true_iff _]. cbn [PyNum.lskip].
  now rewrite Hc.
Qed.

Lemma all_chars_impl (p q : ascii -> bool) s :
  (forall c, p c = true -> q c = true) ->
  all_chars p s = true -> all_chars q s = true.
Proof.
  intros Hpq. induction s as [|c s IH]; [reflexivity|]. cbn [all_chars].
  intros [Hc Hs]%andb_true_iff. rewrite (Hpq c Hc), (IH Hs). reflexivity.
Qed.

Lemma digit_run_all ds after_digit :
  all_chars TreeSummary.is_digit ds = true ->
  PyNum.digit_run after_digit ds = Some (ds, "").
Proof.
  revert after_digit. induction ds as [|c ds IH]; intros b; [reflexivity|].
  cbn [all_chars PyNum.digit_run]. intros [Hc Hs]%andb_true_iff.
  rewrite Hc, (IH true Hs). reflexivity.
Qed.

(** [int] of a run of digits: the number, unless the run is too long. *)
Lemma int_of_digits_cases ds :
  all_chars TreeSummary.is_digit ds = true -> ds <> "" ->
  PyNum.int_ ds
  = if (PyNum.max_str_digits <? String.length ds)%nat
    then inl (PyNum.exceeds_error (String.length ds))
    else inr (TreeSummary.int_of_digits 0 ds).
Proof.
  intros Hd Hne.
  assert (all_chars (fun c => negb (PyNum.is_blank c)) ds = true) as Hb.
  { eapply all_chars_impl; [|exact Hd]. intros c Hc.
    now rewrite (digit_not_blank c Hc). }
  unfold PyNum.int_. rewrite (trim_fixed ds Hb).
  assert (PyNum.split_sign ds = (false, ds)) as ->.
  { destruct ds as [|c ds]; [reflexivity|]. cbn [all_chars] in Hd.
    apply andb_true_iff in Hd as [Hc _]. unfold PyNum.split_sign.
    destruct (Ascii.eqb_spec c "-") as [->|_]; [discriminate|].
    destruct (Ascii.eqb_spec c "+") as [->|_]; [discriminate|reflexivity]. }
  rewrite (digit_run_all ds false Hd).
  destruct (PyNum.max_str_digits <? String.length ds)%nat; [reflexivity|].
  destruct ds; [contradiction|reflexivity].
Qed.

Lemma int_of_numeral ds :
  all_chars TreeSummary.is_digit ds = true -> ds <> "" ->
  (String.length ds <= PyNum.max_str_digits)%nat ->
  PyNum.int_ ds = inr (TreeSummary.int_of_digits 0 ds) /\
  PyNum.int_ (String "-" ds) = inr (- TreeSummary.int_of_digits 0 ds).
Proof.
  intros Hd Hne Hlen.
  assert (all_chars (fun c => negb (PyNum.is_blank c)) ds = true) as Hb.
  { eapply all_chars_impl; [|exact Hd]. intros c Hc.
    now rewrite (digit_not_blank c Hc). }
  assert ((PyNum.max_str_digits <? String.length ds)%nat = false) as Hlim
    by (apply Nat.ltb_ge; exact Hlen).
  unfold PyNum.int_. split.
  - rewrite (trim_fixed ds Hb).
    assert (PyNum.split_sign ds = (false, ds)) as ->.
    { destruct ds as [|c ds]; [reflexivity|]. cbn [all_chars] in Hd.
      apply andb_true_iff in Hd as [Hc _]. unfold PyNum.split_sign.
      destruct (Ascii.eqb_spec c "-") as [->|_]; [discriminate|].
      destruct (Ascii.eqb_spec c "+") as [->|_]; [discriminate|reflexivity]. }
    rewrite (digit_run_all ds false Hd), Hlim.
    destruct ds; [contradiction|reflexivity].
  - rewrite (trim_fixed (String "-" ds)) by (cbn [all_chars]; rewrite Hb; reflexivity).
    cbn [PyNum.split_sign]. change (Ascii.eqb "-" "-") with true. cbv iota beta.
    rewrite (digit_run_all ds false Hd), Hlim.
    destruct ds; [contradiction|reflexivity].
Qed.

Lemma str_of_Z_neg p : str_of_Z (Zneg p) = String "-" (str_of_Z (Zpos p)).
Proof. reflexivity. Qed.

(** The decimal numeral of an integer reads back as the integer. *)
Lemma int_of_str z :
  (String.length (str_of_Z (Z.abs z)) <= PyNum.max_str_digits)%nat ->
  PyNum.int_ (str_of_Z z) = inr z.
Proof.
  intros Hlen.
  assert (0 <= Z.abs z) as Ha by lia.
  destruct (str_of_Z_digits _ Ha) as (Hd & Hne & Hv).
  destruct (int_of_numeral _ Hd Hne Hlen) as [Hp Hn].
  destruct z as [|p|p].
  - exact Hp.
  - change (Z.abs (Zpos p)) with (Zpos p) in *. rewrite Hp, Hv. reflexivity.
  - change (Z.abs (Zneg p)) with (Zpos p) in *.
    rewrite str_of_Z_neg, Hn, Hv. reflexivity.
Qed.

Lemma numeral_truthy z : PyStr.truthy (str_of_Z z) = true.
Proof.
  destruct z as [|p|p]; [reflexivity| |reflexivity].
  destruct (str_of_Z_digits (Zpos p) ltac:(lia)) as (_ & Hne & _).
  destruct (str_of_Z (Zpos p)); [contradiction|reflexivity].
Qed.

(** *** The pattern on a summary line *)

Lemma span_all p s : all_chars p s = true -> TreeSummary.span p s = (s, "").
Proof.
  induction s as [|c s IH]; [reflexivity|]. simpl.
  intros [Hc Hs]%andb_true_iff. now rewrite Hc, IH.
Qed.

(** A run of digits is taken whole when a character that is no digit
    follows. *)
Lemma span_digits ds c rest :
  all_chars TreeSummary.is_digit ds = true -> TreeSummary.is_digit c = false ->
  TreeSummary.span TreeSummary.is_digit (ds +:+ String c rest) = (ds, String c rest).
Proof.
  intros Hds Hc. rewrite span_app by exact Hc.
  now rewrite span_all.
Qed.

Lemma stripped_head size :
  size <> "" -> PyStr.strip size = size ->
  match size with
  | String c _ => PyStr.is_space c = false
  | EmptyString => False
  end /\ PyStr.rstrip size = size.
Proof.
  intros Hne Hs.
  assert (match size with String c _ => PyStr.is_space c = false
          | EmptyString => False end) as Hhead.
  { unfold PyStr.strip in Hs.
    pose proof (rstrip_head (PyStr.lstrip size)) as Hr.
    pose proof (lstrip_head size) as Hl. rewrite Hs in Hr.
    destruct size as [|c r]; [congruence|].
    destruct (PyStr.lstrip (String c r)) as [|d t]; [contradiction|]. now subst. }
  split; [exact Hhead|].
  unfold PyStr.strip in Hs. rewrite lstrip_fixed in Hs; [exact Hs|].
  destruct size; [contradiction|exact Hhead].
Qed.

Lemma rstrip_app a b :
  b <> "" -> PyStr.rstrip b = b -> PyStr.rstrip (a +:+ b) = a +:+ b.
Proof.
  intros Hne Hb. induction a as [|c a IH]; [exact Hb|].
  rewrite app_cons. cbn [PyStr.rstrip]. rewrite IH.
  destruct (a +:+ b) eqn:E; [|reflexivity].
  destruct a; [rewrite app_empty in E; congruence|discriminate].
Qed.

Lemma match_here_total d f size :
  0 <= d -> 0 <= f -> size <> "" -> PyStr.strip size = size ->
  TreeSummary.match_here
    (str_of_Z d +:+ " directories, " +:+ str_of_Z f +:+ " files, " +:+ size)
  = Some (str_of_Z d, str_of_Z f, size).
Proof.
  intros Hd Hf Hne Hs.
  destruct (str_of_Z_digits d Hd) as (Dd & Nd & _).
  destruct (str_of_Z_digits f Hf) as (Df & Nf & _).
  destruct (stripped_head size Hne Hs) as (Hhead & _).
  unfold TreeSummary.match_here.
  rewrite !app_cons, !app_empty.
  rewrite (span_digits (str_of_Z d) " " _ Dd eq_refl).
  destruct (str_of_Z d) as [|cd rd] eqn:Ed; [congruence|].
  cbn [TreeSummary.nonempty mbind option_bind].
  cbn [TreeSummary.span PyStr.is_space].
  change (PyStr.is_space " ") with true. change (PyStr.is_space "d") with false.
  cbv beta iota. cbn [TreeSummary.nonempty mbind option_bind].
  cbn [TreeSummary.strip_prefix]. rewrite !Ascii.eqb_refl.
  cbn [mbind option_bind].
  cbn [TreeSummary.span]. change (PyStr.is_space " ") with true.
  cbv beta iota.
  assert (TreeSummary.span PyStr.is_space (str_of_Z f +:+ String " " ("files, " +:+ size))
          = ("", str_of_Z f +:+ String " " ("files, " +:+ size))) as Hsp.
  { destruct (str_of_Z f) as [|cf rf] eqn:Ef; [congruence|].
    rewrite app_cons. cbn [TreeSummary.span].
    simpl in Df. apply andb_true_iff in Df as [Hcf _].
    assert (PyStr.is_space cf = false) as ->; [|reflexivity].
    revert Hcf. clear. destruct cf as [[] [] [] [] [] [] [] []]; vm_compute; congruence. }
  rewrite ?app_cons, ?app_empty in Hsp. rewrite Hsp.
  cbn [TreeSummary.nonempty mbind option_bind].
  rewrite (span_digits (str_of_Z f) " " _ Df eq_refl).
  destruct (str_of_Z f) as [|cf rf] eqn:Ef; [congruence|].
  cbn [TreeSummary.nonempty mbind option_bind].
  cbn [TreeSummary.span]. change (PyStr.is_space " ") with true.
  change (PyStr.is_space "f") with false.
  cbv beta iota. cbn [TreeSummary.nonempty mbind option_bind].
  cbn [TreeSummary.strip_prefix]. rewrite !Ascii.eqb_refl.
  cbn [mbind option_bind].
  cbn [TreeSummary.span]. change (PyStr.is_space " ") with true.
  cbv beta iota.
  destruct size as [|cs rs]; [contradiction|].
  cbn [TreeSummary.span]. rewrite Hhead.
  cbn [TreeSummary.nonempty mbind option_bind]. reflexivity.
Qed.

Lemma search_here s g :
  TreeSummary.match_here s = Some g -> TreeSummary.search s = Some g.
Proof. intros H. destruct s; cbn [TreeSummary.search]; now rewrite H. Qed.

Lemma search_skip c s :
  TreeSummary.is_digit c = false ->
  TreeSummary.search (String c s) = TreeSummary.search s.
Proof.
  intros Hc. cbn [TreeSummary.search]. unfold TreeSummary.match_here at 1.
  cbn [TreeSummary.span]. rewrite Hc. reflexivity.
Qed.

Lemma search_total d f size :
  0 <= d -> 0 <= f -> size <> "" -> PyStr.strip size = size ->
  TreeSummary.search (total_line d f size) = Some (str_of_Z d, str_of_Z f, size).
Proof.
  intros Hd Hf Hne Hs. unfold total_line.
  rewrite !app_cons, app_empty.
  rewrite !search_skip by reflexivity.
  apply search_here, match_here_total; assumption.
Qed.

Lemma strip_total d f size :
  size <> "" -> PyStr.strip size = size ->
  PyStr.strip (total_line d f size) = total_line d f size.
Proof.
  intros Hne Hs. destruct (stripped_head size Hne Hs) as (_ & Hr).
  unfold PyStr.strip, total_line.
  rewrite lstrip_fixed by (rewrite !app_cons; reflexivity).
  rewrite <- !str_app_assoc. now apply rstrip_app.
Qed.

Lemma scan_skip skipped rest :
  Forall (fun l => no_total l = true) skipped ->
  scan_listing (skipped ++ rest) = scan_listing rest.
Proof.
  induction 1 as [|l skipped Hl _ IH]; [reflexivity|].
  cbn [app scan_listing]. unfold no_total in Hl.
  apply negb_true_iff in Hl. now rewrite Hl.
Qed.

Lemma scan_reads_total head tail d f size :
  Forall (fun l => no_total l = true) tail ->
  0 <= d -> 0 <= f -> size <> "" -> PyStr.strip size = size ->
  (String.length (str_of_Z d) <= PyNum.max_str_digits)%nat ->
  (String.length (str_of_Z f) <= PyNum.max_str_digits)%nat ->
  scan_listing (rev (head ++ total_line d f size :: tail))
  = [("total_directories", PInt d); ("total_files", PInt f);
     ("reported_size", PStr size)].
Proof.
  intros Htail Hd Hf Hne Hs Ld Lf.
  rewrite rev_app_distr. cbn [rev]. rewrite <- app_assoc. cbn [app].
  rewrite scan_skip by (apply Forall_rev; exact Htail).
  cbn [scan_listing].
  rewrite (strip_total d f size Hne Hs).
  assert (String.prefix "Total" (total_line d f size) = true) as ->
    by (unfold total_line; rewrite !app_cons; reflexivity).
  assert (TreeSummary.contains "directories" (total_line d f size) = true) as ->.
  { assert (total_line d f size
            = ("Total " +:+ str_of_Z d +:+ " ") +:+ "directories" +:+
              (", " +:+ str_of_Z f +:+ " files, " +:+ size)) as ->
      by (unfold total_line; rewrite !str_app_assoc; reflexivity).
    apply contains_app. }
  cbn [andb]. rewrite (search_total d f size Hd Hf Hne Hs).
  rewrite (int_of_str d), (int_of_str f)
    by (rewrite Z.abs_eq by assumption; assumption).
  reflexivity.
Qed.

(** A count too long for [int] turns the summary into the error of the
    conversion. *)
Lemma scan_long_count head tail d f size :
  Forall (fun l => no_total l = true) tail ->
  0 <= d -> 0 <= f -> size <> "" -> PyStr.strip size = size ->
  (PyNum.max_str_digits < String.length (str_of_Z d))%nat ->
  scan_listing (rev (head ++ total_line d f size :: tail))
  = [("error", PStr (PyNum.exceeds_error (String.length (str_of_Z d))))].
Proof.
  intros Htail Hd Hf Hne Hs Ld.
  rewrite rev_app_distr. cbn [rev]. rewrite <- app_assoc. cbn [app].
  rewrite scan_skip by (apply Forall_rev; exact Htail).
  cbn [scan_listing].
  rewrite (strip_total d f size Hne Hs).
  assert (String.prefix "Total" (total_line d f size) = true) as ->
    by (unfold total_line; rewrite !app_cons; reflexivity).
  assert (TreeSummary.contains "directories" (total_line d f size) = true) as ->.
  { assert (total_line d f size
            = ("Total " +:+ str_of_Z d +:+ " ") +:+ "directories" +:+
              (", " +:+ str_of_Z f +:+ " files, " +:+ size)) as ->
      by (unfold total_line; rewrite !str_app_assoc; reflexivity).
    apply contains_app. }
  cbn [andb]. rewrite (search_total d f size Hd Hf Hne Hs).
  destruct (str_of_Z_digits d Hd) as (Hdig & Hnn & _).
  rewrite (int_of_digits_cases _ Hdig Hnn).
  apply Nat.ltb_lt in Ld. rewrite Ld. reflexivity.
Qed.

(** X17: the summary of a tree listing in ASCII whose last summary line
    reads [Total <d> directories, <f> files, <size>] is exactly the
    directory count [d], the file count [f] and the size text, whatever
    lines come before it: the numbers written in decimal, with no more
    digits than [int] converts, are read back unchanged. *)
Theorem tree_summary_reads_total c w data head tail d f size :
  files w !! tree_path c = Some data ->
  all_chars is_ascii (decode_text data) = true ->
  TreeSummary.lines (decode_text data) = head ++ total_line d f size :: tail ->
  Forall (fun l => no_total l = true) tail ->
  0 <= d -> 0 <= f -> size <> "" -> PyStr.strip size = size ->
  (String.length (str_of_Z d) <= PyNum.max_str_digits)%nat ->
  (String.length (str_of_Z f) <= PyNum.max_str_digits)%nat ->
  _extract_tree_summary c w
  = [("total_directories", PInt d); ("total_files", PInt f);
     ("reported_size", PStr size)].
Proof.
  intros Hfile _ Hlines Htail Hd Hf Hne Hs Ld Lf.
  unfold _extract_tree_summary. rewrite Hfile, Hlines.
  apply scan_reads_total; assumption.
Qed.

Lemma tree_summary_reads_total_witness :
  _extract_tree_summary sample_config sample_world
  = [("total_directories", PInt 1); ("total_files", PInt 2);
     ("reported_size", PStr "5 bytes")].
Proof.
  refine (tree_summary_reads_total sample_config sample_world
            (encode_text ("." +:+ newline +:+
                          "Total 1 directories, 2 files, 5 bytes" +:+ newline))
            ["."] [] 1 2 "5 bytes" _ _ eq_refl _ _ _ _ eq_refl _ _).
  - vm_compute. reflexivity.
  - vm_compute. reflexivity.
  - constructor.
  - lia.
  - lia.
  - discriminate.
  - apply Nat.leb_le. vm_compute. reflexivity.
  - apply Nat.leb_le. vm_compute. reflexivity.
Defined.

(** *** The shape of a summary *)

Lemma span_fst_all p s : all_chars p (fst (TreeSummary.span p s)) = true.
Proof.
  induction s as [|c s IH]; [reflexivity|]. simpl.
  destruct (p c) eqn:Hc; [|reflexivity].
  destruct (TreeSummary.span p s) as [a b]. simpl in *. now rewrite Hc.
Qed.

Lemma int_of_digits_nonneg ds acc :
  all_chars TreeSummary.is_digit ds = true -> 0 <= acc ->
  0 <= TreeSummary.int_of_digits acc ds.
Proof.
  revert acc. induction ds as [|c ds IH]; intros acc Hd Hacc; [exact Hacc|].
  simpl in Hd. apply andb_true_iff in Hd as [Hc Hd].
  cbn [TreeSummary.int_of_digits]. apply IH; [exact Hd|].
  unfold TreeSummary.is_digit in Hc.
  apply andb_true_iff in Hc as [Hlo _]. apply N.leb_le in Hlo. lia.
Qed.

Lemma last_char_not_empty s : s <> "" -> TreeSummary.last_char s <> "".
Proof.
  induction s as [|c s IH]; [congruence|]. intros _.
  cbn [TreeSummary.last_char]. destruct s; [discriminate|].
  apply IH. discriminate.
Qed.

Lemma match_here_groups s d1 d2 size :
  TreeSummary.match_here s = Some (d1, d2, size) ->
  (all_chars TreeSummary.is_digit d1 = true /\ d1 <> "") /\
  (all_chars TreeSummary.is_digit d2 = true /\ d2 <> "") /\ size <> "".
Proof.
  unfold TreeSummary.match_here.
  pose proof (span_fst_all TreeSummary.is_digit s) as H1.
  destruct (TreeSummary.span TreeSummary.is_digit s) as [g1 r1]. cbn [fst] in H1.
  destruct (TreeSummary.nonempty g1) eqn:N1; cbn [mbind option_bind]; [|discriminate].
  assert (g1 <> "") as G1 by (intros ->; discriminate N1).
  destruct (TreeSummary.span PyStr.is_space r1) as [sp1 r2].
  destruct (TreeSummary.nonempty sp1); cbn [mbind option_bind]; [|discriminate].
  destruct (TreeSummary.strip_prefix "directories," r2) as [r3|];
    cbn [mbind option_bind]; [|discriminate].
  destruct (TreeSummary.span PyStr.is_space r3) as [sp2 r4].
  destruct (TreeSummary.nonempty sp2); cbn [mbind option_bind]; [|discriminate].
  pose proof (span_fst_all TreeSummary.is_digit r4) as H2.
  destruct (TreeSummary.span TreeSummary.is_digit r4) as [g2 r5]. cbn [fst] in H2.
  destruct (TreeSummary.nonempty g2) eqn:N2; cbn [mbind option_bind]; [|discriminate].
  assert (g2 <> "") as G2 by (intros ->; discriminate N2).
  destruct (TreeSummary.span PyStr.is_space r5) as [sp3 r6].
  destruct (TreeSummary.nonempty sp3); cbn [mbind option_bind]; [|discriminate].
  destruct (TreeSummary.strip_prefix "files," r6) as [r7|];
    cbn [mbind option_bind]; [|discriminate].
  destruct (TreeSummary.span PyStr.is_space r7) as [sp4 r8].
  destruct (TreeSummary.nonempty sp4); cbn [mbind option_bind]; [|discriminate].
  destruct r8 as [|c8 r8].
  - destruct sp4 as [|a [|b sp4]]; try discriminate.
    intros [= <- <- <-]. split; [split; assumption|]. split; [split; assumption|].
    exact (last_char_not_empty (String a (String b sp4)) ltac:(discriminate)).
  - intros [= <- <- <-]. split; [split; assumption|]. split; [split; assumption|].
    discriminate.
Qed.

Lemma search_groups s d1 d2 size :
  TreeSummary.search s = Some (d1, d2, size) ->
  (all_chars TreeSummary.is_digit d1 = true /\ d1 <> "") /\
  (all_chars TreeSummary.is_digit d2 = true /\ d2 <> "") /\ size <> "".
Proof.
  induction s as [|c s IH]; cbn [TreeSummary.search];
    destruct (TreeSummary.match_here _) as [[[g1 g2] g3]|] eqn:E;
    try discriminate;
    try (intros [= <- <- <-]; eapply match_here_groups, E).
  exact IH.
Qed.

(** X18: the summary of a tree listing in ASCII has one of three shapes
    and no other: a single [error], the empty dictionary, or a directory
    count and a file count that are not negative together with a non-empty
    size text.  A missing listing gives the error, and so does a summary
    line whose directory count has more digits than [int] converts. *)
Theorem tree_summary_shape c w :
  ascii_listing c w = true ->
  let summary := _extract_tree_summary c w in
  ((exists msg, summary = [("error", PStr msg)]) \/
   summary = [] \/
   exists d f size,
     0 <= d /\ 0 <= f /\ size <> "" /\
     summary = [("total_directories", PInt d); ("total_files", PInt f);
                ("reported_size", PStr size)]) /\
  (files w !! tree_path c = None ->
   summary = [("error", PStr ("[Errno 2] No such file or directory: "
                              +:+ PyNum.repr (tree_path c)))]) /\
  (forall data head tail d f size,
     files w !! tree_path c = Some data ->
     TreeSummary.lines (decode_text data) = head ++ total_line d f size :: tail ->
     Forall (fun l => no_total l = true) tail ->
     0 <= d -> 0 <= f -> size <> "" -> PyStr.strip size = size ->
     (PyNum.max_str_digits < String.length (str_of_Z d))%nat ->
     summary
     = [("error", PStr (PyNum.exceeds_error (String.length (str_of_Z d))))]).
Proof.
  intros _. cbv zeta. unfold _extract_tree_summary. split; [|split].
  - destruct (files w !! tree_path c) as [data|];
      [|left; eexists; reflexivity].
    induction (rev (TreeSummary.lines (decode_text data))) as [|line rest IH];
      [right; left; reflexivity|].
    cbn [scan_listing].
    destruct (String.prefix "Total" (PyStr.strip line)
              && TreeSummary.contains "directories" line); [|exact IH].
    destruct (TreeSummary.search (PyStr.strip line)) as [[[d1 d2] size]|] eqn:E;
      [|right; left; reflexivity].
    destruct (search_groups _ _ _ _ E) as ((H1 & N1) & (H2 & N2) & H3).
    rewrite (int_of_digits_cases d1 H1 N1), (int_of_digits_cases d2 H2 N2).
    destruct (PyNum.max_str_digits <? String.length d1)%nat.
    { left. eexists; reflexivity. }
    destruct (PyNum.max_str_digits <? String.length d2)%nat.
    { left. eexists; reflexivity. }
    right; right. exists (TreeSummary.int_of_digits 0 d1), (TreeSummary.int_of_digits 0 d2), size.
    split; [apply int_of_digits_nonneg; [assumption|lia]|].
    split; [apply int_of_digits_nonneg; [assumption|lia]|].
    split; [exact H3|reflexivity].
  - intros ->. reflexivity.
  - intros data head tail d f size -> Hl Ht Hd Hf Hne Hs Ld. rewrite Hl.
    apply scan_long_count; assumption.
Qed.

Lemma tree_summary_shape_witness :
  ascii_listing sample_config sample_world = true /\
  ((exists msg,
      _extract_tree_summary sample_config sample_world = [("error", PStr msg)]) \/
   _extract_tree_summary sample_config sample_world = [] \/
   exists d f size,
     0 <= d /\ 0 <= f /\ size <> "" /\
     _extract_tree_summary sample_config sample_world
     = [("total_directories", PInt d); ("total_files", PInt f);
        ("reported_size", PStr size)]) /\
  _extract_tree_summary sample_config empty_world
  = [("error", PStr "[Errno 2] No such file or directory: '/out/disc1/disc1_tree.txt'")].
Proof.
  assert (ascii_listing sample_config sample_world = true) as Hascii
    by (vm_compute; reflexivity).
  split; [exact Hascii|]. split.
  - exact (proj1 (tree_summary_shape sample_config sample_world Hascii)).
  - exact (proj1 (proj2 (tree_summary_shape sample_config empty_world eq_refl))
             eq_refl).
Defined.

(** ** The isolyzer report *)

Lemma filesystem_of_type fs d :
  filesystem_of fs = inr d -> exists rest, d = ("type", element_type fs) :: rest.
Proof.
  unfold filesystem_of.
  destruct (py_eq_str _ "ISO 9660").
  - destruct (xml_find fs _); [|intros [= <-]; eexists; reflexivity].
    destruct (int_or_raise _); [discriminate|].
    destruct (int_or_raise _); [discriminate|].
    intros [= <-]; eexists; reflexivity.
  - destruct (py_eq_str _ "UDF"); [|intros [= <-]; eexists; reflexivity].
    destruct (xml_find fs _); [|intros [= <-]; eexists; reflexivity].
    destruct (int_or_raise _); [discriminate|].
    intros [= <-]; eexists; reflexivity.
Qed.

Lemma filesystems_of_types elements fss :
  filesystems_of elements = inr fss ->
  Forall2 (fun fs v => exists rest, v = PDict (("type", element_type fs) :: rest))
    elements fss.
Proof.
  revert fss. induction elements as [|fs elements IH]; intros fss.
  - intros [= <-]. constructor.
  - cbn [filesystems_of]. destruct (filesystem_of fs) as [|d] eqn:Hd; [discriminate|].
    destruct (filesystems_of elements) as [|ds]; [discriminate|].
    intros [= <-]. constructor; [|apply IH; reflexivity].
    destruct (filesystem_of_type _ _ Hd) as (rest & ->). eexists; reflexivity.
Qed.

Lemma any_type_elements name elements fss :
  filesystems_of elements = inr fss ->
  any_type name fss = existsb (fun fs => py_eq_str (element_type fs) name) elements.
Proof.
  intros H%filesystems_of_types.
  induction H as [|fs v elements fss (rest & ->) _ IH]; [reflexivity|].
  cbn [any_type existsb] in *. rewrite <- IH. reflexivity.
Qed.

Lemma extract_of_parsed elements fss :
  filesystems_of elements = inr fss ->
  exists descriptors,
    mapM filesystem_info fss = Some descriptors /\
    Forall fs_descriptor descriptors /\
    map type_of descriptors = map element_type elements.
Proof.
  intros H%filesystems_of_types.
  induction H as [|fs v elements fss (rest & ->) _ (ds & Hds & Hf & Ht)].
  - exists []. repeat split; constructor.
  - destruct (filesystem_info (PDict (("type", element_type fs) :: rest)))
      as [v|] eqn:Hv; [|discriminate].
    exists (v :: ds). split; [|split].
    + cbn [mapM]. rewrite Hv, Hds. reflexivity.
    + constructor; [eapply filesystem_info_descriptor, Hv|exact Hf].
    + cbn [map]. rewrite Ht. f_equal. injection Hv as <-. reflexivity.
Qed.

Lemma parse_cases document :
  let report := _parse_isolyzer_xml document in
  (exists image file_info filesystems,
      parsed document image file_info filesystems /\
      map fst report = report_keys /\
      dict_get report "filesystems" = Some (PList filesystems) /\
      dict_get report "file_info" = Some (PDict file_info) /\
      dict_get report "tests" = Some (PDict (tests_of image))) \/
  ((forall image file_info filesystems,
      ~ parsed document image file_info filesystems) /\
   exists msg,
     report = [("error", PStr msg)] \/
     report = [("error", PStr msg); ("error_type", PStr "xml_parse_error")] \/
     report = [("error", PStr msg); ("error_type", PStr "unknown_error")]).
Proof.
  unfold parsed. destruct document as [msg|msg|root]; cbn [_parse_isolyzer_xml].
  - right. split; [intros ? ? ? (? & [=] & _)|]. eexists; right; left; reflexivity.
  - right. split; [intros ? ? ? (? & [=] & _)|]. eexists; right; right; reflexivity.
  - destruct (xml_find root "image") as [image|] eqn:Hi.
    2:{ right. split; [intros ? ? ? (? & [= <-] & ? & _); congruence|].
        eexists; left; reflexivity. }
    destruct (file_info_of image) as [exn|file_info] eqn:Hf.
    { right. split; [intros ? ? ? (? & [= <-] & ? & ? & _); congruence|].
      eexists; right; right; reflexivity. }
    destruct (filesystems_of _) as [exn|filesystems] eqn:Hs.
    { right. split; [intros ? ? ? (? & [= <-] & ? & ? & ?); congruence|].
      eexists; right; right; reflexivity. }
    left. exists image, file_info, filesystems.
    split; [exists root; auto|]. repeat split; reflexivity.
Qed.

(** X19: whatever the document, the result of [_parse_isolyzer_xml] is
    either an analysis, a dictionary with the fifteen keys of the report
    and no [error], or an error record without [filesystems]: [error]
    alone, or [error] with an [error_type] that is [xml_parse_error] or
    [unknown_error].  A document without [image] element gives the record
    without [error_type]. *)
Theorem report_is_analysis_or_error document :
  let report := _parse_isolyzer_xml document in
  ((dict_has report "error" = false /\ map fst report = report_keys) \/
   (dict_has report "error" = true /\ dict_has report "filesystems" = false /\
    (map fst report = ["error"] \/
     map fst report = ["error"; "error_type"] /\
     (dict_get report "error_type" = Some (PStr "xml_parse_error") \/
      dict_get report "error_type" = Some (PStr "unknown_error"))))) /\
  (forall root, document = XmlRoot root -> xml_find root "image" = None ->
     report = [("error", PStr "No image element found in XML")]) /\
  (forall msg, document = XmlError msg ->
     dict_get report "error_type" = Some (PStr "xml_parse_error")).
Proof.
  cbv zeta. split; [|split].
  - destruct (parse_cases document)
      as [(image & fi & fss & _ & Hk & Hs & _)|(_ & msg & [->|[->| ->]])].
    + left. split; [|exact Hk]. unfold dict_has.
      destruct (_parse_isolyzer_xml document) as [|[k v] r]; [reflexivity|].
      revert Hk. unfold report_keys. cbn [map fst].
      intros [= -> Hk]. repeat (destruct r as [|[? ?] r]; [discriminate|];
                               cbn [map fst] in Hk; injection Hk as -> Hk).
      destruct r; [reflexivity|discriminate].
    + right. repeat split. left; reflexivity.
    + right. repeat split. right. split; [reflexivity|left; reflexivity].
    + right. repeat split. right. split; [reflexivity|right; reflexivity].
  - intros root -> Hi. cbn [_parse_isolyzer_xml]. rewrite Hi. reflexivity.
  - intros msg ->. reflexivity.
Qed.

(** X20: [_extract_filesystem_info] never fails on what
    [_parse_isolyzer_xml] returns.  For an analysis it gives one descriptor
    for each [fileSystem] element of the image, in document order, with the
    [TYPE] attribute of the element as its type ([None] without the
    attribute); for an error record it gives the empty list. *)
Theorem parsed_filesystems_reach_manifest document :
  let report := _parse_isolyzer_xml document in
  exists descriptors,
    _extract_filesystem_info report = Some descriptors /\
    Forall fs_descriptor descriptors /\
    (dict_has report "error" = true -> descriptors = []) /\
    (forall image, image_of document = Some image ->
       dict_has report "error" = false ->
       map type_of descriptors
       = map element_type (xml_findall2 image "fileSystems" "fileSystem")).
Proof.
  cbv zeta.
  destruct (parse_cases document)
    as [(image & fi & fss & (root & -> & Hi & Hf & Hs) & Hk & Hg & _)
       |(_ & msg & H)].
  - destruct (extract_of_parsed _ _ Hs) as (ds & Hds & Hfd & Ht).
    exists ds. split; [|split; [exact Hfd|split]].
    + unfold _extract_filesystem_info, dict_get_default. rewrite Hg. exact Hds.
    + cbn [_parse_isolyzer_xml]. rewrite Hi, Hf, Hs. discriminate.
    + intros image'. cbn [image_of]. rewrite Hi. intros [= <-] _. exact Ht.
  - exists []. split; [|split; [constructor|split; [reflexivity|]]].
    + destruct H as [->|[->| ->]]; reflexivity.
    + intros image _. destruct H as [->|[->| ->]]; discriminate.
Qed.

(** X21: in an analysis, [valid_iso9660] is true exactly when some
    [fileSystem] element of the image has the [TYPE] "ISO 9660", and
    [has_udf] exactly when one has the [TYPE] "UDF". *)
Theorem report_flags_follow_types document image file_info filesystems :
  parsed document image file_info filesystems ->
  let report := _parse_isolyzer_xml document in
  let elements := xml_findall2 image "fileSystems" "fileSystem" in
  dict_get report "valid_iso9660"
  = Some (PBool (existsb (fun fs => py_eq_str (element_type fs) "ISO 9660") elements)) /\
  dict_get report "has_udf"
  = Some (PBool (existsb (fun fs => py_eq_str (element_type fs) "UDF") elements)) /\
  (elements = [] ->
   dict_get report "valid_iso9660" = Some (PBool false) /\
   dict_get report "has_udf" = Some (PBool false) /\
   dict_get report "filesystems" = Some (PList [])).
Proof.
  intros (root & -> & Hi & Hf & Hs). cbv zeta. cbn [_parse_isolyzer_xml].
  rewrite Hi, Hf, Hs.
  rewrite <- !(any_type_elements _ _ _ Hs).
  split; [reflexivity|]. split; [reflexivity|].
  intros He. rewrite He in Hs. injection Hs as <-. repeat split.
Qed.

Lemma sample_report_parsed :
  parsed (XmlRoot sample_report) sample_image sample_file_info sample_filesystems.
Proof.
  exists sample_report. split; [reflexivity|]. split; [reflexivity|].
  split; vm_compute; reflexivity.
Qed.

Lemma report_flags_follow_types_witness :
  dict_get (_parse_isolyzer_xml (XmlRoot sample_report)) "valid_iso9660"
  = Some (PBool true) /\
  dict_get (_parse_isolyzer_xml (XmlRoot sample_report)) "has_udf"
  = Some (PBool true).
Proof.
  pose proof (report_flags_follow_types (XmlRoot sample_report) sample_image
                sample_file_info sample_filesystems sample_report_parsed)
    as (H1 & H2 & _).
  split; [exact H1|exact H2].
Defined.

(** X22: in an analysis of an image with a [tests] element,
    [size_as_expected] tells whether the text of [sizeAsExpected] is
    [True], and there is a warning, naming the size difference, exactly when
    it is not.  Without a [tests] element [size_as_expected] is false, yet
    there is no warning; the sizes are 0 and [contains_known_filesystem] is
    true. *)
Theorem warning_follows_size_test document image file_info filesystems :
  parsed document image file_info filesystems ->
  let report := _parse_isolyzer_xml document in
  match xml_find image "tests" with
  | Some tests =>
      let as_expected := String.eqb (_get_xml_text tests "sizeAsExpected") "True" in
      let difference := int_or_zero (_get_xml_text tests "sizeDifference") in
      dict_get report "size_as_expected" = Some (PBool as_expected) /\
      dict_get report "size_difference_bytes" = Some (PInt difference) /\
      dict_get report "warnings"
      = Some (PList (if as_expected then []
                     else [PStr ("File size differs from expected by " +:+
                                 str_of_Z difference +:+ " bytes")]))
  | None =>
      dict_get report "size_as_expected" = Some (PBool false) /\
      dict_get report "warnings" = Some (PList []) /\
      dict_get report "contains_known_filesystem" = Some (PBool true) /\
      dict_get report "size_expected" = Some (PInt 0) /\
      dict_get report "size_actual" = Some (PInt 0) /\
      dict_get report "tests" = Some (PDict [])
  end.
Proof.
  intros (root & -> & Hi & Hf & Hs). cbv zeta. cbn [_parse_isolyzer_xml].
  rewrite Hi, Hf, Hs. unfold tests_of.
  destruct (xml_find image "tests") as [tests|]; [|repeat split].
  split; [reflexivity|]. split; [reflexivity|].
  unfold warnings_of, dict_get_default, is_True. cbn [dict_get String.eqb Ascii.eqb Bool.eqb].
  cbn [truthy]. destruct (String.eqb _ "True"); reflexivity.
Qed.

Lemma warning_follows_size_test_witness :
  dict_get (_parse_isolyzer_xml (XmlRoot sample_report)) "size_as_expected"
  = Some (PBool false) /\
  dict_get (_parse_isolyzer_xml (XmlRoot sample_report)) "warnings"
  = Some (PList [PStr "File size differs from expected by -2048 bytes"]).
Proof.
  pose proof (warning_follows_size_test (XmlRoot sample_report) sample_image
                sample_file_info sample_filesystems sample_report_parsed)
    as (H1 & _ & H3).
  split; [exact H1|exact H3].
Defined.

(** X23: a size of the [tests] element written as the decimal numeral of an
    integer, of at most 4300 digits, is read as that integer; a text that
    [int] refuses is read as 0 and the analysis goes on. *)
Theorem sizes_read_as_written document image file_info filesystems tests z :
  parsed document image file_info filesystems ->
  xml_find image "tests" = Some tests ->
  (String.length (str_of_Z (Z.abs z)) <= PyNum.max_str_digits)%nat ->
  let report := _parse_isolyzer_xml document in
  (_get_xml_text tests "sizeExpected" = str_of_Z z ->
   dict_get report "size_expected" = Some (PInt z)) /\
  (_get_xml_text tests "sizeActual" = str_of_Z z ->
   dict_get report "size_actual" = Some (PInt z)) /\
  (_get_xml_text tests "sizeDifference" = str_of_Z z ->
   dict_get report "size_difference_bytes" = Some (PInt z)) /\
  (forall exn, PyNum.int_ (_get_xml_text tests "sizeExpected") = inl exn ->
     dict_get report "size_expected" = Some (PInt 0)) /\
  (forall exn, PyNum.int_ (_get_xml_text tests "sizeActual") = inl exn ->
     dict_get report "size_actual" = Some (PInt 0)) /\
  (forall exn, PyNum.int_ (_get_xml_text tests "sizeDifference") = inl exn ->
     dict_get report "size_difference_bytes" = Some (PInt 0)).
Proof.
  intros (root & -> & Hi & Hf & Hs) Ht Hlen. cbv zeta. cbn [_parse_isolyzer_xml].
  rewrite Hi, Hf, Hs. unfold tests_of. rewrite Ht.
  assert (int_or_zero (str_of_Z z) = z) as Hz.
  { unfold int_or_zero. now rewrite numeral_truthy, int_of_str. }
  assert (forall text exn, PyNum.int_ text = inl exn -> int_or_zero text = 0) as He.
  { intros text exn H. unfold int_or_zero. rewrite H. now destruct (PyStr.truthy text). }
  repeat split.
  - intros ->. cbn. now rewrite Hz.
  - intros ->. cbn. now rewrite Hz.
  - intros ->. cbn. now rewrite Hz.
  - intros exn H. cbn. now rewrite (He _ _ H).
  - intros exn H. cbn. now rewrite (He _ _ H).
  - intros exn H. cbn. now rewrite (He _ _ H).
Qed.

Lemma sizes_read_as_written_witness :
  dict_get (_parse_isolyzer_xml (XmlRoot sample_report)) "size_difference_bytes"
  = Some (PInt (-2048)).
Proof.
  refine (proj1 (proj2 (proj2 (sizes_read_as_written (XmlRoot sample_report)
            sample_image sample_file_info sample_filesystems sample_tests (-2048)
            sample_report_parsed eq_refl _))) eq_refl).
  apply Nat.leb_le. vm_compute. reflexivity.
Defined.

(** X24: a [fileSizeInBytes] that is not empty and that [int] refuses
    makes the whole result an [unknown_error] record that carries the text
    of the [ValueError]; an empty or missing one counts as 0. *)
Theorem bad_file_size_fails_parse root image file :
  xml_find root "image" = Some image ->
  xml_find image "fileInfo" = Some file ->
  let text := _get_xml_text file "fileSizeInBytes" in
  let report := _parse_isolyzer_xml (XmlRoot root) in
  (forall exn, text <> "" -> PyNum.int_ text = inl exn ->
     report = [("error", PStr ("Unexpected parsing error: " +:+ exn));
               ("error_type", PStr "unknown_error")]) /\
  (text = "" ->
   exists file_info, file_info_of image = inr file_info /\
                     dict_get file_info "size_bytes" = Some (PInt 0)).
Proof.
  intros Hi Hf. cbv zeta. split.
  - intros exn Hne He. cbn [_parse_isolyzer_xml]. rewrite Hi.
    unfold file_info_of. rewrite Hf. unfold int_or_raise. rewrite He.
    destruct (_get_xml_text file "fileSizeInBytes"); [contradiction|reflexivity].
  - intros He. unfold file_info_of. rewrite Hf, He. eexists. split; reflexivity.
Qed.

Lemma bad_file_size_fails_parse_witness :
  _parse_isolyzer_xml
    (XmlRoot (Element (iso "isolyzer") [] None
                [Element (iso "image") [] None [sample_file "4 GB"]]))
  = [("error", PStr "Unexpected parsing error: invalid literal for int() with base 10: '4 GB'");
     ("error_type", PStr "unknown_error")].
Proof.
  refine (proj1 (bad_file_size_fails_parse
            (Element (iso "isolyzer") [] None
               [Element (iso "image") [] None [sample_file "4 GB"]])
            (Element (iso "image") [] None [sample_file "4 GB"])
            (sample_file "4 GB") eq_refl eq_refl) _ _ _).
  - vm_compute. intros H; discriminate H.
  - vm_compute. reflexivity.
Defined.

(** X25: the text [_get_xml_text] returns is stripped, so that stripping
    it again changes nothing: it is the stripped text of the first child
    with the tag, and it is empty when there is no such child or the child
    has no text. *)
Theorem xml_text_is_stripped e name :
  PyStr.strip (_get_xml_text e name) = _get_xml_text e name /\
  (forall found text, xml_find e name = Some found -> text_of found = Some text ->
     _get_xml_text e name = PyStr.strip text) /\
  (forall found, xml_find e name = Some found -> text_of found = None ->
     _get_xml_text e name = "") /\
  (xml_find e name = None -> _get_xml_text e name = "") /\
  (forall tag attrib text first rest,
     tag_of first = iso name ->
     _get_xml_text (Element tag attrib text (first :: rest)) name
     = _get_xml_text (Element tag attrib text [first]) name).
Proof.
  unfold _get_xml_text. split; [|split; [|split; [|split]]].
  - destruct (xml_find e name) as [found|]; [|reflexivity].
    destruct (text_of found) as [text|]; [|reflexivity].
    destruct (PyStr.truthy text); [apply strip_idempotent|reflexivity].
  - intros found text -> ->. destruct text; reflexivity.
  - intros found -> ->. reflexivity.
  - intros ->. reflexivity.
  - intros tag attrib text first rest Ht.
    unfold xml_find, has_tag. cbn [children_of find]. rewrite Ht, String.eqb_refl.
    reflexivity.
Qed.

(** ** The tree listing, from [tree] to the manifest *)

Lemma decode_encode s : decode_text (encode_text s) = s.
Proof. apply String.string_of_list_byte_of_string. Qed.

(** X26: the manifest of a successful run reports the totals [tree]
    printed: the listing written by [_generate_tree_listing] is the one
    [_create_manifest] reads back, so for an output in ASCII the summary in
    the manifest is the last [Total] line of [tree]'s output, and it is
    empty when [tree] could not be run. *)
Theorem manifest_carries_tree_totals c e w r w' :
  create_backup c e w = (Returned r, w') -> success r = true ->
  exists m,
    files w' !! manifest_path c = Some (encode_text (Json.dumps m)) /\
    (tree_run e = None ->
     py_path m ["operations_performed"; "tree_listing"; "summary"]
     = Some (PDict [])) /\
    (forall out head tail d f size,
       tree_run e = Some out ->
       all_chars is_ascii out = true ->
       TreeSummary.lines out = head ++ total_line d f size :: tail ->
       Forall (fun l => no_total l = true) tail ->
       0 <= d -> 0 <= f -> size <> "" -> PyStr.strip size = size ->
       (String.length (str_of_Z d) <= PyNum.max_str_digits)%nat ->
       (String.length (str_of_Z f) <= PyNum.max_str_digits)%nat ->
       py_path m ["operations_performed"; "tree_listing"; "summary"]
       = Some (PDict [("total_directories", PInt d); ("total_files", PInt f);
                      ("reported_size", PStr size)])).
Proof.
  intros Hrun Hok.
  destruct (success_manifest _ _ _ _ _ Hrun Hok)
    as (ha & hb & w1 & m & _ & _ & _ & _ & _ & _ & Htree & _ & Hm & Hw').
  exists m. split; [rewrite Hw'; cbn [files write_file]; apply lookup_insert_eq|].
  rewrite manifest_parts in Hm.
  destruct (volume_information _ _ _); [|discriminate].
  destruct (output_files _ _ _); [|discriminate].
  destruct (timing_performance r); [|discriminate].
  destruct (structural_analysis _); [|discriminate].
  injection Hm as <-.
  assert (_extract_tree_summary c w1
          = scan_listing
              (rev (TreeSummary.lines
                      match tree_run e with Some out => out | None => "" end)))
    as Hsum
    by (unfold _extract_tree_summary; rewrite Htree, decode_encode; reflexivity).
  split.
  - intros Hn.
    change (Some (PDict (_extract_tree_summary c w1)) = Some (PDict [])).
    rewrite Hsum, Hn. reflexivity.
  - intros out head tail d f size Ho _ Hl Ht Hd Hf Hne Hs Ld Lf.
    change (Some (PDict (_extract_tree_summary c w1))
            = Some (PDict [("total_directories", PInt d); ("total_files", PInt f);
                           ("reported_size", PStr size)])).
    rewrite Hsum, Ho, Hl,
      (scan_reads_total head tail d f size Ht Hd Hf Hne Hs Ld Lf).
    reflexivity.
Qed.

Lemma manifest_carries_tree_totals_witness :
  exists m,
    files sample_world !! manifest_path sample_config
    = Some (encode_text (Json.dumps m)) /\
    py_path m ["operations_performed"; "tree_listing"; "summary"]
    = Some (PDict [("total_directories", PInt 1); ("total_files", PInt 2);
                   ("reported_size", PStr "5 bytes")]).
Proof.
  destruct (manifest_carries_tree_totals sample_config sample_env empty_world
              sample_result sample_world sample_run eq_refl)
    as (m & Hfile & _ & Htotals).
  exists m. split; [exact Hfile|].
  apply (Htotals _ ["."] [] 1 2 "5 bytes" eq_refl).
  - vm_compute. reflexivity.
  - vm_compute. reflexivity.
  - constructor.
  - lia.
  - lia.
  - discriminate.
  - reflexivity.
  - apply Nat.leb_le. vm_compute. reflexivity.
  - apply Nat.leb_le. vm_compute. reflexivity.
Defined.
